(** * BusFleetManager: ticketing, trip and discount rules

    A shallow embedding of the request handlers and serializer hooks of
    [bus_fleet_api] (apps [tickets] and [trips]) together with the model
    declarations they rely on.

    Conventions of the embedding.
    - The relational store is a record of finite maps from primary keys to
      rows ([gmap nat _]); the append-only [TripEvent] table is a list.
    - A Python model instance held by a handler is a primary key together
      with a copy of its row; [save] writes that copy back under the key.
    - Timestamps are integers (seconds); decimal amounts with two places are
      integers counting hundredths; [PositiveIntegerField]s are integers.
    - [timezone.now()] is an argument of each handler.
    - The bookkeeping columns [created_at] and [updated_at] of [BaseModel]
      are not part of the rows.
    - Only authenticated users are considered. *)

From Stdlib Require Import ZArith Lia Ascii String.
From stdpp Require Import base option list strings gmap fin_maps.

Local Open Scope Z_scope.
Local Open Scope string_scope.

(** ** Enumerations ([models.TextChoices]) *)

Module TicketStatus.
Inductive t := RESERVED | CONFIRMED | CHECKED_IN | USED | CANCELLED | REFUNDED | EXPIRED.

#[global] Instance eq_dec : EqDecision t.
Proof. solve_decision. Defined.

Definition value (s : t) : string :=
  match s with
  | RESERVED => "Reserved"
  | CONFIRMED => "Confirmed"
  | CHECKED_IN => "Checked In"
  | USED => "Used"
  | CANCELLED => "Cancelled"
  | REFUNDED => "Refunded"
  | EXPIRED => "Expired"
  end.
End TicketStatus.

Module TripStatus.
Inductive t := SCHEDULED | ACTIVE | COMPLETED | CANCELLED | DELAYED.

#[global] Instance eq_dec : EqDecision t.
Proof. solve_decision. Defined.

Definition value (s : t) : string :=
  match s with
  | SCHEDULED => "Scheduled"
  | ACTIVE => "Active"
  | COMPLETED => "Completed"
  | CANCELLED => "Cancelled"
  | DELAYED => "Delayed"
  end.
End TripStatus.

Module BusStatus.
Inductive t := ACTIVE | MAINTENANCE | INACTIVE | RETIRED.

#[global] Instance eq_dec : EqDecision t.
Proof. solve_decision. Defined.

Definition value (s : t) : string :=
  match s with
  | ACTIVE => "Active"
  | MAINTENANCE => "Maintenance"
  | INACTIVE => "Inactive"
  | RETIRED => "Retired"
  end.
End BusStatus.

Module EmployeeRole.
Inductive t := DRIVER | CONDUCTOR | ADMIN | MANAGER | MECHANIC | CUSTOMER_SERVICE | OTHER.

#[global] Instance eq_dec : EqDecision t.
Proof. solve_decision. Defined.
End EmployeeRole.

Module UserRole.
Inductive t := ADMIN | MANAGER | STAFF | DRIVER | CONDUCTOR | CUSTOMER.

#[global] Instance eq_dec : EqDecision t.
Proof. solve_decision. Defined.
End UserRole.

Module DiscountType.
Inductive t := PERCENTAGE | FIXED_AMOUNT.

#[global] Instance eq_dec : EqDecision t.
Proof. solve_decision. Defined.
End DiscountType.

(** ** Rows of the tables ([models.py]) *)

(** [accounts.User]; [user_employee] is the reverse side of the one-to-one
    field [Employee.user] (absent when no employee is linked). *)
Record User := mkUser {
  user_id : nat;
  user_role : UserRole.t;
  user_company : option nat;
  user_employee : option nat
}.

(** [trips.Trip] *)
Record Trip := mkTrip {
  trip_company : nat;
  trip_driver : nat;
  trip_status : TripStatus.t;
  trip_capacity : Z;
  trip_booked_seats : Z;
  trip_actual_departure : option Z;
  trip_actual_arrival : option Z
}.

(** [trips.TripEvent] *)
Record TripEvent := mkTripEvent {
  event_company : nat;
  event_trip : nat;
  event_type : string;
  event_timestamp : Z;
  event_description : string;
  event_recorded_by : option nat
}.

(** [tickets.Ticket].  The model declares no reference to a booking. *)
Record Ticket := mkTicket {
  ticket_company : nat;
  ticket_trip : nat;
  ticket_customer : option nat;
  ticket_booking_reference : string;
  ticket_status : TicketStatus.t;
  ticket_checked_in_at : option Z;
  ticket_checked_in_by : option nat;
  ticket_cancellation_reason : option string;
  ticket_cancellation_date : option Z;
  ticket_refund_amount : option Z;
  ticket_refund_date : option Z;
  ticket_refund_reference : option string;
  ticket_expires_at : option Z
}.

(** [tickets.Booking] *)
Record Booking := mkBooking {
  booking_company : nat;
  booking_customer : option nat;
  booking_booking_reference : string
}.

(** [tickets.Discount] *)
Record Discount := mkDiscount {
  discount_company : nat;
  discount_code : string;
  discount_type : DiscountType.t;
  discount_value : Z;
  discount_start_date : Z;
  discount_end_date : option Z;
  discount_usage_limit : option Z;
  discount_usage_count : Z;
  discount_is_active : bool
}.

#[global] Instance Trip_eq_dec : EqDecision Trip.
Proof. solve_decision. Defined.
#[global] Instance Ticket_eq_dec : EqDecision Ticket.
Proof. solve_decision. Defined.
#[global] Instance Discount_eq_dec : EqDecision Discount.
Proof. solve_decision. Defined.

(** ** The store *)

Record DB := mkDB {
  users : gmap nat User;
  trips : gmap nat Trip;
  trip_events : list TripEvent;
  tickets : gmap nat Ticket;
  bookings : gmap nat Booking;
  discounts : gmap nat Discount
}.

Definition set_trips (f : gmap nat Trip -> gmap nat Trip) (db : DB) : DB :=
  mkDB (users db) (f (trips db)) (trip_events db) (tickets db) (bookings db) (discounts db).
Definition set_trip_events (f : list TripEvent -> list TripEvent) (db : DB) : DB :=
  mkDB (users db) (trips db) (f (trip_events db)) (tickets db) (bookings db) (discounts db).
Definition set_tickets (f : gmap nat Ticket -> gmap nat Ticket) (db : DB) : DB :=
  mkDB (users db) (trips db) (trip_events db) (f (tickets db)) (bookings db) (discounts db).
Definition set_bookings (f : gmap nat Booking -> gmap nat Booking) (db : DB) : DB :=
  mkDB (users db) (trips db) (trip_events db) (tickets db) (f (bookings db)) (discounts db).

(** [instance.save()] for an instance with primary key [pk] and fields [row]. *)
Definition save_trip (pk : nat) (row : Trip) : DB -> DB := set_trips (insert pk row).
Definition save_ticket (pk : nat) (row : Ticket) : DB -> DB := set_tickets (insert pk row).

(** ** Responses and exceptions *)

Inductive Body :=
| Detail (msg : string)
| FieldErrors (field msg : string)
| DiscountData (d : Discount).

Record Response := mkResponse { status_code : Z; data : Body }.

Definition HTTP_200_OK : Z := 200.
Definition HTTP_400_BAD_REQUEST : Z := 400.
Definition HTTP_403_FORBIDDEN : Z := 403.
Definition HTTP_404_NOT_FOUND : Z := 404.
Definition HTTP_500_INTERNAL_SERVER_ERROR : Z := 500.

(** [serializers.ValidationError] carries either a [{field: message}] mapping
    or a bare message; the other exceptions are not handled by the
    application code. *)
Inductive exn :=
| ValidationError (field : option string) (msg : string)
| NameError (name : string)
| IntegrityError (column : string).

Inductive result (A : Type) :=
| Ok (a : A)
| Raise (e : exn).
Arguments Ok {A} a.
Arguments Raise {A} e.

(** ** Field setters (attribute assignment on an instance) *)

Definition trip_with_status (s : TripStatus.t) (t : Trip) : Trip :=
  mkTrip (trip_company t) (trip_driver t) s (trip_capacity t) (trip_booked_seats t)
         (trip_actual_departure t) (trip_actual_arrival t).
Definition trip_with_booked_seats (n : Z) (t : Trip) : Trip :=
  mkTrip (trip_company t) (trip_driver t) (trip_status t) (trip_capacity t) n
         (trip_actual_departure t) (trip_actual_arrival t).
Definition trip_with_actual_departure (d : option Z) (t : Trip) : Trip :=
  mkTrip (trip_company t) (trip_driver t) (trip_status t) (trip_capacity t)
         (trip_booked_seats t) d (trip_actual_arrival t).
Definition trip_with_actual_arrival (a : option Z) (t : Trip) : Trip :=
  mkTrip (trip_company t) (trip_driver t) (trip_status t) (trip_capacity t)
         (trip_booked_seats t) (trip_actual_departure t) a.

Definition ticket_with_trip (x : nat) (t : Ticket) : Ticket :=
  mkTicket (ticket_company t) x (ticket_customer t) (ticket_booking_reference t)
    (ticket_status t) (ticket_checked_in_at t) (ticket_checked_in_by t)
    (ticket_cancellation_reason t) (ticket_cancellation_date t) (ticket_refund_amount t)
    (ticket_refund_date t) (ticket_refund_reference t) (ticket_expires_at t).
Definition ticket_with_customer (x : option nat) (t : Ticket) : Ticket :=
  mkTicket (ticket_company t) (ticket_trip t) x (ticket_booking_reference t)
    (ticket_status t) (ticket_checked_in_at t) (ticket_checked_in_by t)
    (ticket_cancellation_reason t) (ticket_cancellation_date t) (ticket_refund_amount t)
    (ticket_refund_date t) (ticket_refund_reference t) (ticket_expires_at t).
Definition ticket_with_status (x : TicketStatus.t) (t : Ticket) : Ticket :=
  mkTicket (ticket_company t) (ticket_trip t) (ticket_customer t) (ticket_booking_reference t)
    x (ticket_checked_in_at t) (ticket_checked_in_by t)
    (ticket_cancellation_reason t) (ticket_cancellation_date t) (ticket_refund_amount t)
    (ticket_refund_date t) (ticket_refund_reference t) (ticket_expires_at t).
Definition ticket_with_checked_in_at (x : option Z) (t : Ticket) : Ticket :=
  mkTicket (ticket_company t) (ticket_trip t) (ticket_customer t) (ticket_booking_reference t)
    (ticket_status t) x (ticket_checked_in_by t)
    (ticket_cancellation_reason t) (ticket_cancellation_date t) (ticket_refund_amount t)
    (ticket_refund_date t) (ticket_refund_reference t) (ticket_expires_at t).
Definition ticket_with_checked_in_by (x : option nat) (t : Ticket) : Ticket :=
  mkTicket (ticket_company t) (ticket_trip t) (ticket_customer t) (ticket_booking_reference t)
    (ticket_status t) (ticket_checked_in_at t) x
    (ticket_cancellation_reason t) (ticket_cancellation_date t) (ticket_refund_amount t)
    (ticket_refund_date t) (ticket_refund_reference t) (ticket_expires_at t).
Definition ticket_with_cancellation_reason (x : option string) (t : Ticket) : Ticket :=
  mkTicket (ticket_company t) (ticket_trip t) (ticket_customer t) (ticket_booking_reference t)
    (ticket_status t) (ticket_checked_in_at t) (ticket_checked_in_by t)
    x (ticket_cancellation_date t) (ticket_refund_amount t)
    (ticket_refund_date t) (ticket_refund_reference t) (ticket_expires_at t).
Definition ticket_with_cancellation_date (x : option Z) (t : Ticket) : Ticket :=
  mkTicket (ticket_company t) (ticket_trip t) (ticket_customer t) (ticket_booking_reference t)
    (ticket_status t) (ticket_checked_in_at t) (ticket_checked_in_by t)
    (ticket_cancellation_reason t) x (ticket_refund_amount t)
    (ticket_refund_date t) (ticket_refund_reference t) (ticket_expires_at t).
Definition ticket_with_refund_amount (x : option Z) (t : Ticket) : Ticket :=
  mkTicket (ticket_company t) (ticket_trip t) (ticket_customer t) (ticket_booking_reference t)
    (ticket_status t) (ticket_checked_in_at t) (ticket_checked_in_by t)
    (ticket_cancellation_reason t) (ticket_cancellation_date t) x
    (ticket_refund_date t) (ticket_refund_reference t) (ticket_expires_at t).
Definition ticket_with_refund_date (x : option Z) (t : Ticket) : Ticket :=
  mkTicket (ticket_company t) (ticket_trip t) (ticket_customer t) (ticket_booking_reference t)
    (ticket_status t) (ticket_checked_in_at t) (ticket_checked_in_by t)
    (ticket_cancellation_reason t) (ticket_cancellation_date t) (ticket_refund_amount t)
    x (ticket_refund_reference t) (ticket_expires_at t).
Definition ticket_with_refund_reference (x : option string) (t : Ticket) : Ticket :=
  mkTicket (ticket_company t) (ticket_trip t) (ticket_customer t) (ticket_booking_reference t)
    (ticket_status t) (ticket_checked_in_at t) (ticket_checked_in_by t)
    (ticket_cancellation_reason t) (ticket_cancellation_date t) (ticket_refund_amount t)
    (ticket_refund_date t) x (ticket_expires_at t).
Definition ticket_with_expires_at (x : option Z) (t : Ticket) : Ticket :=
  mkTicket (ticket_company t) (ticket_trip t) (ticket_customer t) (ticket_booking_reference t)
    (ticket_status t) (ticket_checked_in_at t) (ticket_checked_in_by t)
    (ticket_cancellation_reason t) (ticket_cancellation_date t) (ticket_refund_amount t)
    (ticket_refund_date t) (ticket_refund_reference t) x.

(** [setattr] for a key that may be missing from [validated_data]. *)
Definition set_if_present {A R : Type} (set : A -> R -> R) (v : option A) (r : R) : R :=
  match v with
  | Some x => set x r
  | None => r
  end.

(** ** Strings: [str.lower] and the [random.choices] alphabets *)

Definition ascii_lower (a : ascii) : ascii :=
  let n := nat_of_ascii a in
  if (Nat.leb 65 n && Nat.leb n 90)%bool then ascii_of_nat (n + 32) else a.

Fixpoint lower (s : string) : string :=
  match s with
  | EmptyString => EmptyString
  | String a s' => String (ascii_lower a) (lower s')
  end.

Definition ascii_uppercase : list ascii :=
  list_ascii_of_string "ABCDEFGHIJKLMNOPQRSTUVWXYZ".
Definition digits : list ascii :=
  list_ascii_of_string "0123456789".

(** The random generator is a sequence of draws [rng] read from a cursor;
    one draw selects one element of the population. *)
Definition choice (population : list ascii) (r : nat) : ascii :=
  nth (Nat.modulo r (length population)) population "000"%char.

Definition choices (population : list ascii) (k : nat) (rng : nat -> nat) (cursor : nat)
  : list ascii :=
  map (fun i => choice population (rng (cursor + i)%nat)) (seq 0 k).

(** [f"{letters}{digits}"] with [letters] and [digits] drawn as in the source:
    two draws from [string.ascii_uppercase], then six from [string.digits]. *)
Definition draw_reference (rng : nat -> nat) (cursor : nat) : string :=
  string_of_list_ascii (choices ascii_uppercase 2 rng cursor)
  +:+ string_of_list_ascii (choices digits 6 rng (cursor + 2)%nat).

(** The format "2 uppercase letters + 6 digits" as a decidable check. *)
Definition is_upper (a : ascii) : bool := bool_decide (a ∈ ascii_uppercase).
Definition is_digit (a : ascii) : bool := bool_decide (a ∈ digits).

Definition reference_format (s : string) : bool :=
  match list_ascii_of_string s with
  | [l1; l2; d1; d2; d3; d4; d5; d6] =>
      is_upper l1 && is_upper l2 &&
      is_digit d1 && is_digit d2 && is_digit d3 && is_digit d4 && is_digit d5 && is_digit d6
  | _ => false
  end.

(** The [while] loop shared by the two [_generate_booking_reference] methods:
    [ref] is the current candidate, [cursor] the position of the next draw and
    [exists_] the query [Model.objects.filter(booking_reference=ref).exists()].
    The loop has no bound in the source; [fuel] bounds the number of tests
    here and [None] stands for a run that has not returned within that bound. *)
Fixpoint regenerate_while_exists (fuel : nat) (exists_ : string -> bool) (rng : nat -> nat)
    (cursor : nat) (ref : string) : option string :=
  match fuel with
  | O => None
  | S fuel' =>
      if exists_ ref
      then regenerate_while_exists fuel' exists_ rng (cursor + 8)%nat (draw_reference rng cursor)
      else Some ref
  end.

(** ** tickets/serializers.py: [TicketSerializer] *)

Module TicketSerializer.

(** [validated_data] of a creation request.  [vd_trip] is the [Trip]
    instance resolved by the [trip] field (primary key and row as loaded);
    a key that the request omitted is [None]; [expires_at] is nullable, so
    a present key may hold [None].  [booking_reference] and [company] are
    read-only and never part of the request. *)
Record CreateData := mkCreateData {
  vd_trip : nat * Trip;
  vd_customer : option nat;
  vd_status : option TicketStatus.t;
  vd_expires_at : option (option Z)
}.

(** [Ticket.objects.filter(booking_reference=ref).exists()] *)
Definition reference_exists (db : DB) (ref : string) : bool :=
  bool_decide (map_Exists (fun _ t => ticket_booking_reference t = ref) (tickets db)).

Definition _generate_booking_reference (fuel : nat) (db : DB) (rng : nat -> nat)
  : option string :=
  regenerate_while_exists fuel (reference_exists db) rng 8%nat (draw_reference rng 0).

Definition no_seats_available : exn :=
  ValidationError (Some "trip") "No seats available for this trip".
Definition cannot_book (s : TripStatus.t) : exn :=
  ValidationError (Some "trip")
    ("Cannot book ticket for a " +:+ lower (TripStatus.value s) +:+ " trip").

(** [super().create(validated_data)]: the row built from the validated data
    and the model defaults ([status] defaults to Reserved, the nullable
    columns to NULL), stored under a new primary key. *)
Definition new_ticket (company : nat) (reference : string)
    (status : option TicketStatus.t) (expires_at : option (option Z))
    (vd : CreateData) : Ticket :=
  mkTicket company (fst (vd_trip vd)) (vd_customer vd) reference
    (default TicketStatus.RESERVED status)
    None None None None None None None
    (default None expires_at).

Definition create (fuel : nat) (rng : nat -> nat) (now : Z) (user : User)
    (vd : CreateData) (db : DB) : option (DB * result (nat * Ticket)) :=
  (* validated_data['company'] = self.context['request'].user.company *)
  let company := user_company user in
  (* 'booking_reference' not in validated_data: always, the field is read-only *)
  match _generate_booking_reference fuel db rng with
  | None => None
  | Some booking_reference =>
      let '(trip_pk, trip) := vd_trip vd in
      if bool_decide (trip_capacity trip <= trip_booked_seats trip) then
        Some (db, Raise no_seats_available)
      else if bool_decide (trip_status trip ∈ [TripStatus.CANCELLED; TripStatus.COMPLETED]) then
        Some (db, Raise (cannot_book (trip_status trip)))
      else
        let expires_at :=
          if bool_decide (vd_status vd = Some TicketStatus.RESERVED)
             && bool_decide (vd_expires_at vd = None)
          then Some (Some (now + 24 * 3600))
          else vd_expires_at vd in
        match company with
        | None => Some (db, Raise (IntegrityError "company_id"))
        | Some c =>
            let ticket := new_ticket c booking_reference (vd_status vd) expires_at vd in
            let pk := fresh (dom (tickets db)) in
            let db1 := save_ticket pk ticket db in
            (* trip.booked_seats += 1; trip.save() *)
            let db2 := save_trip trip_pk
                         (trip_with_booked_seats (trip_booked_seats trip + 1) trip) db1 in
            Some (db2, Ok (pk, ticket))
        end
  end.

(** [validated_data] of an update: one optional entry per writable column. *)
Record UpdateData := mkUpdateData {
  upd_trip : option nat;
  upd_customer : option (option nat);
  upd_status : option TicketStatus.t;
  upd_checked_in_at : option (option Z);
  upd_checked_in_by : option (option nat);
  upd_cancellation_reason : option (option string);
  upd_cancellation_date : option (option Z);
  upd_refund_amount : option (option Z);
  upd_refund_date : option (option Z);
  upd_refund_reference : option (option string);
  upd_expires_at : option (option Z)
}.

(** [super().update(instance, validated_data)] before the final [save]:
    every key of [validated_data] is assigned to the instance. *)
Definition assign_all (vd : UpdateData) (t : Ticket) : Ticket :=
  set_if_present ticket_with_expires_at (upd_expires_at vd)
  (set_if_present ticket_with_refund_reference (upd_refund_reference vd)
  (set_if_present ticket_with_refund_date (upd_refund_date vd)
  (set_if_present ticket_with_refund_amount (upd_refund_amount vd)
  (set_if_present ticket_with_cancellation_date (upd_cancellation_date vd)
  (set_if_present ticket_with_cancellation_reason (upd_cancellation_reason vd)
  (set_if_present ticket_with_checked_in_by (upd_checked_in_by vd)
  (set_if_present ticket_with_checked_in_at (upd_checked_in_at vd)
  (set_if_present ticket_with_status (upd_status vd)
  (set_if_present ticket_with_customer (upd_customer vd)
  (set_if_present ticket_with_trip (upd_trip vd) t)))))))))).

Definition with_cancellation_date (d : option (option Z)) (vd : UpdateData) : UpdateData :=
  mkUpdateData (upd_trip vd) (upd_customer vd) (upd_status vd) (upd_checked_in_at vd)
    (upd_checked_in_by vd) (upd_cancellation_reason vd) d (upd_refund_amount vd)
    (upd_refund_date vd) (upd_refund_reference vd) (upd_expires_at vd).
Definition with_checked_in_at (d : option (option Z)) (vd : UpdateData) : UpdateData :=
  mkUpdateData (upd_trip vd) (upd_customer vd) (upd_status vd) d
    (upd_checked_in_by vd) (upd_cancellation_reason vd) (upd_cancellation_date vd)
    (upd_refund_amount vd) (upd_refund_date vd) (upd_refund_reference vd) (upd_expires_at vd).

(** The decrement of [update] and of the [cancel] action:
    [trip.booked_seats = max(0, trip.booked_seats - 1); trip.save()] on the
    trip reached through the ticket's foreign key.  The key always resolves
    (foreign-key constraint); were it dangling the store is left as it is. *)
Definition release_seat (trip_pk : nat) (db : DB) : DB :=
  match trips db !! trip_pk with
  | Some trip =>
      save_trip trip_pk (trip_with_booked_seats (Z.max 0 (trip_booked_seats trip - 1)) trip) db
  | None => db
  end.

Definition update (now : Z) (instance : nat * Ticket) (vd : UpdateData) (db : DB)
  : DB * result (nat * Ticket) :=
  let '(pk, row) := instance in
  let to_cancelled :=
    bool_decide (upd_status vd = Some TicketStatus.CANCELLED)
    && bool_decide (ticket_status row <> TicketStatus.CANCELLED) in
  if to_cancelled && bool_decide (upd_cancellation_reason vd = None) then
    (db, Raise (ValidationError (Some "cancellation_reason") "Cancellation reason is required"))
  else
    let '(vd1, db1) :=
      if to_cancelled
      then (with_cancellation_date (Some (Some now)) vd, release_seat (ticket_trip row) db)
      else (vd, db) in
    let vd2 :=
      if bool_decide (upd_status vd1 = Some TicketStatus.CHECKED_IN)
         && bool_decide (ticket_status row <> TicketStatus.CHECKED_IN)
      then with_checked_in_at (Some (Some now)) vd1
      else vd1 in
    let row' := assign_all vd2 row in
    (save_ticket pk row' db1, Ok (pk, row')).

End TicketSerializer.

(** ** tickets/serializers.py: [TicketCheckInSerializer] *)

Module TicketCheckInSerializer.

Definition validate_checked_in_by (user : User) (value : User) : User + Body :=
  if bool_decide (user_company value <> user_company user)
  then inr (FieldErrors "checked_in_by" "User does not belong to your company")
  else inl value.

(** [is_valid()] and the resulting [validated_data.get('checked_in_by')]: the
    key is optional; when present it must be the primary key of a user, who
    is then checked by [validate_checked_in_by]. *)
Definition is_valid (user : User) (checked_in_by : option nat) (db : DB)
  : option User + Body :=
  match checked_in_by with
  | None => inl None
  | Some uid =>
      match users db !! uid with
      | None => inr (FieldErrors "checked_in_by" "Invalid pk - object does not exist.")
      | Some value =>
          match validate_checked_in_by user value with
          | inl u => inl (Some u)
          | inr errors => inr errors
          end
      end
  end.

End TicketCheckInSerializer.

(** ** tickets/views.py: [TicketViewSet] *)

Module TicketViewSet.

(** Membership in [get_queryset()]: the user's company, and for a customer
    only their own tickets; empty when the user has no company. *)
Definition in_queryset (user : User) (t : Ticket) : bool :=
  match user_company user with
  | None => false
  | Some c =>
      bool_decide (ticket_company t = c)
      && (if bool_decide (user_role user = UserRole.CUSTOMER)
          then bool_decide (ticket_customer t = Some (user_id user))
          else true)
  end.

(** [IsSameCompanyOnly.has_object_permission] *)
Definition has_object_permission (user : User) (company : nat) : bool :=
  bool_decide (Some company = user_company user).

Definition not_found : Response := mkResponse HTTP_404_NOT_FOUND (Detail "Not found.").
Definition permission_denied : Response :=
  mkResponse HTTP_403_FORBIDDEN
    (Detail "You do not have permission to perform this action.").
Definition server_error : Response :=
  mkResponse HTTP_500_INTERNAL_SERVER_ERROR (Detail "Server Error (500)").

(** [self.get_object()]: the row or the error response. *)
Definition get_object (user : User) (pk : nat) (db : DB) : Ticket + Response :=
  match tickets db !! pk with
  | Some t =>
      if in_queryset user t then
        if has_object_permission user (ticket_company t) then inl t
        else inr permission_denied
      else inr not_found
  | None => inr not_found
  end.

Definition cannot_check_in (s : TicketStatus.t) : Response :=
  mkResponse HTTP_400_BAD_REQUEST
    (Detail ("Ticket cannot be checked in (current status: " +:+ TicketStatus.value s +:+ ")")).
Definition cannot_cancel (s : TicketStatus.t) : Response :=
  mkResponse HTTP_400_BAD_REQUEST
    (Detail ("Ticket cannot be cancelled (current status: " +:+ TicketStatus.value s +:+ ")")).
Definition cannot_refund : Response :=
  mkResponse HTTP_400_BAD_REQUEST (Detail "Only cancelled tickets can be refunded").

Definition check_in (now : Z) (user : User) (pk : nat) (checked_in_by : option nat)
    (db : DB) : DB * Response :=
  match get_object user pk db with
  | inr resp => (db, resp)
  | inl ticket =>
      match TicketCheckInSerializer.is_valid user checked_in_by db with
      | inr errors => (db, mkResponse HTTP_400_BAD_REQUEST errors)
      | inl validated =>
          if bool_decide (ticket_status ticket ∉ [TicketStatus.CONFIRMED; TicketStatus.RESERVED])
          then (db, cannot_check_in (ticket_status ticket))
          else
            let ticket1 :=
              ticket_with_checked_in_at (Some now)
                (ticket_with_status TicketStatus.CHECKED_IN ticket) in
            match validated with
            | Some u =>
                (* serializer.validated_data['checked_in_by'].employee raises
                   when no employee is linked to that user *)
                match user_employee u with
                | None => (db, server_error)
                | Some employee =>
                    (save_ticket pk (ticket_with_checked_in_by (Some employee) ticket1) db,
                     mkResponse HTTP_200_OK (Detail "Ticket checked in successfully"))
                end
            | None =>
                (save_ticket pk ticket1 db,
                 mkResponse HTTP_200_OK (Detail "Ticket checked in successfully"))
            end
      end
  end.

(** [reason] is the [reason] key of the request body ([None] when absent). *)
Definition cancel (now : Z) (user : User) (pk : nat) (reason : option string)
    (db : DB) : DB * Response :=
  match get_object user pk db with
  | inr resp => (db, resp)
  | inl ticket =>
      let reason := default "" reason in
      if bool_decide (reason = "") then
        (db, mkResponse HTTP_400_BAD_REQUEST (Detail "Cancellation reason is required"))
      else if bool_decide (ticket_status ticket ∉ [TicketStatus.RESERVED; TicketStatus.CONFIRMED])
      then (db, cannot_cancel (ticket_status ticket))
      else
        let ticket1 :=
          ticket_with_cancellation_date (Some now)
            (ticket_with_cancellation_reason (Some reason)
               (ticket_with_status TicketStatus.CANCELLED ticket)) in
        let db1 := save_ticket pk ticket1 db in
        (TicketSerializer.release_seat (ticket_trip ticket1) db1,
         mkResponse HTTP_200_OK (Detail "Ticket cancelled successfully"))
  end.

(** [refund_amount] in hundredths; [not refund_amount] holds for a missing
    key and for zero. *)
Definition refund (now : Z) (user : User) (pk : nat) (refund_amount : option Z)
    (refund_reference : option string) (db : DB) : DB * Response :=
  match get_object user pk db with
  | inr resp => (db, resp)
  | inl ticket =>
      if bool_decide (ticket_status ticket <> TicketStatus.CANCELLED) then (db, cannot_refund)
      else if bool_decide (refund_amount = None \/ refund_amount = Some 0) then
        (db, mkResponse HTTP_400_BAD_REQUEST (Detail "Refund amount is required"))
      else
        let ticket1 :=
          ticket_with_refund_reference (Some (default "" refund_reference))
            (ticket_with_refund_date (Some now)
               (ticket_with_refund_amount refund_amount
                  (ticket_with_status TicketStatus.REFUNDED ticket))) in
        (save_ticket pk ticket1 db,
         mkResponse HTTP_200_OK (Detail "Ticket refunded successfully"))
  end.

(** The queryset of [expired]:
    [Q(status=RESERVED) & Q(expires_at__lt=now)] over [get_queryset()]. *)
Definition is_expired (now : Z) (t : Ticket) : bool :=
  bool_decide (ticket_status t = TicketStatus.RESERVED)
  && match ticket_expires_at t with
     | Some e => bool_decide (e < now)
     | None => false
     end.

Definition expired (now : Z) (user : User) (db : DB) : gmap nat Ticket :=
  filter (fun kt => in_queryset user kt.2 && is_expired now kt.2 = true) (tickets db).

End TicketViewSet.

(** ** tickets/serializers.py: [BookingSerializer] *)

Module BookingSerializer.

(** A [Ticket] instance as held in [tickets_data]: its key, its model
    fields, and the plain attribute [booking] that the loop of [create]
    assigns.  [Ticket] declares no such field, so [save] does not write it. *)
Record TicketInstance := mkTicketInstance {
  inst_pk : nat;
  inst_row : Ticket;
  inst_booking : option nat
}.

(** The instances resolved by the [tickets] field
    ([PrimaryKeyRelatedField(many=True, queryset=Ticket.objects.all())]):
    each key is looked up among all tickets, whatever their company. *)
Definition load_tickets (pks : list nat) (db : DB) : option (list TicketInstance) :=
  mapM (fun pk => (fun row => mkTicketInstance pk row None) <$> tickets db !! pk) pks.

Record CreateData := mkCreateData {
  vd_tickets : option (list TicketInstance);
  vd_customer : option nat
}.

Definition reference_exists (db : DB) (ref : string) : bool :=
  bool_decide (map_Exists (fun _ b => booking_booking_reference b = ref) (bookings db)).

Definition _generate_booking_reference (fuel : nat) (db : DB) (rng : nat -> nat)
  : option string :=
  regenerate_while_exists fuel (reference_exists db) rng 8%nat (draw_reference rng 0).

Definition foreign_ticket (t : TicketInstance) : exn :=
  ValidationError None
    ("Ticket " +:+ ticket_booking_reference (inst_row t)
     +:+ " does not belong to your company").

(** The [for ticket in tickets_data] loop.  It returns the store and the
    instances as the loop leaves them, also when it raises part-way. *)
Fixpoint associate (booking_pk : nat) (booking : Booking) (tickets_data : list TicketInstance)
    (db : DB) : DB * list TicketInstance * option exn :=
  match tickets_data with
  | [] => (db, [], None)
  | ticket :: rest =>
      if bool_decide (ticket_company (inst_row ticket) <> booking_company booking) then
        (db, ticket :: rest, Some (foreign_ticket ticket))
      else
        (* ticket.booking = booking; ticket.save() *)
        let ticket' := mkTicketInstance (inst_pk ticket) (inst_row ticket) (Some booking_pk) in
        let db1 := save_ticket (inst_pk ticket') (inst_row ticket') db in
        let '(db2, rest', e) := associate booking_pk booking rest db1 in
        (db2, ticket' :: rest', e)
  end.

(** The body of [create], without the decorator.  Besides the booking it
    returns the instances of [tickets_data] as the loop left them. *)
Definition create_body (fuel : nat) (rng : nat -> nat) (user : User) (vd : CreateData)
    (db : DB) : option (DB * list TicketInstance * result (nat * Booking)) :=
  let tickets_data := default [] (vd_tickets vd) in
  let company := user_company user in
  match _generate_booking_reference fuel db rng with
  | None => None
  | Some booking_reference =>
      match company with
      | None => Some (db, tickets_data, Raise (IntegrityError "company_id"))
      | Some c =>
          let booking := mkBooking c (vd_customer vd) booking_reference in
          let pk := fresh (dom (bookings db)) in
          let db1 := set_bookings (insert pk booking) db in
          match associate pk booking tickets_data db1 with
          | (db2, tickets', Some e) => Some (db2, tickets', Raise e)
          | (db2, tickets', None) => Some (db2, tickets', Ok (pk, booking))
          end
      end
  end.

(** [@transaction.atomic]: the writes of the body are kept when it returns
    and undone when it raises.  Python objects are not part of the
    transaction: the instances keep what was assigned to them. *)
Definition atomic {A B : Type} (body : DB -> option (DB * B * result A)) (db : DB)
  : option (DB * B * result A) :=
  match body db with
  | Some (db', b, Ok a) => Some (db', b, Ok a)
  | Some (_, b, Raise e) => Some (db, b, Raise e)
  | None => None
  end.

Definition create (fuel : nat) (rng : nat -> nat) (user : User) (vd : CreateData)
  : DB -> option (DB * list TicketInstance * result (nat * Booking)) :=
  atomic (create_body fuel rng user vd).

End BookingSerializer.

(** ** tickets/serializers.py: [DiscountSerializer] *)

Module DiscountSerializer.

(** The data handed to [validate]: one optional entry per writable column
    ([usage_count] and [company] are read-only). *)
Record Data := mkData {
  d_code : option string;
  d_type : option DiscountType.t;
  d_value : option Z;
  d_start_date : option Z;
  d_end_date : option (option Z);
  d_usage_limit : option (option Z);
  d_is_active : option bool
}.

(** [data.get(key)] for a nullable entry: absent and null both give None. *)
Definition get {A : Type} (v : option (option A)) : option A := default None v.

Definition validate (data : Data) : result Data :=
  if match get (d_end_date data), d_start_date data with
     | Some e, Some s => bool_decide (e <= s)
     | _, _ => false
     end
  then Raise (ValidationError (Some "end_date") "End date must be after start date")
  else if bool_decide (d_type data = Some DiscountType.PERCENTAGE)
          && bool_decide (default 0 (d_value data) > 100 * 100)
  then Raise (ValidationError (Some "value") "Percentage discount cannot exceed 100%")
  else Ok data.

Definition required (name : string) : exn :=
  ValidationError (Some name) "This field is required.".

(** [is_valid()]: the fields without a model default ([code], [value],
    [start_date]) are required unless the update is partial; then
    [validate] runs on what the request supplied. *)
Definition is_valid (partial : bool) (data : Data) : result Data :=
  if negb partial && bool_decide (d_code data = None) then Raise (required "code")
  else if negb partial && bool_decide (d_value data = None) then Raise (required "value")
  else if negb partial && bool_decide (d_start_date data = None) then Raise (required "start_date")
  else validate data.

(** [super().create(validated_data)]: omitted columns take the model
    defaults ([type] Percentage, [usage_count] 0, [is_active] True, the
    nullable columns NULL). *)
Definition new_discount (company : nat) (data : Data) : Discount :=
  mkDiscount company (default "" (d_code data))
    (default DiscountType.PERCENTAGE (d_type data))
    (default 0 (d_value data)) (default 0 (d_start_date data))
    (get (d_end_date data)) (get (d_usage_limit data)) 0
    (default true (d_is_active data)).

Definition save_discount (pk : nat) (row : Discount) (db : DB) : DB :=
  mkDB (users db) (trips db) (trip_events db) (tickets db) (bookings db)
       (<[pk := row]> (discounts db)).

Definition create (user : User) (validated_data : Data) (db : DB)
  : DB * result (nat * Discount) :=
  match user_company user with
  | None => (db, Raise (IntegrityError "company_id"))
  | Some c =>
      let row := new_discount c validated_data in
      let pk := fresh (dom (discounts db)) in
      (save_discount pk row db, Ok (pk, row))
  end.

(** The inherited [update]: every supplied key is assigned, then [save]. *)
Definition assign_all (data : Data) (d : Discount) : Discount :=
  mkDiscount (discount_company d)
    (default (discount_code d) (d_code data))
    (default (discount_type d) (d_type data))
    (default (discount_value d) (d_value data))
    (default (discount_start_date d) (d_start_date data))
    (default (discount_end_date d) (d_end_date data))
    (default (discount_usage_limit d) (d_usage_limit data))
    (discount_usage_count d)
    (default (discount_is_active d) (d_is_active data)).

Definition update (instance : nat * Discount) (validated_data : Data) (db : DB)
  : DB * result (nat * Discount) :=
  let '(pk, row) := instance in
  let row' := assign_all validated_data row in
  (save_discount pk row' db, Ok (pk, row')).

(** [serializer.is_valid(raise_exception=True); serializer.save()] as run by
    the create and update actions of the view set. *)
Definition save_new (user : User) (data : Data) (db : DB) : DB * result (nat * Discount) :=
  match is_valid false data with
  | Raise e => (db, Raise e)
  | Ok validated_data => create user validated_data db
  end.

Definition save_existing (partial : bool) (instance : nat * Discount) (data : Data) (db : DB)
  : DB * result (nat * Discount) :=
  match is_valid partial data with
  | Raise e => (db, Raise e)
  | Ok validated_data => update instance validated_data db
  end.

End DiscountSerializer.

(** ** tickets/views.py: [DiscountViewSet.validate_code] *)

Module DiscountViewSet.

(** The filters of the query: the user's company ([get_queryset]), then
    [code=code, is_active=True, start_date__lte=now] and
    [Q(end_date__isnull=True) | Q(end_date__gte=now)]. *)
Definition selected (now : Z) (user : User) (code : string) (d : Discount) : bool :=
  bool_decide (user_company user = Some (discount_company d))
  && bool_decide (discount_code d = code)
  && discount_is_active d
  && bool_decide (discount_start_date d <= now)
  && match discount_end_date d with
     | None => true
     | Some e => bool_decide (e >= now)
     end.

(** [discount.usage_limit and discount.usage_count >= discount.usage_limit] *)
Definition limit_reached (d : Discount) : bool :=
  match discount_usage_limit d with
  | None => false
  | Some l => negb (bool_decide (l = 0)) && bool_decide (discount_usage_count d >= l)
  end.

Definition validate_code (now : Z) (user : User) (code : option string) (db : DB)
  : DB * Response :=
  match code with
  | None | Some "" =>
      (db, mkResponse HTTP_400_BAD_REQUEST (Detail "Discount code is required"))
  | Some code =>
      match map_to_list (filter (fun kd => selected now user code kd.2 = true) (discounts db)) with
      | [] =>
          (* Discount.DoesNotExist *)
          (db, mkResponse HTTP_404_NOT_FOUND (Detail "Invalid or expired discount code"))
      | [(_, discount)] =>
          if limit_reached discount then
            (db, mkResponse HTTP_400_BAD_REQUEST
                   (Detail "Discount code has reached its usage limit"))
          else (db, mkResponse HTTP_200_OK (DiscountData discount))
      | _ =>
          (* Discount.MultipleObjectsReturned is not caught *)
          (db, TicketViewSet.server_error)
      end
  end.

End DiscountViewSet.

(** ** trips/serializers.py: [TripSerializer.validate] *)

Module TripSerializer.

(** The related objects a creation request resolves to, with the columns
    that [validate] reads. *)
Record Route := mkRoute { route_company : nat }.
Record Bus := mkBus { bus_company : nat; bus_status : BusStatus.t }.
Record Employee := mkEmployee { employee_company : nat; employee_role : EmployeeRole.t }.

(** Dates are day numbers, times of day are seconds since midnight. *)
Record Data := mkData {
  d_route : Route;
  d_bus : Bus;
  d_driver : Employee;
  d_conductor : option Employee;
  d_capacity : option Z;
  d_departure_date : Z;
  d_departure_time : Z;
  d_arrival_date : Z;
  d_arrival_time : Z
}.

(** The names bound at module level in trips/serializers.py: what the
    import statements of lines 4 to 8 bring in, and the three classes the
    module defines. *)
Definition module_globals : list string :=
  ["serializers"; "Trip"; "TripEvent"; "TripStop"; "RouteSerializer";
   "Employee"; "EmployeeRole"; "Bus"; "BusStatus";
   "TripSerializer"; "TripEventSerializer"; "TripStopSerializer"].

(** [datetime.combine(date, time)] and the order of naive datetimes. *)
Definition combine (date time : Z) : Z * Z := (date, time).
Definition datetime_ge (a b : Z * Z) : bool :=
  bool_decide (a.1 > b.1 \/ (a.1 = b.1 /\ a.2 >= b.2)).

Definition validate (user : User) (data : Data) : result Data :=
  let company := user_company user in
  if bool_decide (Some (route_company (d_route data)) <> company) then
    Raise (ValidationError (Some "route") "Route does not belong to your company")
  else if bool_decide (Some (bus_company (d_bus data)) <> company) then
    Raise (ValidationError (Some "bus") "Bus does not belong to your company")
  else if bool_decide (Some (employee_company (d_driver data)) <> company) then
    Raise (ValidationError (Some "driver") "Driver does not belong to your company")
  else if match d_conductor data with
          | Some c => bool_decide (Some (employee_company c) <> company)
          | None => false
          end then
    Raise (ValidationError (Some "conductor") "Conductor does not belong to your company")
  else if bool_decide (bus_status (d_bus data) <> BusStatus.ACTIVE) then
    Raise (ValidationError (Some "bus")
             ("Bus is not active (current status: "
              +:+ BusStatus.value (bus_status (d_bus data)) +:+ ")"))
  else if bool_decide (employee_role (d_driver data) <> EmployeeRole.DRIVER) then
    Raise (ValidationError (Some "driver") "Selected employee is not a driver")
  else if match d_conductor data with
          | Some c => bool_decide (employee_role c <> EmployeeRole.CONDUCTOR)
          | None => false
          end then
    Raise (ValidationError (Some "conductor") "Selected employee is not a conductor")
  else if bool_decide (default 0 (d_capacity data) <= 0) then
    Raise (ValidationError (Some "capacity") "Capacity must be greater than 0")
  else
    (* line 92 evaluates the name [datetime] before anything else *)
    if bool_decide ("datetime" ∈ module_globals) then
      let departure_datetime := combine (d_departure_date data) (d_departure_time data) in
      let arrival_datetime := combine (d_arrival_date data) (d_arrival_time data) in
      if datetime_ge departure_datetime arrival_datetime then
        Raise (ValidationError None
                 "Departure date and time must be before arrival date and time")
      else Ok data
    else Raise (NameError "datetime").

End TripSerializer.

(** ** trips/views.py: [TripViewSet] *)

Module TripViewSet.

(** [IsStaffOrHigher.has_permission] *)
Definition has_permission (user : User) : bool :=
  bool_decide (user_role user ∈ [UserRole.ADMIN; UserRole.MANAGER; UserRole.STAFF]).

(** [get_queryset()] keeps the trips of the user's company. *)
Definition in_queryset (user : User) (t : Trip) : bool :=
  match user_company user with
  | None => false
  | Some c => bool_decide (trip_company t = c)
  end.

(** The permission check of the view followed by [self.get_object()]. *)
Definition get_object (user : User) (pk : nat) (db : DB) : Trip + Response :=
  if negb (has_permission user) then inr TicketViewSet.permission_denied
  else
    match trips db !! pk with
    | Some t =>
        if in_queryset user t then
          if TicketViewSet.has_object_permission user (trip_company t) then inl t
          else inr TicketViewSet.permission_denied
        else inr TicketViewSet.not_found
    | None => inr TicketViewSet.not_found
    end.

Definition not_scheduled (s : TripStatus.t) : Response :=
  mkResponse HTTP_400_BAD_REQUEST
    (Detail ("Trip is not in scheduled status (current status: "
             +:+ TripStatus.value s +:+ ")")).
Definition not_active (s : TripStatus.t) : Response :=
  mkResponse HTTP_400_BAD_REQUEST
    (Detail ("Trip is not in active status (current status: "
             +:+ TripStatus.value s +:+ ")")).

(** [TripEvent.objects.create(...)] *)
Definition create_event (e : TripEvent) : DB -> DB :=
  set_trip_events (fun events => (events ++ [e])%list).

Definition start_trip (now : Z) (user : User) (pk : nat) (db : DB) : DB * Response :=
  match get_object user pk db with
  | inr resp => (db, resp)
  | inl trip =>
      if bool_decide (trip_status trip <> TripStatus.SCHEDULED) then
        (db, not_scheduled (trip_status trip))
      else
        let trip1 :=
          trip_with_actual_departure (Some now) (trip_with_status TripStatus.ACTIVE trip) in
        let db1 := save_trip pk trip1 db in
        let db2 :=
          create_event
            (mkTripEvent (trip_company trip1) pk "Departure" now "Trip started"
                         (Some (trip_driver trip1))) db1 in
        (db2, mkResponse HTTP_200_OK (Detail "Trip started successfully"))
  end.

Definition complete_trip (now : Z) (user : User) (pk : nat) (db : DB) : DB * Response :=
  match get_object user pk db with
  | inr resp => (db, resp)
  | inl trip =>
      if bool_decide (trip_status trip <> TripStatus.ACTIVE) then
        (db, not_active (trip_status trip))
      else
        let trip1 :=
          trip_with_actual_arrival (Some now) (trip_with_status TripStatus.COMPLETED trip) in
        let db1 := save_trip pk trip1 db in
        let db2 :=
          create_event
            (mkTripEvent (trip_company trip1) pk "Arrival" now "Trip completed"
                         (Some (trip_driver trip1))) db1 in
        (db2, mkResponse HTTP_200_OK (Detail "Trip completed successfully"))
  end.

End TripViewSet.

(** ** common/permissions.py *)

Module permissions.

(** [has_permission] of each role-based class, for an authenticated user. *)
Definition IsCompanyAdmin (user : User) : bool :=
  bool_decide (user_role user = UserRole.ADMIN).
Definition IsCompanyManagerOrAdmin (user : User) : bool :=
  bool_decide (user_role user ∈ [UserRole.ADMIN; UserRole.MANAGER]).
Definition IsStaffOrHigher (user : User) : bool :=
  bool_decide (user_role user ∈ [UserRole.ADMIN; UserRole.MANAGER; UserRole.STAFF]).
Definition IsDriverOrHigher (user : User) : bool :=
  bool_decide (user_role user
               ∈ [UserRole.ADMIN; UserRole.MANAGER; UserRole.STAFF; UserRole.DRIVER]).
Definition IsConductorOrHigher (user : User) : bool :=
  bool_decide (user_role user
               ∈ [UserRole.ADMIN; UserRole.MANAGER; UserRole.STAFF; UserRole.CONDUCTOR]).
Definition IsCustomer (user : User) : bool :=
  bool_decide (user_role user = UserRole.CUSTOMER).

End permissions.

(** ** common/utils.py *)

Module utils.

(** What an error response carries: the detail of a [ValidationError] (keyed
    by a field, or bare) or a [{"detail": ...}] message. *)
Inductive Payload :=
| Errors (field : option string) (msg : string)
| Message (detail : string).

(** The exceptions the handler can be given: those the application code
    raises ([exn]); Django's [Http404] and [PermissionDenied], each with the
    detail the REST framework exception made from it carries; any other
    [APIException] of the REST framework, with its own status code and
    detail; and any other Python exception. *)
Inductive exception :=
| Raised (e : exn)
| Http404 (detail : string)
| PermissionDenied (detail : string)
| APIException (status_code : Z) (detail : string)
| Other (name : string).

(** REST framework's default [exception_handler]: [Http404] is turned into
    [NotFound] (status 404) and [PermissionDenied] into its REST framework
    namesake (status 403); an [APIException], [ValidationError] (status 400)
    among them, becomes a response with the exception's own status code
    carrying its detail; any other exception is not handled ([None]). *)
Definition exception_handler (exc : exception) : option (Z * Payload) :=
  match exc with
  | Http404 detail => Some (HTTP_404_NOT_FOUND, Message detail)
  | PermissionDenied detail => Some (HTTP_403_FORBIDDEN, Message detail)
  | APIException status_code detail => Some (status_code, Message detail)
  | Raised (ValidationError field msg) => Some (HTTP_400_BAD_REQUEST, Errors field msg)
  | Raised (NameError _) | Raised (IntegrityError _) | Other _ => None
  end.

Definition custom_exception_handler (exc : exception) : Z * Payload :=
  match exception_handler exc with
  | Some response => response
  | None =>
      match exc with
      | Raised (IntegrityError _) =>
          (HTTP_400_BAD_REQUEST,
           Message ("Database integrity error. This could be due to a duplicate record "
                    +:+ "or invalid foreign key."))
      | _ => (HTTP_500_INTERNAL_SERVER_ERROR, Message "An unexpected error occurred.")
      end
  end.

(** The dictionary [generate_report_data] returns.  An object is the finite
    map of its attributes; [count] is [model_objects.count()], the number of
    rows of the queryset. *)
Record Report (V : Type) := mkReport {
  count : nat;
  results : list (gmap string V);
  additional_data : gmap string V
}.
Arguments mkReport {V} _ _ _.
Arguments count {V} _.
Arguments results {V} _.
Arguments additional_data {V} _.

(** The inner loop: [item[field] = getattr(obj, field)] for every field name
    the object has, in the order of [field_names]. *)
Fixpoint collect {V : Type} (obj : gmap string V) (field_names : list string)
    (item : gmap string V) : gmap string V :=
  match field_names with
  | [] => item
  | field :: rest =>
      match obj !! field with
      | Some v => collect obj rest (<[field := v]> item)
      | None => collect obj rest item
      end
  end.

(** The outer loop, appending one item per object. *)
Fixpoint append_items {V : Type} (model_objects : list (gmap string V))
    (field_names : list string) (acc : list (gmap string V)) : list (gmap string V) :=
  match model_objects with
  | [] => acc
  | obj :: rest => append_items rest field_names (acc ++ [collect obj field_names ∅])%list
  end.

Definition generate_report_data {V : Type} (model_objects : list (gmap string V))
    (field_names : list string) (additional_data : option (gmap string V)) : Report V :=
  mkReport (length model_objects)
           (append_items model_objects field_names [])
           (default ∅ additional_data).

End utils.

(** ** The columns and tables beside [DB]

    [Trip.delay_reason] and [Trip.cancellation_reason] are kept in a map of
    their own under the trip's primary key (a trip without an entry has both
    NULL), and the [Receipt] table is added. *)

Record TripNotes := mkTripNotes {
  trip_delay_reason : option string;
  trip_cancellation_reason : option string
}.

(** [tickets.Receipt] *)
Record Receipt := mkReceipt {
  receipt_company : nat;
  receipt_booking : nat;
  receipt_receipt_number : string;
  receipt_amount : Z;
  receipt_issued_by : option nat
}.

Record Store := mkStore {
  core : DB;
  trip_notes : gmap nat TripNotes;
  receipts : gmap nat Receipt
}.

Definition set_core (f : DB -> DB) (st : Store) : Store :=
  mkStore (f (core st)) (trip_notes st) (receipts st).

Definition notes_of (pk : nat) (st : Store) : TripNotes :=
  default (mkTripNotes None None) (trip_notes st !! pk).

(** A handler that works on [DB] alone, run on the larger store. *)
Definition on_core {A : Type} (handler : DB -> DB * A) (st : Store) : Store * A :=
  let '(db', a) := handler (core st) in (set_core (fun _ => db') st, a).

(** ** trips/views.py: the other actions of [TripViewSet] *)

Module TripViewSetActions.

Definition cannot_cancel (s : TripStatus.t) : Response :=
  mkResponse HTTP_400_BAD_REQUEST
    (Detail ("Trip cannot be cancelled (current status: " +:+ TripStatus.value s +:+ ")")).
Definition cannot_delay (s : TripStatus.t) : Response :=
  mkResponse HTTP_400_BAD_REQUEST
    (Detail ("Trip cannot be marked as delayed (current status: "
             +:+ TripStatus.value s +:+ ")")).

Definition start_trip (now : Z) (user : User) (pk : nat) : Store -> Store * Response :=
  on_core (TripViewSet.start_trip now user pk).
Definition complete_trip (now : Z) (user : User) (pk : nat) : Store -> Store * Response :=
  on_core (TripViewSet.complete_trip now user pk).

Definition cancel_trip (user : User) (pk : nat) (reason : option string) (st : Store)
  : Store * Response :=
  match TripViewSet.get_object user pk (core st) with
  | inr resp => (st, resp)
  | inl trip =>
      if bool_decide (trip_status trip ∉ [TripStatus.SCHEDULED; TripStatus.DELAYED]) then
        (st, cannot_cancel (trip_status trip))
      else
        let reason := default "" reason in
        if bool_decide (reason = "") then
          (st, mkResponse HTTP_400_BAD_REQUEST (Detail "Cancellation reason is required"))
        else
          let notes := mkTripNotes (trip_delay_reason (notes_of pk st)) (Some reason) in
          (mkStore (save_trip pk (trip_with_status TripStatus.CANCELLED trip) (core st))
                   (<[pk := notes]> (trip_notes st)) (receipts st),
           mkResponse HTTP_200_OK (Detail "Trip cancelled successfully"))
  end.

Definition delay_trip (now : Z) (user : User) (pk : nat) (reason : option string)
    (st : Store) : Store * Response :=
  match TripViewSet.get_object user pk (core st) with
  | inr resp => (st, resp)
  | inl trip =>
      if bool_decide (trip_status trip ∉ [TripStatus.SCHEDULED; TripStatus.ACTIVE]) then
        (st, cannot_delay (trip_status trip))
      else
        let reason := default "" reason in
        if bool_decide (reason = "") then
          (st, mkResponse HTTP_400_BAD_REQUEST (Detail "Delay reason is required"))
        else
          let trip1 := trip_with_status TripStatus.DELAYED trip in
          let notes := mkTripNotes (Some reason) (trip_cancellation_reason (notes_of pk st)) in
          let db1 := save_trip pk trip1 (core st) in
          let db2 :=
            TripViewSet.create_event
              (mkTripEvent (trip_company trip1) pk "Delay" now reason
                           (Some (trip_driver trip1))) db1 in
          (mkStore db2 (<[pk := notes]> (trip_notes st)) (receipts st),
           mkResponse HTTP_200_OK (Detail "Trip marked as delayed successfully"))
  end.

(** The queryset of the [active] listing, or the refusal of the permission
    check. *)
Definition active (user : User) (db : DB) : gmap nat Trip + Response :=
  if negb (TripViewSet.has_permission user) then inr TicketViewSet.permission_denied
  else inl (filter (fun kt => TripViewSet.in_queryset user kt.2 = true
                              /\ trip_status kt.2 = TripStatus.ACTIVE) (trips db)).

End TripViewSetActions.

(** ** tickets/serializers.py: the field validators of [TicketSerializer] *)

Module TicketSerializerFields.

(** An employee as [validate_checked_in_by] reads it. *)
Record Employee := mkEmployee { employee_id : nat; employee_company : nat }.

Definition validate_trip (user : User) (value : nat * Trip) : result (nat * Trip) :=
  if bool_decide (Some (trip_company value.2) <> user_company user)
  then Raise (ValidationError (Some "trip") "Trip does not belong to your company")
  else Ok value.

Definition validate_customer (user : User) (value : option User) : result (option User) :=
  match value with
  | Some customer =>
      if bool_decide (user_company customer <> user_company user)
      then Raise (ValidationError (Some "customer") "Customer does not belong to your company")
      else Ok value
  | None => Ok value
  end.

Definition validate_checked_in_by (user : User) (value : option Employee)
  : result (option Employee) :=
  match value with
  | Some employee =>
      if bool_decide (Some (employee_company employee) <> user_company user)
      then Raise (ValidationError (Some "checked_in_by")
                    "Employee does not belong to your company")
      else Ok value
  | None => Ok value
  end.

End TicketSerializerFields.

(** ** tickets/serializers.py: [ReceiptSerializer] *)

(** [str(n)] for a non-negative integer: its decimal digits, most
    significant first. *)
Definition digit_char (d : Z) : ascii := nth (Z.to_nat d) digits "0"%char.

Fixpoint decimal_go (fuel : nat) (n : Z) (acc : list ascii) : list ascii :=
  match fuel with
  | O => acc
  | S fuel' =>
      if bool_decide (n < 10) then digit_char n :: acc
      else decimal_go fuel' (n / 10) (digit_char (n mod 10) :: acc)
  end.

Definition decimal (n : Z) : string :=
  string_of_list_ascii (decimal_go (S (Z.to_nat (Z.log2 n))) n []).

(** [random.randint(a, b)]: one draw selects an integer of [a..b]. *)
Definition randint (a b : Z) (r : nat) : Z := a + Z.of_nat r mod (b - a + 1).

Module ReceiptSerializer.

Record CreateData := mkCreateData {
  vd_booking : nat * Booking;
  vd_amount : Z;
  vd_issued_by : option TicketSerializerFields.Employee
}.

Definition validate_booking (user : User) (value : nat * Booking) : result (nat * Booking) :=
  if bool_decide (Some (booking_company value.2) <> user_company user)
  then Raise (ValidationError (Some "booking") "Booking does not belong to your company")
  else Ok value.

Definition validate_issued_by (user : User) (value : option TicketSerializerFields.Employee)
  : result (option TicketSerializerFields.Employee) :=
  match value with
  | Some employee =>
      if bool_decide (Some (TicketSerializerFields.employee_company employee)
                      <> user_company user)
      then Raise (ValidationError (Some "issued_by") "Employee does not belong to your company")
      else Ok value
  | None => Ok value
  end.

(** [f"R{random.randint(100000000, 999999999)}"] *)
Definition draw_receipt_number (rng : nat -> nat) (cursor : nat) : string :=
  String "R"%char (decimal (randint 100000000 999999999 (rng cursor))).

(** [Receipt.objects.filter(receipt_number=receipt_number).exists()] *)
Definition number_exists (st : Store) (number : string) : bool :=
  bool_decide (map_Exists (fun _ r => receipt_receipt_number r = number) (receipts st)).

(** The [while] loop of [_generate_receipt_number]; [fuel] bounds the number
    of tests as in [regenerate_while_exists]. *)
Fixpoint regenerate_while_exists (fuel : nat) (exists_ : string -> bool) (rng : nat -> nat)
    (cursor : nat) (receipt_number : string) : option string :=
  match fuel with
  | O => None
  | S fuel' =>
      if exists_ receipt_number
      then regenerate_while_exists fuel' exists_ rng (S cursor) (draw_receipt_number rng cursor)
      else Some receipt_number
  end.

Definition _generate_receipt_number (fuel : nat) (st : Store) (rng : nat -> nat)
  : option string :=
  regenerate_while_exists fuel (number_exists st) rng 1%nat (draw_receipt_number rng 0).

Definition create (fuel : nat) (rng : nat -> nat) (user : User) (vd : CreateData)
    (st : Store) : option (Store * result (nat * Receipt)) :=
  let company := user_company user in
  (* 'receipt_number' not in validated_data: always, the field is read-only *)
  match _generate_receipt_number fuel st rng with
  | None => None
  | Some receipt_number =>
      match company with
      | None => Some (st, Raise (IntegrityError "company_id"))
      | Some c =>
          let receipt :=
            mkReceipt c (vd_booking vd).1 receipt_number (vd_amount vd)
                      (TicketSerializerFields.employee_id <$> vd_issued_by vd) in
          let pk := fresh (dom (receipts st)) in
          Some (mkStore (core st) (trip_notes st) (<[pk := receipt]> (receipts st)),
                Ok (pk, receipt))
      end
  end.

End ReceiptSerializer.

(** ** tickets/views.py: the other actions of [DiscountViewSet] *)

Module DiscountViewSetActions.

(** [get_queryset()] keeps the discounts of the user's company. *)
Definition in_queryset (user : User) (d : Discount) : bool :=
  match user_company user with
  | None => false
  | Some c => bool_decide (discount_company d = c)
  end.

(** The permission check of the view set ([IsCompanyManagerOrAdmin]) followed
    by [self.get_object()]. *)
Definition get_object (user : User) (pk : nat) (db : DB) : Discount + Response :=
  if negb (permissions.IsCompanyManagerOrAdmin user) then inr TicketViewSet.permission_denied
  else
    match discounts db !! pk with
    | Some d =>
        if in_queryset user d then
          if TicketViewSet.has_object_permission user (discount_company d) then inl d
          else inr TicketViewSet.permission_denied
        else inr TicketViewSet.not_found
    | None => inr TicketViewSet.not_found
    end.

Definition with_is_active (b : bool) (d : Discount) : Discount :=
  mkDiscount (discount_company d) (discount_code d) (discount_type d) (discount_value d)
    (discount_start_date d) (discount_end_date d) (discount_usage_limit d)
    (discount_usage_count d) b.

Definition deactivate (user : User) (pk : nat) (db : DB) : DB * Response :=
  match get_object user pk db with
  | inr resp => (db, resp)
  | inl discount =>
      if negb (discount_is_active discount) then
        (db, mkResponse HTTP_400_BAD_REQUEST (Detail "Discount is already inactive"))
      else
        (DiscountSerializer.save_discount pk (with_is_active false discount) db,
         mkResponse HTTP_200_OK (Detail "Discount deactivated successfully"))
  end.

Definition activate (user : User) (pk : nat) (db : DB) : DB * Response :=
  match get_object user pk db with
  | inr resp => (db, resp)
  | inl discount =>
      if discount_is_active discount then
        (db, mkResponse HTTP_400_BAD_REQUEST (Detail "Discount is already active"))
      else
        (DiscountSerializer.save_discount pk (with_is_active true discount) db,
         mkResponse HTTP_200_OK (Detail "Discount activated successfully"))
  end.

(** The queryset of the [active] listing:
    [is_active=True, start_date__lte=now] and
    [Q(end_date__isnull=True) | Q(end_date__gte=now)] over [get_queryset()]. *)
Definition listed (now : Z) (user : User) (d : Discount) : bool :=
  in_queryset user d
  && discount_is_active d
  && bool_decide (discount_start_date d <= now)
  && match discount_end_date d with
     | None => true
     | Some e => bool_decide (e >= now)
     end.

Definition active (now : Z) (user : User) (db : DB) : gmap nat Discount :=
  filter (fun kd => listed now user kd.2 = true) (discounts db).

End DiscountViewSetActions.


(** ** tickets/views.py: [BookingViewSet] and [ReceiptViewSet] *)

Module BookingViewSet.

(** Membership in [get_queryset()]: the user's company, and for a customer
    only their own bookings; empty when the user has no company. *)
Definition in_queryset (user : User) (b : Booking) : bool :=
  match user_company user with
  | None => false
  | Some c =>
      bool_decide (booking_company b = c)
      && (if bool_decide (user_role user = UserRole.CUSTOMER)
          then bool_decide (booking_customer b = Some (user_id user))
          else true)
  end.

Definition get_object (user : User) (pk : nat) (db : DB) : Booking + Response :=
  match bookings db !! pk with
  | Some b =>
      if in_queryset user b then
        if TicketViewSet.has_object_permission user (booking_company b) then inl b
        else inr TicketViewSet.permission_denied
      else inr TicketViewSet.not_found
  | None => inr TicketViewSet.not_found
  end.

(** The [receipts] action: [Receipt.objects.filter(booking=booking)]. *)
Definition receipts (user : User) (pk : nat) (st : Store) : gmap nat Receipt + Response :=
  match get_object user pk (core st) with
  | inr resp => inr resp
  | inl _ => inl (filter (fun kr => receipt_booking kr.2 = pk) (receipts st))
  end.

End BookingViewSet.

Module ReceiptViewSet.

(** Membership in [get_queryset()]: the user's company, and for a customer
    only the receipts whose booking is theirs ([booking__customer=user]). *)
Definition in_queryset (user : User) (st : Store) (r : Receipt) : bool :=
  match user_company user with
  | None => false
  | Some c =>
      bool_decide (receipt_company r = c)
      && (if bool_decide (user_role user = UserRole.CUSTOMER)
          then bool_decide (bookings (core st) !! receipt_booking r ≫= booking_customer
                            = Some (user_id user))
          else true)
  end.

Definition get_queryset (user : User) (st : Store) : gmap nat Receipt :=
  filter (fun kr => in_queryset user st kr.2 = true) (receipts st).

End ReceiptViewSet.

(** ** trips/serializers.py: [TripStopSerializer.validate] *)

Module TripStopSerializer.

(** What [validate] reads of the trip and of the route stop. *)
Record Trip := mkTrip { trip_company : nat; trip_route : nat }.
Record RouteStop := mkRouteStop { route_stop_company : nat; route_stop_route : nat }.

(** [data]: a key the request left out is [None], which is also what
    [data.get] then returns. *)
Record Data := mkData {
  d_trip : option Trip;
  d_route_stop : option RouteStop;
  d_scheduled_arrival : option Z;
  d_scheduled_departure : option Z
}.

(** What [validate] can raise: a [ValidationError], the [AttributeError] of
    [None.company] and [None.route], or the [TypeError] of a comparison with
    [None]. *)
Inductive exception :=
| Invalid (field : option string) (msg : string)
| AttributeError (name : string)
| TypeError (op : string).

Definition validate (user : User) (data : Data) : exception + Data :=
  let company := user_company user in
  match d_trip data with
  | None => inl (AttributeError "company")
  | Some trip =>
      if bool_decide (Some (trip_company trip) <> company) then
        inl (Invalid (Some "trip") "Trip does not belong to your company")
      else
        match d_route_stop data with
        | None => inl (AttributeError "company")
        | Some route_stop =>
            if bool_decide (Some (route_stop_company route_stop) <> company) then
              inl (Invalid (Some "route_stop") "Route stop does not belong to your company")
            else if bool_decide (route_stop_route route_stop <> trip_route trip) then
              inl (Invalid (Some "route_stop")
                     "Route stop does not belong to the trip's route")
            else
              match d_scheduled_departure data, d_scheduled_arrival data with
              | Some departure, Some arrival =>
                  if bool_decide (departure <= arrival) then
                    inl (Invalid None "Scheduled departure must be after scheduled arrival")
                  else inr data
              | _, _ => inl (TypeError "<=")
              end
        end
  end.

End TripStopSerializer.
(** * Properties *)

(** ** Seat accounting *)

(** The capacity ledger of one trip and of the whole store. *)
Definition trip_inv (t : Trip) : Prop :=
  0 <= trip_booked_seats t <= trip_capacity t.

Definition db_inv (db : DB) : Prop :=
  map_Forall (fun _ t => trip_inv t) (trips db).

#[global] Instance trip_inv_dec t : Decision (trip_inv t).
Proof. unfold trip_inv. apply _. Defined.

Lemma save_trip_inv pk row db :
  trip_inv row -> db_inv db -> db_inv (save_trip pk row db).
Proof.
  unfold db_inv, save_trip, set_trips; simpl. intros Hrow Hdb.
  by apply map_Forall_insert_2.
Qed.

Lemma save_ticket_inv pk row db : db_inv db -> db_inv (save_ticket pk row db).
Proof. done. Qed.

Lemma release_seat_inv pk db : db_inv db -> db_inv (TicketSerializer.release_seat pk db).
Proof.
  intros Hdb. unfold TicketSerializer.release_seat.
  destruct (trips db !! pk) as [trip|] eqn:Hpk; [|done].
  apply save_trip_inv; [|done].
  specialize (Hdb pk trip Hpk). unfold trip_inv in *; simpl. lia.
Qed.

(** Sample data used to instantiate the theorems below. *)
Module Sample.
Definition staff : User := mkUser 1 UserRole.STAFF (Some 7%nat) None.
Definition trip : Trip := mkTrip 7 3 TripStatus.SCHEDULED 2 1 None None.
Definition ticket : Ticket :=
  mkTicket 7 1 None "QZ424242" TicketStatus.RESERVED None None None None None None None
           (Some 50).
Definition db : DB := mkDB ∅ {[1%nat := trip]} [] {[5%nat := ticket]} ∅ ∅.
Definition rng : nat -> nat := fun n => n.
End Sample.

(** C1. Ticket issuance ([TicketSerializer.create]) and ticket cancellation
    (the [cancel] action, and an update that moves the status to Cancelled)
    keep 0 <= booked_seats <= capacity: started in a store where every trip
    satisfies the inequality, and for issuance on a trip instance that
    satisfies it, every trip of the resulting store satisfies it again,
    whether the operation succeeds or is refused. *)
Theorem C1_booked_seats_within_capacity
    (fuel : nat) (rng : nat -> nat) (now : Z) (user : User)
    (vd : TicketSerializer.CreateData) (pk : nat) (reason : option string)
    (instance : nat * Ticket) (upd : TicketSerializer.UpdateData) (db : DB) :
  db_inv db ->
  trip_inv (TicketSerializer.vd_trip vd).2 ->
  match TicketSerializer.create fuel rng now user vd db with
  | Some (db', _) => db_inv db'
  | None => True
  end
  /\ db_inv (TicketViewSet.cancel now user pk reason db).1
  /\ db_inv (TicketSerializer.update now instance upd db).1.
Proof.
  intros Hdb Htrip. split; [|split].
  - unfold TicketSerializer.create.
    destruct (TicketSerializer._generate_booking_reference fuel db rng); [|done].
    destruct (TicketSerializer.vd_trip vd) as [trip_pk trip]; simpl in Htrip.
    case_bool_decide as Hfull; [done|].
    case_bool_decide; [done|].
    destruct (user_company user); [|done].
    apply save_trip_inv; [|by apply save_ticket_inv].
    unfold trip_inv in *; simpl. lia.
  - unfold TicketViewSet.cancel.
    destruct (TicketViewSet.get_object user pk db); [|done].
    repeat (case_bool_decide; [done|]). simpl.
    by apply release_seat_inv, save_ticket_inv.
  - unfold TicketSerializer.update. destruct instance as [ipk row].
    destruct (_ && bool_decide (TicketSerializer.upd_cancellation_reason upd = None)); [done|].
    destruct (bool_decide (TicketSerializer.upd_status upd = Some TicketStatus.CANCELLED) && _); simpl.
    + by apply save_ticket_inv, release_seat_inv.
    + by apply save_ticket_inv.
Qed.

Lemma C1_booked_seats_within_capacity_witness :
  db_inv Sample.db /\
  db_inv (TicketViewSet.cancel 100 Sample.staff 5 (Some "changed plans") Sample.db).1.
Proof.
  assert (Hdb : db_inv Sample.db).
  { apply (bool_decide_unpack _). vm_compute. exact I. }
  split; [exact Hdb|].
  refine (proj1 (proj2 (C1_booked_seats_within_capacity 1 Sample.rng 100 Sample.staff
            (TicketSerializer.mkCreateData (1%nat, Sample.trip) None None None)
            5 (Some "changed plans") (5%nat, Sample.ticket)
            (TicketSerializer.mkUpdateData None None None None None None None None None None None)
            Sample.db Hdb _))).
  unfold trip_inv; simpl; lia.
Defined.

(** ** Booking references *)

Lemma choice_elem (population : list ascii) (r : nat) :
  population <> [] -> choice population r ∈ population.
Proof.
  intros Hne. unfold choice. apply list_elem_of_In, nth_In.
  apply Nat.mod_upper_bound. by destruct population.
Qed.

Lemma is_upper_choice r : is_upper (choice ascii_uppercase r) = true.
Proof. apply bool_decide_eq_true, choice_elem. discriminate. Qed.

Lemma is_digit_choice r : is_digit (choice digits r) = true.
Proof. apply bool_decide_eq_true, choice_elem. discriminate. Qed.

(** Every candidate has the format "2 uppercase letters + 6 digits". *)
Lemma draw_reference_format rng cursor : reference_format (draw_reference rng cursor) = true.
Proof.
  unfold draw_reference, choices, reference_format.
  cbv [seq map string_of_list_ascii String.append list_ascii_of_string].
  by rewrite !is_upper_choice, !is_digit_choice.
Qed.

(** The [j]-th candidate that [_generate_booking_reference] tests. *)
Definition candidate (rng : nat -> nat) (j : nat) : string := draw_reference rng (8 * j).

(** The [j]-th reference tested by the loop when entered with candidate [ref]
    and the draws starting at [cursor]. *)
Definition tested (rng : nat -> nat) (cursor : nat) (ref : string) (j : nat) : string :=
  match j with
  | O => ref
  | S j' => draw_reference rng (cursor + 8 * j')
  end.

Lemma regenerate_while_exists_sound fuel exists_ rng cursor ref r :
  reference_format ref = true ->
  regenerate_while_exists fuel exists_ rng cursor ref = Some r ->
  exists_ r = false /\ reference_format r = true.
Proof.
  revert cursor ref.
  induction fuel as [|fuel IH]; intros cursor ref Hfmt; cbn [regenerate_while_exists]; [done|].
  destruct (exists_ ref) eqn:Hex.
  - apply IH, draw_reference_format.
  - by intros [= <-].
Qed.

Lemma regenerate_while_exists_total fuel exists_ rng cursor ref j :
  (j < fuel)%nat ->
  exists_ (tested rng cursor ref j) = false ->
  is_Some (regenerate_while_exists fuel exists_ rng cursor ref).
Proof.
  revert cursor ref j.
  induction fuel as [|fuel IH]; intros cursor ref j Hj Hfree;
    cbn [regenerate_while_exists]; [lia|].
  destruct (exists_ ref) eqn:Hex; [|by eexists].
  destruct j as [|j]; [simpl in Hfree; congruence|].
  apply (IH _ _ j); [lia|].
  destruct j as [|j]; cbn [tested] in *.
  - by replace (cursor + 8 * 0)%nat with cursor in Hfree by lia.
  - by replace (cursor + 8 + 8 * j)%nat with (cursor + 8 * S j)%nat by lia.
Qed.

Lemma tested_candidate rng j : tested rng 8 (draw_reference rng 0) j = candidate rng j.
Proof.
  unfold candidate. destruct j as [|j]; cbn [tested]; f_equal; lia.
Qed.

Lemma ticket_reference_exists_false db ref :
  TicketSerializer.reference_exists db ref = false <->
  forall pk t, tickets db !! pk = Some t -> ticket_booking_reference t <> ref.
Proof.
  unfold TicketSerializer.reference_exists. rewrite bool_decide_eq_false.
  rewrite map_not_Exists. done.
Qed.

(** [_generate_booking_reference] returns a well-formed reference carried by
    no existing ticket, and it does return as soon as one of the candidates
    within the bound is free. *)
Lemma generate_ticket_reference_sound fuel db rng ref :
  TicketSerializer._generate_booking_reference fuel db rng = Some ref ->
  reference_format ref = true /\
  forall pk t, tickets db !! pk = Some t -> ticket_booking_reference t <> ref.
Proof.
  unfold TicketSerializer._generate_booking_reference. intros H.
  apply regenerate_while_exists_sound in H as [Hfree Hfmt]; [|apply draw_reference_format].
  split; [done|]. by apply ticket_reference_exists_false.
Qed.

Lemma generate_ticket_reference_total fuel db rng j :
  (j < fuel)%nat ->
  TicketSerializer.reference_exists db (candidate rng j) = false ->
  is_Some (TicketSerializer._generate_booking_reference fuel db rng).
Proof.
  intros Hj Hfree. unfold TicketSerializer._generate_booking_reference.
  apply (regenerate_while_exists_total _ _ _ _ _ j); [done|].
  by rewrite tested_candidate.
Qed.

(** ** Ticket issuance *)

(** Everything about a trip but its [booked_seats]. *)
Definition same_trip_but_booked_seats (t t' : Trip) : Prop :=
  trip_company t' = trip_company t
  /\ trip_driver t' = trip_driver t
  /\ trip_status t' = trip_status t
  /\ trip_capacity t' = trip_capacity t
  /\ trip_actual_departure t' = trip_actual_departure t
  /\ trip_actual_arrival t' = trip_actual_arrival t.

(** C2 (as amended). Provided one of the candidate references within the
    bound is free, [TicketSerializer.create] behaves as follows.  It draws a
    reference of 2 uppercase letters and 6 digits that no existing ticket
    carries.  On a trip with booked_seats >= capacity it raises the "No seats
    available" error and leaves the store, hence booked_seats, as it was.
    On a trip with a free seat whose status is Cancelled or Completed it
    raises the "Cannot book ticket" error and leaves the store as it was.
    Otherwise it stores one new ticket with that reference, on that trip and
    for the caller's company, whose status is the one the request names, or
    Reserved when the request names none; and the stored trip then reads
    booked_seats one above the count of the trip instance, every other field
    of it and every other trip being as before. *)
Theorem C2_issue_ticket
    (fuel : nat) (rng : nat -> nat) (now : Z) (user : User)
    (vd : TicketSerializer.CreateData) (db : DB) (j : nat) :
  (j < fuel)%nat ->
  TicketSerializer.reference_exists db (candidate rng j) = false ->
  let trip_pk := (TicketSerializer.vd_trip vd).1 in
  let trip := (TicketSerializer.vd_trip vd).2 in
  let run := TicketSerializer.create fuel rng now user vd db in
  exists ref,
    TicketSerializer._generate_booking_reference fuel db rng = Some ref
    /\ reference_format ref = true
    /\ (forall pk t, tickets db !! pk = Some t -> ticket_booking_reference t <> ref)
    /\ (trip_capacity trip <= trip_booked_seats trip ->
        run = Some (db, Raise TicketSerializer.no_seats_available))
    /\ (trip_booked_seats trip < trip_capacity trip ->
        trip_status trip ∈ [TripStatus.CANCELLED; TripStatus.COMPLETED] ->
        run = Some (db, Raise (TicketSerializer.cannot_book (trip_status trip))))
    /\ (trip_booked_seats trip < trip_capacity trip ->
        trip_status trip ∉ [TripStatus.CANCELLED; TripStatus.COMPLETED] ->
        user_company user = Some (trip_company trip) ->
        exists pk ticket db' trip',
          run = Some (db', Ok (pk, ticket))
          /\ tickets db !! pk = None
          /\ tickets db' = <[pk := ticket]> (tickets db)
          /\ trips db' = <[trip_pk := trip']> (trips db)
          /\ trip_booked_seats trip' = trip_booked_seats trip + 1
          /\ same_trip_but_booked_seats trip trip'
          /\ ticket_booking_reference ticket = ref
          /\ ticket_trip ticket = trip_pk
          /\ ticket_company ticket = trip_company trip
          /\ ticket_customer ticket = TicketSerializer.vd_customer vd
          /\ ticket_status ticket
             = default TicketStatus.RESERVED (TicketSerializer.vd_status vd)).
Proof.
  intros Hj Hfree trip_pk trip run.
  destruct (generate_ticket_reference_total fuel db rng j Hj Hfree) as [ref Hgen].
  destruct (generate_ticket_reference_sound _ _ _ _ Hgen) as [Hfmt Hnew].
  exists ref. split; [done|]. split; [done|]. split; [done|].
  subst run trip_pk trip. unfold TicketSerializer.create. rewrite Hgen.
  destruct (TicketSerializer.vd_trip vd) as [trip_pk trip] eqn:Hvd; simpl.
  split; [|split].
  - intros Hfull. by rewrite bool_decide_eq_true_2.
  - intros Hseat Hstatus.
    rewrite bool_decide_eq_false_2 by lia. by rewrite bool_decide_eq_true_2.
  - intros Hseat Hstatus Hcompany.
    rewrite bool_decide_eq_false_2 by lia. rewrite bool_decide_eq_false_2 by done.
    rewrite Hcompany. eexists _, _, _, _. split; [reflexivity|].
    split; [apply not_elem_of_dom, is_fresh|].
    split; [done|]. split; [done|]. split; [done|]. split; [done|].
    split; [done|]. split; [simpl; by rewrite Hvd|]. done.
Qed.

Lemma C2_issue_ticket_witness :
  exists pk ticket db' trip',
    TicketSerializer.create 1 Sample.rng 100 Sample.staff
      (TicketSerializer.mkCreateData (1%nat, Sample.trip) None None None) Sample.db
    = Some (db', Ok (pk, ticket))
    /\ trips db' !! 1%nat = Some trip'
    /\ trip_booked_seats Sample.trip = 1
    /\ trip_booked_seats trip' = 2
    /\ ticket_status ticket = TicketStatus.RESERVED.
Proof.
  destruct (C2_issue_ticket 1 Sample.rng 100 Sample.staff
              (TicketSerializer.mkCreateData (1%nat, Sample.trip) None None None)
              Sample.db 0) as (ref & _ & _ & _ & _ & _ & Hok).
  - lia.
  - vm_compute. reflexivity.
  - destruct Hok as (pk & ticket & db' & trip' & Hrun & _ & _ & Htrips & Hseats & _ & _
                     & _ & _ & _ & Hstatus).
    + simpl. lia.
    + simpl. rewrite !not_elem_of_cons. repeat split; [done|done|apply not_elem_of_nil].
    + reflexivity.
    + exists pk, ticket, db', trip'. split; [exact Hrun|].
      split; [rewrite Htrips; apply lookup_insert_eq|].
      split; [reflexivity|]. split; [exact Hseats|exact Hstatus].
Defined.

(** C2 fails as stated: the status is a writable field of the request and
    [create] never sets it.  A request that names the status Confirmed
    succeeds, and the ticket it stores is Confirmed, not Reserved. *)
Lemma C2_counterexample :
  let vd := TicketSerializer.mkCreateData (1%nat, Sample.trip) None
              (Some TicketStatus.CONFIRMED) None in
  exists db' pk t,
    TicketSerializer.create 1 Sample.rng 100 Sample.staff vd Sample.db
    = Some (db', Ok (pk, t))
    /\ tickets db' !! pk = Some t
    /\ ticket_status t = TicketStatus.CONFIRMED
    /\ ticket_status t <> TicketStatus.RESERVED.
Proof.
  simpl. eexists _, _, _. split; [by vm_compute|]. split; [by vm_compute|]. done.
Qed.

(** The capacity test comes first: a trip that is both full and Cancelled is
    refused with the "No seats available" error. *)
Example create_on_full_cancelled_trip :
  let trip := mkTrip 7 3 TripStatus.CANCELLED 2 2 None None in
  let vd := TicketSerializer.mkCreateData (1%nat, trip) None None None in
  let db := mkDB ∅ {[1%nat := trip]} [] ∅ ∅ ∅ in
  TicketSerializer.create 1 Sample.rng 100 Sample.staff vd db
  = Some (db, Raise TicketSerializer.no_seats_available).
Proof. by vm_compute. Qed.

(** A request that names no status stores a Reserved ticket (the model
    default) without [expires_at]: the test of line 71 reads the request, not
    the stored status. *)
Example create_without_status :
  let vd := TicketSerializer.mkCreateData (1%nat, Sample.trip) None None None in
  exists pk t db',
    TicketSerializer.create 1 Sample.rng 100 Sample.staff vd Sample.db = Some (db', Ok (pk, t))
    /\ ticket_status t = TicketStatus.RESERVED
    /\ ticket_expires_at t = None.
Proof. simpl. eexists _, _, _. split; [by vm_compute|]. done. Qed.

(** A request that names another status stores the ticket with it. *)
Example create_with_status :
  let vd := TicketSerializer.mkCreateData (1%nat, Sample.trip) None
              (Some TicketStatus.CONFIRMED) None in
  exists pk t db',
    TicketSerializer.create 1 Sample.rng 100 Sample.staff vd Sample.db = Some (db', Ok (pk, t))
    /\ ticket_status t = TicketStatus.CONFIRMED.
Proof. simpl. eexists _, _, _. split; [by vm_compute|]. done. Qed.

(** ** Ticket status transitions *)

(** The transition table of section 4.1, following the spec's words:
    Reserved -> Confirmed -> CheckedIn -> Used, Reserved/Confirmed ->
    Cancelled -> Refunded, Reserved -> Expired, and CheckIn from Reserved as
    its contract in the same section allows. *)
Definition spec_transition_table (old new : TicketStatus.t) : bool :=
  match old, new with
  | TicketStatus.RESERVED, TicketStatus.CONFIRMED
  | TicketStatus.CONFIRMED, TicketStatus.CHECKED_IN
  | TicketStatus.RESERVED, TicketStatus.CHECKED_IN
  | TicketStatus.CHECKED_IN, TicketStatus.USED
  | TicketStatus.RESERVED, TicketStatus.CANCELLED
  | TicketStatus.CONFIRMED, TicketStatus.CANCELLED
  | TicketStatus.CANCELLED, TicketStatus.REFUNDED
  | TicketStatus.RESERVED, TicketStatus.EXPIRED => true
  | _, _ => false
  end.

(** The three status-changing actions of [TicketViewSet] and their bodies. *)
Inductive action :=
| CheckIn (checked_in_by : option nat)
| Cancel (reason : option string)
| Refund (refund_amount : option Z) (refund_reference : option string).

Definition run_action (a : action) (now : Z) (user : User) (pk : nat) (db : DB)
  : DB * Response :=
  match a with
  | CheckIn checked_in_by => TicketViewSet.check_in now user pk checked_in_by db
  | Cancel reason => TicketViewSet.cancel now user pk reason db
  | Refund amount reference => TicketViewSet.refund now user pk amount reference db
  end.

Lemma get_object_lookup user pk db t :
  TicketViewSet.get_object user pk db = inl t -> tickets db !! pk = Some t.
Proof.
  unfold TicketViewSet.get_object. destruct (tickets db !! pk) as [t'|]; [|done].
  destruct (TicketViewSet.in_queryset user t'); [|done].
  destruct (TicketViewSet.has_object_permission user _); [|done]. congruence.
Qed.

(** Saving a ticket keeps it within reach of the same user: the queryset
    reads the company and the customer only. *)
Lemma get_object_save user pk db t t' :
  TicketViewSet.get_object user pk db = inl t ->
  ticket_company t' = ticket_company t ->
  ticket_customer t' = ticket_customer t ->
  TicketViewSet.get_object user pk (save_ticket pk t' db) = inl t'.
Proof.
  unfold TicketViewSet.get_object, TicketViewSet.in_queryset. simpl.
  rewrite lookup_insert_eq. intros Hget Hc Hcu.
  destruct (tickets db !! pk) as [t0|]; [|done]. rewrite Hc, Hcu.
  destruct (user_company user) as [c|]; [|done].
  destruct (_ && _) eqn:Hq in Hget; [|done].
  destruct (TicketViewSet.has_object_permission user (ticket_company t0)) eqn:Hp; [|done].
  injection Hget as ->. by rewrite Hq, Hp.
Qed.

Lemma release_seat_tickets trip_pk db :
  tickets (TicketSerializer.release_seat trip_pk db) = tickets db.
Proof. unfold TicketSerializer.release_seat. by destruct (trips db !! trip_pk). Qed.

(** C3 (as amended). Each of the actions check_in, cancel and refund either
    answers 200 and moves the ticket's stored status along an arrow of the
    transition table, or answers with an error and leaves the whole store,
    hence the status, unchanged.  A ticket whose status is not a permitted
    source is refused with the 400 "cannot be checked in / cancelled /
    refunded" response (for cancel once a reason is given, for check_in once
    the request body is valid). *)
Theorem C3_actions_follow_transition_table
    (a : action) (now : Z) (user : User) (pk : nat) (db : DB) :
  ((status_code (run_action a now user pk db).2 = HTTP_200_OK
    /\ exists t t',
         tickets db !! pk = Some t
         /\ tickets (run_action a now user pk db).1 !! pk = Some t'
         /\ spec_transition_table (ticket_status t) (ticket_status t') = true)
   \/ (status_code (run_action a now user pk db).2 <> HTTP_200_OK
       /\ (run_action a now user pk db).1 = db))
  /\ (forall t,
        TicketViewSet.get_object user pk db = inl t ->
        match a with
        | CheckIn checked_in_by =>
            ticket_status t ∉ [TicketStatus.CONFIRMED; TicketStatus.RESERVED] ->
            forall u, TicketCheckInSerializer.is_valid user checked_in_by db = inl u ->
            run_action a now user pk db = (db, TicketViewSet.cannot_check_in (ticket_status t))
        | Cancel reason =>
            ticket_status t ∉ [TicketStatus.RESERVED; TicketStatus.CONFIRMED] ->
            default "" reason <> "" ->
            run_action a now user pk db = (db, TicketViewSet.cannot_cancel (ticket_status t))
        | Refund _ _ =>
            ticket_status t <> TicketStatus.CANCELLED ->
            run_action a now user pk db = (db, TicketViewSet.cannot_refund)
        end).
Proof.
  split.
  - destruct a as [by_|reason|amount reference]; simpl.
    + unfold TicketViewSet.check_in.
      destruct (TicketViewSet.get_object user pk db) as [t|resp] eqn:Hget.
      2:{ right. split; [|done]. revert Hget. unfold TicketViewSet.get_object.
          repeat case_match; intros [= <-]; done. }
      apply get_object_lookup in Hget.
      destruct (TicketCheckInSerializer.is_valid user by_ db) as [u|errs]; [|by right].
      case_bool_decide as Hst; [by right|].
      assert (spec_transition_table (ticket_status t) TicketStatus.CHECKED_IN = true) as Htab.
      { set_unfold in Hst.
        destruct Hst as [->|[->|[]]]; done. }
      destruct u as [u|]; [destruct (user_employee u); [|by right]|];
        left; (split; [done|]); eexists _, _; simpl;
        (split; [done|]); (split; [apply lookup_insert_eq|done]).
    + unfold TicketViewSet.cancel.
      destruct (TicketViewSet.get_object user pk db) as [t|resp] eqn:Hget.
      2:{ right. split; [|done]. revert Hget. unfold TicketViewSet.get_object.
          repeat case_match; intros [= <-]; done. }
      apply get_object_lookup in Hget.
      case_bool_decide; [by right|].
      case_bool_decide as Hst; [by right|].
      left. split; [done|]. eexists _, _. split; [done|]. simpl.
      rewrite release_seat_tickets. simpl. split; [apply lookup_insert_eq|]. simpl.
      set_unfold in Hst.
      destruct Hst as [->|[->|[]]]; done.
    + unfold TicketViewSet.refund.
      destruct (TicketViewSet.get_object user pk db) as [t|resp] eqn:Hget.
      2:{ right. split; [|done]. revert Hget. unfold TicketViewSet.get_object.
          repeat case_match; intros [= <-]; done. }
      apply get_object_lookup in Hget.
      case_bool_decide as Hst; [by right|].
      case_bool_decide; [by right|].
      left. split; [done|]. eexists _, _. split; [done|]. simpl.
      split; [apply lookup_insert_eq|]. simpl.
      by rewrite Hst.
  - intros t Hget. destruct a as [by_|reason|amount reference]; simpl.
    + intros Hst u Hvalid. unfold TicketViewSet.check_in. rewrite Hget, Hvalid.
      by rewrite bool_decide_eq_true_2.
    + intros Hst Hreason. unfold TicketViewSet.cancel. rewrite Hget.
      rewrite bool_decide_eq_false_2 by done. by rewrite bool_decide_eq_true_2.
    + intros Hst. unfold TicketViewSet.refund. rewrite Hget.
      by rewrite bool_decide_eq_true_2.
Qed.

Lemma C3_actions_follow_transition_table_witness :
  let used := ticket_with_status TicketStatus.USED Sample.ticket in
  let db := save_ticket 5 used Sample.db in
  run_action (Cancel (Some "changed plans")) 100 Sample.staff 5 db
  = (db, TicketViewSet.cannot_cancel TicketStatus.USED).
Proof.
  intros used db.
  refine (proj2 (C3_actions_follow_transition_table (Cancel (Some "changed plans")) 100
                   Sample.staff 5 db) used _ _ _).
  - vm_compute. reflexivity.
  - vm_compute. intros H. inversion H as [|? ? ? H']. inversion H' as [|? ? ? H'']. inversion H''.
  - discriminate.
Defined.

(** C3 fails as stated: the update of the ticket resource writes whatever
    status the request names.  A Refunded ticket is moved back to Reserved,
    a change that is not in the table, and the call succeeds. *)
Lemma C3_counterexample :
  let refunded := ticket_with_status TicketStatus.REFUNDED Sample.ticket in
  let db := save_ticket 5 refunded Sample.db in
  let vd := TicketSerializer.mkUpdateData None None (Some TicketStatus.RESERVED)
              None None None None None None None None in
  exists db' t',
    TicketSerializer.update 100 (5%nat, refunded) vd db = (db', Ok (5%nat, t'))
    /\ tickets db' !! 5%nat = Some t'
    /\ ticket_status t' = TicketStatus.RESERVED
    /\ spec_transition_table (ticket_status refunded) (ticket_status t') = false.
Proof.
  simpl. eexists _, _. split; [by vm_compute|]. split; [by vm_compute|]. done.
Qed.

(** ** Cancellation and refund *)

Lemma get_object_tickets user pk db db' :
  tickets db' = tickets db ->
  TicketViewSet.get_object user pk db' = TicketViewSet.get_object user pk db.
Proof. unfold TicketViewSet.get_object. by intros ->. Qed.

Definition reason_required : Response :=
  mkResponse HTTP_400_BAD_REQUEST (Detail "Cancellation reason is required").
Definition amount_required : Response :=
  mkResponse HTTP_400_BAD_REQUEST (Detail "Refund amount is required").

(** Everything about a ticket that a cancellation leaves alone. *)
Definition same_ticket_but_cancellation (t t' : Ticket) : Prop :=
  ticket_company t' = ticket_company t
  /\ ticket_trip t' = ticket_trip t
  /\ ticket_customer t' = ticket_customer t
  /\ ticket_booking_reference t' = ticket_booking_reference t
  /\ ticket_checked_in_at t' = ticket_checked_in_at t
  /\ ticket_checked_in_by t' = ticket_checked_in_by t
  /\ ticket_refund_amount t' = ticket_refund_amount t
  /\ ticket_refund_date t' = ticket_refund_date t
  /\ ticket_refund_reference t' = ticket_refund_reference t
  /\ ticket_expires_at t' = ticket_expires_at t.

(** C4. For a ticket within the caller's reach whose status is Reserved or
    Confirmed: cancel without a reason, or with an empty one, is refused and
    changes nothing; cancel with a non-empty reason answers 200, after which
    the stored ticket reads status Cancelled, that reason and
    cancellation_date = now, and the stored trip reads
    booked_seats = max(0, booked_seats - 1), nothing else of the ticket or
    the trip and no other ticket or trip being touched; any further cancel
    is refused with 400 and changes nothing; refund is refused before the
    cancellation, needs an amount after it, then stores the status Refunded,
    and in every case leaves all trips, hence booked_seats, as the
    cancellation left them. *)
Theorem C4_cancel_decrements_once
    (now : Z) (user : User) (pk : nat) (reason : string) (db : DB)
    (t : Ticket) (trip : Trip) :
  TicketViewSet.get_object user pk db = inl t ->
  ticket_status t ∈ [TicketStatus.RESERVED; TicketStatus.CONFIRMED] ->
  trips db !! ticket_trip t = Some trip ->
  reason <> "" ->
  let db1 := (TicketViewSet.cancel now user pk (Some reason) db).1 in
  (forall r, default "" r = "" ->
     TicketViewSet.cancel now user pk r db = (db, reason_required))
  /\ status_code (TicketViewSet.cancel now user pk (Some reason) db).2 = HTTP_200_OK
  /\ (exists cancelled,
        tickets db1 = <[pk := cancelled]> (tickets db)
        /\ ticket_status cancelled = TicketStatus.CANCELLED
        /\ ticket_cancellation_date cancelled = Some now
        /\ ticket_cancellation_reason cancelled = Some reason
        /\ same_ticket_but_cancellation t cancelled)
  /\ (exists trip',
        trips db1 = <[ticket_trip t := trip']> (trips db)
        /\ trip_booked_seats trip' = Z.max 0 (trip_booked_seats trip - 1)
        /\ same_trip_but_booked_seats trip trip')
  /\ (forall now' r,
        exists resp, TicketViewSet.cancel now' user pk r db1 = (db1, resp)
                     /\ status_code resp = HTTP_400_BAD_REQUEST)
  /\ (forall now' amount reference,
        TicketViewSet.refund now' user pk amount reference db
        = (db, TicketViewSet.cannot_refund))
  /\ (forall now' amount reference,
        amount = None \/ amount = Some 0 ->
        TicketViewSet.refund now' user pk amount reference db1 = (db1, amount_required))
  /\ (forall now' amount reference,
        amount <> None -> amount <> Some 0 ->
        exists t',
          tickets (TicketViewSet.refund now' user pk amount reference db1).1 !! pk = Some t'
          /\ ticket_status t' = TicketStatus.REFUNDED
          /\ status_code (TicketViewSet.refund now' user pk amount reference db1).2
             = HTTP_200_OK)
  /\ (forall now' amount reference,
        trips (TicketViewSet.refund now' user pk amount reference db1).1 = trips db1).
Proof.
  intros Hget Hst Htrip Hreason db1.
  set (cancelled :=
         ticket_with_cancellation_date (Some now)
           (ticket_with_cancellation_reason (Some reason)
              (ticket_with_status TicketStatus.CANCELLED t))).
  assert (Hnotc : ticket_status t <> TicketStatus.CANCELLED).
  { set_unfold in Hst. destruct Hst as [->|[->|[]]]; done. }
  assert (Hdb1 : db1 = TicketSerializer.release_seat (ticket_trip t) (save_ticket pk cancelled db)).
  { subst db1. unfold TicketViewSet.cancel. rewrite Hget. simpl.
    rewrite bool_decide_eq_false_2 by done.
    by rewrite bool_decide_eq_false_2 by (intros H; apply H, Hst). }
  assert (Hget1 : TicketViewSet.get_object user pk db1 = inl cancelled).
  { rewrite Hdb1, (get_object_tickets _ _ (save_ticket pk cancelled db))
      by apply release_seat_tickets.
    by apply (get_object_save _ _ _ t). }
  split; [|split; [|split; [|split; [|split; [|split; [|split; [|split]]]]]]].
  - intros r Hr. unfold TicketViewSet.cancel. rewrite Hget, Hr.
    by rewrite bool_decide_eq_true_2.
  - unfold TicketViewSet.cancel. rewrite Hget. simpl.
    rewrite bool_decide_eq_false_2 by done.
    by rewrite bool_decide_eq_false_2 by (intros H; apply H, Hst).
  - exists cancelled. rewrite Hdb1, release_seat_tickets.
    split; [done|]. split; [done|]. split; [done|]. split; [done|].
    repeat split.
  - eexists. rewrite Hdb1. unfold TicketSerializer.release_seat. simpl. rewrite Htrip.
    split; [reflexivity|]. split; [done|]. repeat split.
  - intros now' r. unfold TicketViewSet.cancel. rewrite Hget1.
    case_bool_decide; [by eexists|].
    rewrite bool_decide_eq_true_2; [by eexists|].
    simpl. rewrite !not_elem_of_cons. repeat split; [done|done|apply not_elem_of_nil].
  - intros now' amount reference. unfold TicketViewSet.refund. rewrite Hget.
    by rewrite bool_decide_eq_true_2.
  - intros now' amount reference Hamount. unfold TicketViewSet.refund. rewrite Hget1.
    rewrite bool_decide_eq_false_2 by (simpl; intros H; by apply H).
    by rewrite bool_decide_eq_true_2.
  - intros now' amount reference Hsome Hnonzero. unfold TicketViewSet.refund. rewrite Hget1.
    rewrite bool_decide_eq_false_2 by (simpl; intros H; by apply H).
    rewrite bool_decide_eq_false_2 by (intros [?|?]; done).
    eexists. simpl. split; [apply lookup_insert_eq|done].
  - intros now' amount reference. unfold TicketViewSet.refund.
    destruct (TicketViewSet.get_object user pk db1); [|done].
    by repeat case_bool_decide.
Qed.

Lemma C4_cancel_decrements_once_witness :
  let db1 := (TicketViewSet.cancel 100 Sample.staff 5 (Some "changed plans") Sample.db).1 in
  trip_booked_seats Sample.trip = 1
  /\ (exists trip', trips db1 !! 1%nat = Some trip' /\ trip_booked_seats trip' = 0)
  /\ (exists cancelled,
        tickets db1 !! 5%nat = Some cancelled
        /\ ticket_cancellation_date cancelled = Some 100)
  /\ forall now' amount reference,
       trips (TicketViewSet.refund now' Sample.staff 5 amount reference db1).1 = trips db1.
Proof.
  intros db1.
  pose proof (C4_cancel_decrements_once 100 Sample.staff 5 "changed plans" Sample.db
                Sample.ticket Sample.trip) as H.
  destruct H as (_ & _ & (cancelled & Htickets & _ & Hdate & _)
                 & (trip' & Htrips & Hseats & _) & _ & _ & _ & _ & Hrefund).
  - vm_compute. reflexivity.
  - constructor.
  - vm_compute. reflexivity.
  - discriminate.
  - split; [reflexivity|]. split; [|split; [|exact Hrefund]].
    + exists trip'. split; [|exact Hseats].
      unfold db1. rewrite Htrips. apply lookup_insert_eq.
    + exists cancelled. split; [|exact Hdate].
      unfold db1. rewrite Htickets. apply lookup_insert_eq.
Defined.

(** ** Trip creation *)

(** The checks that precede the comparison of the two timestamps: tenant
    of route, bus, driver and conductor, bus status, driver and conductor
    roles, capacity. *)
Definition earlier_checks_pass (user : User) (data : TripSerializer.Data) : bool :=
  let company := user_company user in
  bool_decide (Some (TripSerializer.route_company (TripSerializer.d_route data)) = company)
  && bool_decide (Some (TripSerializer.bus_company (TripSerializer.d_bus data)) = company)
  && bool_decide (Some (TripSerializer.employee_company (TripSerializer.d_driver data)) = company)
  && match TripSerializer.d_conductor data with
     | Some c =>
         bool_decide (Some (TripSerializer.employee_company c) = company)
         && bool_decide (TripSerializer.employee_role c = EmployeeRole.CONDUCTOR)
     | None => true
     end
  && bool_decide (TripSerializer.bus_status (TripSerializer.d_bus data) = BusStatus.ACTIVE)
  && bool_decide (TripSerializer.employee_role (TripSerializer.d_driver data) = EmployeeRole.DRIVER)
  && bool_decide (0 < default 0 (TripSerializer.d_capacity data)).

Ltac split_checks :=
  repeat match goal with
         | H : _ && _ = true |- _ => apply andb_prop in H as [? ?]
         | H : bool_decide _ = true |- _ => apply bool_decide_eq_true_1 in H
         end.

(** When all of them pass, line 92 is reached and raises [NameError]: the
    module never binds the name [datetime], and the timestamps are not
    compared. *)
Lemma validate_name_error user data :
  earlier_checks_pass user data = true ->
  TripSerializer.validate user data = Raise (NameError "datetime").
Proof.
  unfold earlier_checks_pass, TripSerializer.validate. intros H.
  destruct (TripSerializer.d_conductor data) as [c|]; split_checks;
    by rewrite !bool_decide_eq_false_2 by (try lia; congruence).
Qed.

(** When one of them fails, the request is rejected with a validation error
    attached to a field. *)
Lemma validate_field_error user data :
  earlier_checks_pass user data = false ->
  exists field msg,
    TripSerializer.validate user data = Raise (ValidationError (Some field) msg).
Proof.
  intros Hfail. unfold TripSerializer.validate.
  repeat (case_bool_decide; [by eexists _, _|]).
  destruct (TripSerializer.d_conductor data) as [c|] eqn:Hc;
    repeat (case_bool_decide; [by eexists _, _|]);
    exfalso; revert Hfail; unfold earlier_checks_pass; rewrite Hc;
    rewrite !bool_decide_eq_true_2 by (done || lia); done.
Qed.

(** Hence [validate] returns for no request at all. *)
Lemma validate_never_returns user data data' :
  TripSerializer.validate user data <> Ok data'.
Proof.
  destruct (earlier_checks_pass user data) eqn:Hp.
  - by rewrite validate_name_error.
  - destruct (validate_field_error _ _ Hp) as (f & m & ->). done.
Qed.

(** C5, evaluated where the code departs from it: a creation request whose
    driver, bus, capacity and tenant references are all in order and whose
    departure (day 20, 10:00) is after its arrival (day 19, 09:00) is not
    rejected with a validation error; [validate] raises [NameError]. *)
Theorem C5_departure_check_raises_name_error :
  let data :=
    TripSerializer.mkData (TripSerializer.mkRoute 7)
      (TripSerializer.mkBus 7 BusStatus.ACTIVE)
      (TripSerializer.mkEmployee 7 EmployeeRole.DRIVER) None (Some 40)
      20 36000 19 32400 in
  TripSerializer.datetime_ge
    (TripSerializer.combine 20 36000) (TripSerializer.combine 19 32400) = true
  /\ TripSerializer.validate Sample.staff data = Raise (NameError "datetime")
  /\ forall field msg,
       TripSerializer.validate Sample.staff data <> Raise (ValidationError field msg).
Proof.
  simpl. split; [by vm_compute|]. split; [by vm_compute|].
  intros field msg. vm_compute. discriminate.
Qed.

(** ** Trip start and completion *)

Definition departure_event (now : Z) (pk : nat) (trip : Trip) : TripEvent :=
  mkTripEvent (trip_company trip) pk "Departure" now "Trip started" (Some (trip_driver trip)).
Definition arrival_event (now : Z) (pk : nat) (trip : Trip) : TripEvent :=
  mkTripEvent (trip_company trip) pk "Arrival" now "Trip completed" (Some (trip_driver trip)).

(** Everything about a trip that [start_trip], respectively
    [complete_trip], leaves alone. *)
Definition same_trip_but_status_and_departure (t t' : Trip) : Prop :=
  trip_company t' = trip_company t
  /\ trip_driver t' = trip_driver t
  /\ trip_capacity t' = trip_capacity t
  /\ trip_booked_seats t' = trip_booked_seats t
  /\ trip_actual_arrival t' = trip_actual_arrival t.
Definition same_trip_but_status_and_arrival (t t' : Trip) : Prop :=
  trip_company t' = trip_company t
  /\ trip_driver t' = trip_driver t
  /\ trip_capacity t' = trip_capacity t
  /\ trip_booked_seats t' = trip_booked_seats t
  /\ trip_actual_departure t' = trip_actual_departure t.

(** C6. For a trip within the caller's reach: start_trip succeeds exactly
    when the status is Scheduled; the stored trip then reads status Active
    and actual_departure = now, its other fields as before, and exactly one
    Departure event recorded by the trip's driver has been appended, nothing
    else being changed.  complete_trip succeeds exactly when the status is
    Active; the stored trip then reads status Completed and
    actual_arrival = now, and exactly one Arrival event has been appended.
    In any other status each answers 400 and changes nothing; in particular
    start_trip on a Completed trip. *)
Theorem C6_start_and_complete
    (now : Z) (user : User) (pk : nat) (db : DB) (trip : Trip) :
  TripViewSet.get_object user pk db = inl trip ->
  (trip_status trip = TripStatus.SCHEDULED ->
     exists started,
       TripViewSet.start_trip now user pk db
       = (mkDB (users db) (<[pk := started]> (trips db))
               (trip_events db ++ [departure_event now pk trip])
               (tickets db) (bookings db) (discounts db),
          mkResponse HTTP_200_OK (Detail "Trip started successfully"))
       /\ trip_status started = TripStatus.ACTIVE
       /\ trip_actual_departure started = Some now
       /\ same_trip_but_status_and_departure trip started)
  /\ (trip_status trip <> TripStatus.SCHEDULED ->
        TripViewSet.start_trip now user pk db = (db, TripViewSet.not_scheduled (trip_status trip)))
  /\ (trip_status trip = TripStatus.ACTIVE ->
        exists completed,
          TripViewSet.complete_trip now user pk db
          = (mkDB (users db) (<[pk := completed]> (trips db))
                  (trip_events db ++ [arrival_event now pk trip])
                  (tickets db) (bookings db) (discounts db),
             mkResponse HTTP_200_OK (Detail "Trip completed successfully"))
          /\ trip_status completed = TripStatus.COMPLETED
          /\ trip_actual_arrival completed = Some now
          /\ same_trip_but_status_and_arrival trip completed)
  /\ (trip_status trip <> TripStatus.ACTIVE ->
        TripViewSet.complete_trip now user pk db = (db, TripViewSet.not_active (trip_status trip)))
  /\ (trip_status trip = TripStatus.COMPLETED ->
        TripViewSet.start_trip now user pk db
        = (db, TripViewSet.not_scheduled TripStatus.COMPLETED)).
Proof.
  intros Hget. unfold TripViewSet.start_trip, TripViewSet.complete_trip. rewrite Hget.
  split; [|split; [|split; [|split]]].
  - intros Hst. rewrite bool_decide_eq_false_2 by (intros H; by apply H).
    eexists. split; [reflexivity|]. split; [done|]. split; [done|]. repeat split.
  - intros Hst. by rewrite bool_decide_eq_true_2.
  - intros Hst. rewrite bool_decide_eq_false_2 by (intros H; by apply H).
    eexists. split; [reflexivity|]. split; [done|]. split; [done|]. repeat split.
  - intros Hst. by rewrite bool_decide_eq_true_2.
  - intros Hst. rewrite Hst. by rewrite bool_decide_eq_true_2.
Qed.

Lemma C6_start_and_complete_witness :
  let run := TripViewSet.start_trip 100 Sample.staff 1 Sample.db in
  status_code run.2 = HTTP_200_OK
  /\ trip_events run.1 = [departure_event 100 1 Sample.trip]
  /\ exists started,
       trips run.1 !! 1%nat = Some started
       /\ trip_status started = TripStatus.ACTIVE
       /\ trip_actual_departure started = Some 100.
Proof.
  intros run.
  pose proof (C6_start_and_complete 100 Sample.staff 1 Sample.db Sample.trip) as H.
  destruct H as (Hstart & _).
  - vm_compute. reflexivity.
  - destruct Hstart as (started & Hrun & Hstatus & Hdeparture & _); [reflexivity|].
    unfold run. rewrite Hrun. split; [reflexivity|]. split; [reflexivity|].
    exists started. split; [apply lookup_insert_eq|].
    split; [exact Hstatus|exact Hdeparture].
Defined.

(** Started and then completed, a trip cannot be started again. *)
Example start_complete_start :
  let db1 := (TripViewSet.start_trip 100 Sample.staff 1 Sample.db).1 in
  let db2 := (TripViewSet.complete_trip 200 Sample.staff 1 db1).1 in
  (trip_status <$> trips db2 !! 1%nat) = Some TripStatus.COMPLETED
  /\ (event_type <$> trip_events db2) = ["Departure"; "Arrival"]
  /\ TripViewSet.start_trip 300 Sample.staff 1 db2
     = (db2, TripViewSet.not_scheduled TripStatus.COMPLETED).
Proof. simpl. split; [by vm_compute|]. split; by vm_compute. Qed.

Lemma trip_get_object_lookup user pk db trip :
  TripViewSet.get_object user pk db = inl trip -> trips db !! pk = Some trip.
Proof.
  unfold TripViewSet.get_object. repeat case_match; try done. congruence.
Qed.

(** A 200 answer of either action means the trip was in the source status. *)
Lemma start_trip_only_if_scheduled now user pk db :
  status_code (TripViewSet.start_trip now user pk db).2 = HTTP_200_OK ->
  exists trip, trips db !! pk = Some trip /\ trip_status trip = TripStatus.SCHEDULED.
Proof.
  unfold TripViewSet.start_trip.
  destruct (TripViewSet.get_object user pk db) as [trip|resp] eqn:Hget.
  - case_bool_decide as Hst; [done|]. intros _. exists trip.
    split; [by apply trip_get_object_lookup in Hget|]. by destruct (trip_status trip).
  - revert Hget. unfold TripViewSet.get_object. repeat case_match; intros [= <-]; done.
Qed.

Lemma complete_trip_only_if_active now user pk db :
  status_code (TripViewSet.complete_trip now user pk db).2 = HTTP_200_OK ->
  exists trip, trips db !! pk = Some trip /\ trip_status trip = TripStatus.ACTIVE.
Proof.
  unfold TripViewSet.complete_trip.
  destruct (TripViewSet.get_object user pk db) as [trip|resp] eqn:Hget.
  - case_bool_decide as Hst; [done|]. intros _. exists trip.
    split; [by apply trip_get_object_lookup in Hget|]. by destruct (trip_status trip).
  - revert Hget. unfold TripViewSet.get_object. repeat case_match; intros [= <-]; done.
Qed.

(** ** Discount codes *)

(** The uniqueness constraint on [Discount.code] ([unique=True]). *)
Definition unique_codes (db : DB) : Prop :=
  forall i j d1 d2,
    discounts db !! i = Some d1 -> discounts db !! j = Some d2 ->
    discount_code d1 = discount_code d2 -> i = j.

(** What the filters of [validate_code] select, in the terms of the model. *)
Lemma selected_spec now user code d :
  DiscountViewSet.selected now user code d = true <->
  user_company user = Some (discount_company d)
  /\ discount_code d = code
  /\ discount_is_active d = true
  /\ discount_start_date d <= now
  /\ (forall e, discount_end_date d = Some e -> now <= e).
Proof.
  unfold DiscountViewSet.selected.
  rewrite !andb_true_iff, !bool_decide_eq_true.
  destruct (discount_end_date d) as [e|].
  - rewrite bool_decide_eq_true. split.
    + intros ((((? & ?) & ?) & ?) & ?). repeat split; try done. intros ? [= <-]. lia.
    + intros (? & ? & ? & ? & He). repeat split; try done. specialize (He e eq_refl). lia.
  - split; [intros ((((? & ?) & ?) & ?) & ?)|intros (? & ? & ? & ? & ?)]; repeat split; done.
Qed.

Lemma limit_reached_spec d :
  DiscountViewSet.limit_reached d = true <->
  exists l, discount_usage_limit d = Some l /\ l <> 0 /\ l <= discount_usage_count d.
Proof.
  unfold DiscountViewSet.limit_reached. destruct (discount_usage_limit d) as [l|].
  - rewrite andb_true_iff, negb_true_iff, bool_decide_eq_false, bool_decide_eq_true. split.
    + intros [? ?]. exists l. repeat split; [done|lia].
    + intros (? & [= <-] & ? & ?). split; [done|lia].
  - split; [done|]. by intros (? & ? & _).
Qed.

(** The rows the query returns, as a map. *)
Definition query (now : Z) (user : User) (code : string) (db : DB) : gmap nat Discount :=
  filter (fun kd => DiscountViewSet.selected now user code kd.2 = true) (discounts db).

Lemma query_lookup now user code db pk d :
  query now user code db !! pk = Some d <->
  discounts db !! pk = Some d /\ DiscountViewSet.selected now user code d = true.
Proof. unfold query. by rewrite map_lookup_filter_Some. Qed.

(** Under the uniqueness constraint the query returns at most one row. *)
Lemma query_cases now user code db :
  unique_codes db ->
  (map_to_list (query now user code db) = []
   /\ forall pk d, discounts db !! pk = Some d ->
                   DiscountViewSet.selected now user code d = false)
  \/ (exists pk d,
        map_to_list (query now user code db) = [(pk, d)]
        /\ discounts db !! pk = Some d
        /\ DiscountViewSet.selected now user code d = true).
Proof.
  intros Huniq.
  destruct (map_to_list (query now user code db)) as [|[pk d] rest] eqn:Hlist.
  - left. split; [done|]. intros pk d Hpk.
    apply map_to_list_empty_iff in Hlist.
    destruct (DiscountViewSet.selected now user code d) eqn:Hsel; [|done].
    assert (query now user code db !! pk = Some d) as Hq by by apply query_lookup.
    by rewrite Hlist, lookup_empty in Hq.
  - right. exists pk, d.
    assert (Hin : (pk, d) ∈ map_to_list (query now user code db)).
    { rewrite Hlist. constructor. }
    apply elem_of_map_to_list, query_lookup in Hin as [Hpk Hsel].
    destruct rest as [|[pk' d'] rest]; [done|]. exfalso.
    assert (Hin' : (pk', d') ∈ map_to_list (query now user code db)).
    { rewrite Hlist. do 2 constructor. }
    apply elem_of_map_to_list, query_lookup in Hin' as [Hpk' Hsel'].
    pose proof (NoDup_fst_map_to_list (query now user code db)) as Hnd.
    rewrite Hlist in Hnd. simpl in Hnd.
    apply NoDup_cons in Hnd as [Hnotin _]. apply Hnotin.
    apply selected_spec in Hsel as (_ & Hc & _).
    apply selected_spec in Hsel' as (_ & Hc' & _).
    rewrite (Huniq pk pk' d d' Hpk Hpk') by congruence. constructor.
Qed.

(** A discount that the code accepts for [code] at time [now]: of the
    user's company, carrying the code, active, started, and not past its
    end date (the end date itself still counts). *)
Definition usable (now : Z) (user : User) (code : string) (d : Discount) : Prop :=
  user_company user = Some (discount_company d)
  /\ discount_code d = code
  /\ discount_is_active d = true
  /\ discount_start_date d <= now
  /\ (forall e, discount_end_date d = Some e -> now <= e).

(** The usage limit as the code tests it: set, not zero, and reached. *)
Definition over_limit (d : Discount) : Prop :=
  exists l, discount_usage_limit d = Some l /\ l <> 0 /\ l <= discount_usage_count d.

(** C7 (as amended). With distinct codes and a non-empty [code],
    validate_code answers 200 with the discount exactly when a discount of
    the user's company carries the code, is active, has
    start_date <= now <= end_date (or no end date), and is not over its usage
    limit (a limit that is set, not zero, and <= usage_count); it answers 404
    exactly when no discount is usable in that sense, and 400 exactly when
    the usable discount is over its limit.  A missing or empty code is
    answered with 400.  The store, hence every usage_count, is never
    changed. *)
Theorem C7_validate_code
    (now : Z) (user : User) (code : string) (db : DB) :
  unique_codes db ->
  code <> "" ->
  let run := DiscountViewSet.validate_code now user (Some code) db in
  run.1 = db
  /\ (forall d,
        run.2 = mkResponse HTTP_200_OK (DiscountData d) <->
        (exists pk, discounts db !! pk = Some d) /\ usable now user code d /\ ~ over_limit d)
  /\ (status_code run.2 = HTTP_200_OK -> exists d, run.2 = mkResponse HTTP_200_OK (DiscountData d))
  /\ (status_code run.2 = HTTP_404_NOT_FOUND <->
      forall pk d, discounts db !! pk = Some d -> ~ usable now user code d)
  /\ (status_code run.2 = HTTP_400_BAD_REQUEST <->
      exists pk d, discounts db !! pk = Some d /\ usable now user code d /\ over_limit d)
  /\ (forall c, c = None \/ c = Some "" ->
        DiscountViewSet.validate_code now user c db
        = (db, mkResponse HTTP_400_BAD_REQUEST (Detail "Discount code is required"))).
Proof.
  intros Huniq Hcode run.
  assert (Hrun : run =
    match map_to_list (query now user code db) with
    | [] => (db, mkResponse HTTP_404_NOT_FOUND (Detail "Invalid or expired discount code"))
    | [(_, discount)] =>
        if DiscountViewSet.limit_reached discount
        then (db, mkResponse HTTP_400_BAD_REQUEST
                    (Detail "Discount code has reached its usage limit"))
        else (db, mkResponse HTTP_200_OK (DiscountData discount))
    | _ => (db, TicketViewSet.server_error)
    end).
  { subst run. unfold DiscountViewSet.validate_code. by destruct code. }
  assert (Hsel : forall d, DiscountViewSet.selected now user code d = false ->
                           ~ usable now user code d).
  { intros d Hf Hu. apply selected_spec in Hu. congruence. }
  assert (Hone : forall pk d pk' d',
             discounts db !! pk = Some d -> usable now user code d ->
             discounts db !! pk' = Some d' -> usable now user code d' -> d' = d).
  { intros pk d pk' d' Hpk (_ & Hc & _) Hpk' (_ & Hc' & _).
    assert (pk = pk') as -> by (apply (Huniq pk pk' d d'); congruence). congruence. }
  split.
  { rewrite Hrun. repeat case_match; done. }
  destruct (query_cases now user code db Huniq) as [[Hnil Hnone]|(pk & d & Hlist & Hpk & Hs)].
  - rewrite Hnil in Hrun. rewrite Hrun. simpl.
    split; [|split; [|split; [|split]]].
    + intros d. split; [done|]. intros ([pk Hpk] & Hu & _).
      destruct (Hsel d (Hnone pk d Hpk) Hu).
    + done.
    + split; [|done]. intros _ pk d Hpk. apply Hsel, (Hnone pk d Hpk).
    + split; [done|]. intros (pk & d & Hpk & Hu & _).
      destruct (Hsel d (Hnone pk d Hpk) Hu).
    + intros c [->| ->]; done.
  - rewrite Hlist in Hrun. rewrite Hrun.
    assert (Hu : usable now user code d) by by apply selected_spec.
    destruct (DiscountViewSet.limit_reached d) eqn:Hlim; simpl.
    + assert (Hov : over_limit d) by by apply limit_reached_spec.
      split; [|split; [|split; [|split]]].
      * intros d'. split; [done|]. intros ([pk' Hpk'] & Hu' & Hno).
        rewrite (Hone pk d pk' d') in Hno by done. destruct (Hno Hov).
      * done.
      * split; [done|]. intros Hnone. by destruct (Hnone pk d Hpk).
      * split; [|done]. intros _. by exists pk, d.
      * intros c [->| ->]; done.
    + assert (Hov : ~ over_limit d).
      { intros Hov. apply limit_reached_spec in Hov. congruence. }
      split; [|split; [|split; [|split]]].
      * intros d'. split.
        -- intros [= <-]. split; [by exists pk|done].
        -- intros ([pk' Hpk'] & Hu' & _). by rewrite (Hone pk d pk' d').
      * intros _. by exists d.
      * split; [done|]. intros Hnone. by destruct (Hnone pk d Hpk).
      * split; [done|]. intros (pk' & d' & Hpk' & Hu' & Hov').
        rewrite (Hone pk d pk' d') in Hov' by done. destruct (Hov Hov').
      * intros c [->| ->]; done.
Qed.

Module SampleDiscount.
(** SAVE10: active from second 1000 to second 2000, at most 5 uses. *)
Definition save10 (usage_count : Z) : Discount :=
  mkDiscount 7 "SAVE10" DiscountType.PERCENTAGE 1000 1000 (Some 2000) (Some 5)
             usage_count true.
Definition db (usage_count : Z) : DB := mkDB ∅ ∅ [] ∅ ∅ {[3%nat := save10 usage_count]}.

Lemma unique usage_count : unique_codes (db usage_count).
Proof.
  intros i j d1 d2 Hi Hj _. simpl in *.
  apply lookup_singleton_Some in Hi as [<- _].
  by apply lookup_singleton_Some in Hj as [<- _].
Defined.
End SampleDiscount.

Lemma C7_validate_code_witness :
  (DiscountViewSet.validate_code 1500 Sample.staff (Some "SAVE10") (SampleDiscount.db 0)).1
  = SampleDiscount.db 0.
Proof.
  refine (proj1 (C7_validate_code 1500 Sample.staff "SAVE10" (SampleDiscount.db 0)
                   (SampleDiscount.unique 0) _)).
  discriminate.
Defined.

(** C7 fails as stated.  A discount that has reached its usage limit is
    answered with 400, not with 404.  On its end date, which the half-open
    window excludes, the discount is still returned.  And a discount whose
    usage_limit is set to 0, which its usage_count of 0 has reached, is
    returned as well. *)
Lemma C7_counterexample :
  let d := SampleDiscount.save10 5 in
  let run := DiscountViewSet.validate_code 1500 Sample.staff (Some "SAVE10")
               (SampleDiscount.db 5) in
  let run_end := DiscountViewSet.validate_code 2000 Sample.staff (Some "SAVE10")
                   (SampleDiscount.db 0) in
  let d0 := mkDiscount 7 "FREE" DiscountType.FIXED_AMOUNT 500 1000 None (Some 0) 0 true in
  let run0 := DiscountViewSet.validate_code 1500 Sample.staff (Some "FREE")
                (mkDB ∅ ∅ [] ∅ ∅ {[4%nat := d0]}) in
  (discount_usage_limit d = Some 5
   /\ discount_usage_count d >= 5
   /\ run.2 = mkResponse HTTP_400_BAD_REQUEST
                (Detail "Discount code has reached its usage limit")
   /\ status_code run.2 <> HTTP_404_NOT_FOUND)
  /\ (discount_end_date (SampleDiscount.save10 0) = Some 2000
      /\ run_end.2 = mkResponse HTTP_200_OK (DiscountData (SampleDiscount.save10 0)))
  /\ (discount_usage_limit d0 = Some 0
      /\ discount_usage_count d0 >= 0
      /\ run0.2 = mkResponse HTTP_200_OK (DiscountData d0)).
Proof.
  simpl. split; [|split].
  - split; [done|]. split; [done|]. split; [by vm_compute|]. vm_compute. discriminate.
  - split; [done|]. by vm_compute.
  - split; [done|]. split; [done|]. by vm_compute.
Qed.

(** The window of validity: inside it the discount is returned; past the end
    date, or before the start date, the answer is 404; on the end date itself
    the discount is still returned. *)
Example validate_code_window :
  let run now := (DiscountViewSet.validate_code now Sample.staff (Some "SAVE10")
                    (SampleDiscount.db 0)).2 in
  run 1500 = mkResponse HTTP_200_OK (DiscountData (SampleDiscount.save10 0))
  /\ status_code (run 2001) = HTTP_404_NOT_FOUND
  /\ status_code (run 999) = HTTP_404_NOT_FOUND
  /\ run 2000 = mkResponse HTTP_200_OK (DiscountData (SampleDiscount.save10 0)).
Proof. simpl. repeat split; by vm_compute. Qed.

(** ** Booking creation *)

(** The instances handed to [create] were read from the store. *)
Definition loaded_from (db : DB) (tickets_data : list BookingSerializer.TicketInstance) : Prop :=
  Forall (fun i => tickets db !! BookingSerializer.inst_pk i = Some (BookingSerializer.inst_row i))
         tickets_data.

Lemma associate_bookings booking_pk booking tickets_data db :
  bookings (BookingSerializer.associate booking_pk booking tickets_data db).1.1 = bookings db.
Proof.
  revert db. induction tickets_data as [|ticket rest IH]; intros db; simpl; [done|].
  case_bool_decide; [done|].
  specialize (IH (save_ticket (BookingSerializer.inst_pk ticket)
                              (BookingSerializer.inst_row ticket) db)).
  destruct (BookingSerializer.associate _ _ rest _) as [[db2 rest'] e]. by simpl in *.
Qed.

(** The loop writes each instance back as it was read: the stored tickets do
    not change, whether the loop completes or raises. *)
Lemma associate_tickets booking_pk booking tickets_data db :
  loaded_from db tickets_data ->
  tickets (BookingSerializer.associate booking_pk booking tickets_data db).1.1 = tickets db.
Proof.
  revert db. induction tickets_data as [|ticket rest IH]; intros db Hl; simpl; [done|].
  apply Forall_cons in Hl as [Hhd Htl].
  case_bool_decide; [done|].
  assert (Hsame : save_ticket (BookingSerializer.inst_pk ticket)
                              (BookingSerializer.inst_row ticket) db = db).
  { unfold save_ticket, set_tickets. rewrite insert_id by done. by destruct db. }
  specialize (IH db Htl). simpl. rewrite Hsame.
  destruct (BookingSerializer.associate _ _ rest db) as [[db2 rest'] e]. by simpl in *.
Qed.

(** When every ticket is of the booking's company the loop completes and has
    assigned the booking to the attribute of each instance, in order. *)
Lemma associate_completes booking_pk booking tickets_data db :
  Forall (fun i => ticket_company (BookingSerializer.inst_row i) = booking_company booking)
         tickets_data ->
  (BookingSerializer.associate booking_pk booking tickets_data db).2 = None
  /\ (BookingSerializer.associate booking_pk booking tickets_data db).1.2
     = (fun i => BookingSerializer.mkTicketInstance (BookingSerializer.inst_pk i)
                   (BookingSerializer.inst_row i) (Some booking_pk)) <$> tickets_data.
Proof.
  revert db. induction tickets_data as [|ticket rest IH]; intros db Hall; simpl; [done|].
  apply Forall_cons in Hall as [Hhd Htl].
  rewrite bool_decide_eq_false_2 by (intros H; by apply H).
  specialize (IH (save_ticket (BookingSerializer.inst_pk ticket)
                              (BookingSerializer.inst_row ticket) db) Htl).
  destruct (BookingSerializer.associate _ _ rest _) as [[db2 rest'] e]. simpl in *.
  destruct IH as [-> ->]. done.
Qed.

(** A ticket of another company makes the loop raise. *)
Lemma associate_raises booking_pk booking tickets_data db :
  Exists (fun i => ticket_company (BookingSerializer.inst_row i) <> booking_company booking)
         tickets_data ->
  is_Some (BookingSerializer.associate booking_pk booking tickets_data db).2.
Proof.
  revert db. induction tickets_data as [|ticket rest IH]; intros db Hex; simpl.
  - by apply Exists_nil in Hex.
  - case_bool_decide as Hc; [by eexists|].
    apply Exists_cons in Hex as [Hhd|Htl]; [by destruct Hc|].
    specialize (IH (save_ticket (BookingSerializer.inst_pk ticket)
                                (BookingSerializer.inst_row ticket) db) Htl).
    destruct (BookingSerializer.associate _ _ rest _) as [[db2 rest'] e]. by simpl in *.
Qed.

(** The all-or-nothing part: whenever [create] raises, the store is the one
    it started from, so no booking row is left and no ticket row differs;
    and it does raise when the list holds a ticket of another company. *)
Lemma create_rolls_back fuel rng user vd db db' insts e :
  BookingSerializer.create fuel rng user vd db = Some (db', insts, Raise e) -> db' = db.
Proof.
  unfold BookingSerializer.create, BookingSerializer.atomic.
  destruct (BookingSerializer.create_body fuel rng user vd db) as [[[db1 b] [a|e']]|]; congruence.
Qed.

Lemma create_raises_on_foreign_ticket fuel rng user vd db c ref :
  BookingSerializer._generate_booking_reference fuel db rng = Some ref ->
  user_company user = Some c ->
  Exists (fun i => ticket_company (BookingSerializer.inst_row i) <> c)
         (default [] (BookingSerializer.vd_tickets vd)) ->
  exists insts e, BookingSerializer.create fuel rng user vd db = Some (db, insts, Raise e).
Proof.
  intros Hgen Hc Hex.
  unfold BookingSerializer.create, BookingSerializer.atomic, BookingSerializer.create_body.
  rewrite Hgen, Hc.
  match goal with
  | |- context [BookingSerializer.associate ?pk ?b ?l ?d] =>
      pose proof (associate_raises pk b l d Hex) as [e He];
      destruct (BookingSerializer.associate pk b l d) as [[db2 rest'] e'] eqn:Ha
  end.
  simpl in He. subst e'. by eexists _, _.
Qed.

(** On success the booking row is stored and the attribute of every listed
    instance names it, but the ticket table is exactly what it was: the
    association exists on the Python objects only. *)
Lemma create_success fuel rng user vd db db' insts pk booking :
  loaded_from db (default [] (BookingSerializer.vd_tickets vd)) ->
  BookingSerializer.create fuel rng user vd db = Some (db', insts, Ok (pk, booking)) ->
  bookings db' = <[pk := booking]> (bookings db)
  /\ bookings db !! pk = None
  /\ Forall (fun i => BookingSerializer.inst_booking i = Some pk) insts
  /\ tickets db' = tickets db.
Proof.
  intros Hl.
  unfold BookingSerializer.create, BookingSerializer.atomic, BookingSerializer.create_body.
  destruct (BookingSerializer._generate_booking_reference fuel db rng) as [ref|]; [|done].
  destruct (user_company user) as [c|]; [|done].
  set (b := mkBooking c (BookingSerializer.vd_customer vd) ref).
  set (bpk := fresh (dom (bookings db))).
  set (db1 := set_bookings (insert bpk b) db).
  pose proof (associate_bookings bpk b (default [] (BookingSerializer.vd_tickets vd)) db1) as Hb.
  pose proof (associate_tickets bpk b (default [] (BookingSerializer.vd_tickets vd)) db1 Hl) as Ht.
  destruct (decide (Forall (fun i => ticket_company (BookingSerializer.inst_row i)
                                     = booking_company b)
                           (default [] (BookingSerializer.vd_tickets vd)))) as [Hall|Hnot].
  - pose proof (associate_completes bpk b _ db1 Hall) as [He Hi].
    destruct (BookingSerializer.associate bpk b _ db1) as [[db2 rest'] e]. simpl in *.
    subst e. intros [= <- <- <- <-].
    split; [done|]. split; [apply not_elem_of_dom, is_fresh|]. split; [|done].
    rewrite Hi. apply Forall_fmap, Forall_true. done.
  - apply not_Forall_Exists in Hnot; [|apply _].
    pose proof (associate_raises bpk b _ db1 Hnot) as [e He].
    destruct (BookingSerializer.associate bpk b _ db1) as [[db2 rest'] e']. simpl in *.
    by subst e'.
Qed.

(** C8, evaluated where the code departs from it: creating a booking for
    ticket 5, a ticket of the caller's own company, succeeds; the booking is
    stored and the in-memory instance has it as its [booking] attribute, but
    the stored ticket is unchanged.  [Ticket] has no column for the booking,
    so after the request nothing links the ticket to the new booking. *)
Theorem C8_booking_link_not_persisted :
  let vd := BookingSerializer.mkCreateData
              (BookingSerializer.load_tickets [5%nat] Sample.db) None in
  exists db' insts pk booking,
    BookingSerializer.create 1 Sample.rng Sample.staff vd Sample.db
    = Some (db', insts, Ok (pk, booking))
    /\ bookings db' !! pk = Some booking
    /\ (BookingSerializer.inst_booking <$> insts) = [Some pk]
    /\ tickets db' !! 5%nat = Some Sample.ticket
    /\ tickets db' = tickets Sample.db.
Proof.
  simpl. eexists _, _, _, _. split; [by vm_compute|].
  split; [by vm_compute|]. split; [done|]. split; by vm_compute.
Qed.

(** Without the decorator the partial work would stay: the booking row, and
    the writes for the tickets that precede the foreign one. *)
Example create_body_leaves_booking :
  let foreign := ticket_with_trip 1 (mkTicket 8 1 None "XX000001" TicketStatus.RESERVED
                                       None None None None None None None None) in
  let db := save_ticket 6 foreign Sample.db in
  let vd := BookingSerializer.mkCreateData (BookingSerializer.load_tickets [5; 6]%nat db) None in
  (exists db1 insts e,
     BookingSerializer.create_body 1 Sample.rng Sample.staff vd db = Some (db1, insts, Raise e)
     /\ bookings db1 <> bookings db
     /\ (BookingSerializer.inst_booking <$> insts) = [Some 0%nat; None])
  /\ (exists insts e,
        BookingSerializer.create 1 Sample.rng Sample.staff vd db = Some (db, insts, Raise e)).
Proof.
  simpl. split.
  - eexists _, _, _. split; [by vm_compute|]. split; [|by vm_compute].
    intros H. apply (f_equal (fun m => m !! 0%nat)) in H. vm_compute in H. discriminate.
  - eexists _, _. by vm_compute.
Qed.

(** ** Percentage discounts *)

(** A request that names the type Percentage with a value above 100 is
    rejected, on creation and on update. *)
Lemma percentage_over_100_rejected partial data :
  DiscountSerializer.d_type data = Some DiscountType.PERCENTAGE ->
  default 0 (DiscountSerializer.d_value data) > 100 * 100 ->
  exists field msg, DiscountSerializer.is_valid partial data
                    = Raise (ValidationError (Some field) msg).
Proof.
  intros Hty Hval. unfold DiscountSerializer.is_valid, DiscountSerializer.validate.
  repeat (destruct (_ && _); [by eexists _, _|]).
  destruct (match DiscountSerializer.get _ with Some _ => _ | None => _ end);
    [by eexists _, _|].
  rewrite Hty. rewrite !bool_decide_eq_true_2 by done. by eexists _, _.
Qed.

(** C9, evaluated where the code departs from it: a creation request with
    value 150.00 that omits the type passes [validate], whose test reads the
    type from the request only, and is stored as a Percentage discount (the
    model default) with value 150.  Likewise a partial update that sends
    only the value 150.00 to a stored Percentage discount. *)
Theorem C9_percentage_default_bypasses_check :
  let request :=
    DiscountSerializer.mkData (Some "SAVE150") None (Some 15000) (Some 1000) None None None in
  let patch := DiscountSerializer.mkData None None (Some 15000) None None None None in
  let db := SampleDiscount.db 0 in
  (exists db' pk d,
     DiscountSerializer.save_new Sample.staff request db = (db', Ok (pk, d))
     /\ discounts db' !! pk = Some d
     /\ discount_type d = DiscountType.PERCENTAGE
     /\ discount_value d = 150 * 100)
  /\ (exists db' d,
        DiscountSerializer.save_existing true (3%nat, SampleDiscount.save10 0) patch db
        = (db', Ok (3%nat, d))
        /\ discounts db' !! 3%nat = Some d
        /\ discount_type d = DiscountType.PERCENTAGE
        /\ discount_value d = 150 * 100).
Proof.
  simpl. split.
  - eexists _, _, _. split; [by vm_compute|]. split; [by vm_compute|]. done.
  - eexists _, _. split; [by vm_compute|]. split; [by vm_compute|]. done.
Qed.

(** ** Expiry *)

(** C10. A Reserved ticket whose expires_at lies strictly in the past is
    listed by [expired], and yet check_in and cancel succeed on it; they
    answer and store exactly what they do for the same ticket with any other
    expires_at (its own expires_at being kept either way): the two handlers
    read the status and never expires_at. *)
Theorem C10_expiry_does_not_block
    (now : Z) (user : User) (pk : nat) (checked_in_by : option nat)
    (reason : string) (db : DB) (t : Ticket) (e : Z) (other : option Z) :
  TicketViewSet.get_object user pk db = inl t ->
  ticket_status t = TicketStatus.RESERVED ->
  ticket_expires_at t = Some e ->
  e < now ->
  reason <> "" ->
  (forall uid, checked_in_by = Some uid ->
     exists u emp, users db !! uid = Some u
                   /\ user_company u = user_company user /\ user_employee u = Some emp) ->
  let db_other := save_ticket pk (ticket_with_expires_at other t) db in
  let ci := TicketViewSet.check_in now user pk checked_in_by db in
  let ci_other := TicketViewSet.check_in now user pk checked_in_by db_other in
  let ca := TicketViewSet.cancel now user pk (Some reason) db in
  let ca_other := TicketViewSet.cancel now user pk (Some reason) db_other in
  TicketViewSet.expired now user db !! pk = Some t
  /\ status_code ci.2 = HTTP_200_OK
  /\ (exists t', tickets ci.1 !! pk = Some t'
                 /\ ticket_status t' = TicketStatus.CHECKED_IN
                 /\ ticket_checked_in_at t' = Some now
                 /\ ticket_expires_at t' = Some e
                 /\ tickets ci_other.1 !! pk = Some (ticket_with_expires_at other t'))
  /\ ci_other.2 = ci.2
  /\ status_code ca.2 = HTTP_200_OK
  /\ (exists t', tickets ca.1 !! pk = Some t'
                 /\ ticket_status t' = TicketStatus.CANCELLED
                 /\ ticket_expires_at t' = Some e
                 /\ tickets ca_other.1 !! pk = Some (ticket_with_expires_at other t'))
  /\ ca_other.2 = ca.2
  /\ trips ca_other.1 = trips ca.1.
Proof.
  intros Hget Hst Hexp Hpast Hreason Hby db_other ci ci_other ca ca_other.
  pose proof (get_object_lookup _ _ _ _ Hget) as Hpk.
  assert (Hget' : TicketViewSet.get_object user pk db_other
                  = inl (ticket_with_expires_at other t)).
  { by apply (get_object_save _ _ _ t). }
  assert (Hq : TicketViewSet.in_queryset user t = true).
  { revert Hget. unfold TicketViewSet.get_object. rewrite Hpk.
    by destruct (TicketViewSet.in_queryset user t). }
  assert (Hvalid : TicketCheckInSerializer.is_valid user checked_in_by db_other
                   = TicketCheckInSerializer.is_valid user checked_in_by db) by done.
  split.
  { unfold TicketViewSet.expired. apply map_lookup_filter_Some. split; [done|].
    simpl. unfold TicketViewSet.is_expired. rewrite Hq, Hst, Hexp.
    by rewrite !bool_decide_eq_true_2. }
  subst ci ci_other ca ca_other.
  unfold TicketViewSet.check_in, TicketViewSet.cancel.
  rewrite Hget, Hget', Hvalid. simpl. rewrite Hst. simpl.
  rewrite (bool_decide_eq_false_2 (reason = "")) by done.
  assert (Hci : exists emp : option nat,
             TicketCheckInSerializer.is_valid user checked_in_by db
             = inl (match checked_in_by with
                    | Some uid => users db !! uid
                    | None => None
                    end)
             /\ (forall uid, checked_in_by = Some uid ->
                   exists u, users db !! uid = Some u /\ user_employee u = emp /\ is_Some emp)).
  { destruct checked_in_by as [uid|].
    - destruct (Hby uid eq_refl) as (u & emp & Hu & Hc & He).
      exists (Some emp). unfold TicketCheckInSerializer.is_valid. rewrite Hu.
      unfold TicketCheckInSerializer.validate_checked_in_by.
      rewrite bool_decide_eq_false_2 by (intros H; by apply H).
      split; [done|]. intros ? [= <-]. by exists u.
    - exists None. split; [done|]. done. }
  destruct Hci as (emp & -> & Hemp).
  destruct checked_in_by as [uid|].
  - destruct (Hemp uid eq_refl) as (u & -> & <- & [x Hx]). rewrite Hx. simpl.
    rewrite !release_seat_tickets. simpl. rewrite !lookup_insert_eq.
    split; [done|]. split.
    { eexists. split; [done|]. simpl. by rewrite Hexp. }
    split; [done|]. split; [done|]. split.
    { eexists. split; [done|]. simpl. by rewrite Hexp. }
    split; [done|]. unfold TicketSerializer.release_seat. simpl.
    by destruct (trips db !! ticket_trip t).
  - simpl. rewrite !release_seat_tickets. simpl. rewrite !lookup_insert_eq.
    split; [done|]. split.
    { eexists. split; [done|]. simpl. by rewrite Hexp. }
    split; [done|]. split; [done|]. split.
    { eexists. split; [done|]. simpl. by rewrite Hexp. }
    split; [done|]. unfold TicketSerializer.release_seat. simpl.
    by destruct (trips db !! ticket_trip t).
Qed.

Lemma C10_expiry_does_not_block_witness :
  TicketViewSet.expired 100 Sample.staff Sample.db !! 5%nat = Some Sample.ticket
  /\ status_code (TicketViewSet.check_in 100 Sample.staff 5 None Sample.db).2 = HTTP_200_OK
  /\ status_code (TicketViewSet.cancel 100 Sample.staff 5 (Some "changed plans") Sample.db).2
     = HTTP_200_OK.
Proof.
  pose proof (C10_expiry_does_not_block 100 Sample.staff 5 None "changed plans" Sample.db
                Sample.ticket 50 (Some 1000)) as H.
  destruct H as (Hexpired & Hci & _ & _ & Hca & _).
  - vm_compute. reflexivity.
  - reflexivity.
  - reflexivity.
  - lia.
  - discriminate.
  - intros uid Huid. discriminate Huid.
  - split; [exact Hexpired|]. split; [exact Hci | exact Hca].
Defined.

(** * Further properties *)

(** Membership of a constructor in a literal list. *)
Ltac in_list := solve [repeat constructor].

(** ** The trip life cycle *)

(** The four status-changing actions of [TripViewSet]. *)
Inductive trip_action :=
| StartTrip
| CompleteTrip
| CancelTrip (reason : option string)
| DelayTrip (reason : option string).

Definition run_trip_action (a : trip_action) (now : Z) (user : User) (pk : nat) (st : Store)
  : Store * Response :=
  match a with
  | StartTrip => TripViewSetActions.start_trip now user pk st
  | CompleteTrip => TripViewSetActions.complete_trip now user pk st
  | CancelTrip reason => TripViewSetActions.cancel_trip user pk reason st
  | DelayTrip reason => TripViewSetActions.delay_trip now user pk reason st
  end.

(** The status changes the four actions can make. *)
Definition trip_arrows : list (TripStatus.t * TripStatus.t) :=
  [(TripStatus.SCHEDULED, TripStatus.ACTIVE);
   (TripStatus.ACTIVE, TripStatus.COMPLETED);
   (TripStatus.SCHEDULED, TripStatus.CANCELLED);
   (TripStatus.DELAYED, TripStatus.CANCELLED);
   (TripStatus.SCHEDULED, TripStatus.DELAYED);
   (TripStatus.ACTIVE, TripStatus.DELAYED)].

(** Everything about a trip that the actions leave alone. *)
Definition same_but_status_and_times (t t' : Trip) : Prop :=
  trip_company t' = trip_company t
  /\ trip_driver t' = trip_driver t
  /\ trip_capacity t' = trip_capacity t
  /\ trip_booked_seats t' = trip_booked_seats t.

Lemma trip_get_object_error user pk db resp :
  TripViewSet.get_object user pk db = inr resp -> status_code resp <> HTTP_200_OK.
Proof.
  unfold TripViewSet.get_object. repeat case_match; intros [= <-]; done.
Qed.

(** What one action does: nothing at all together with an error answer, or a
    200 answer, a new status for the trip along one of the arrows, and at
    most one event appended for that trip. *)
Lemma trip_action_effect a now user pk st :
  let run := run_trip_action a now user pk st in
  (status_code run.2 <> HTTP_200_OK /\ run.1 = st)
  \/ (status_code run.2 = HTTP_200_OK
      /\ exists trip trip' new_events,
           TripViewSet.get_object user pk (core st) = inl trip
           /\ trips (core run.1) = <[pk := trip']> (trips (core st))
           /\ (trip_status trip, trip_status trip') ∈ trip_arrows
           /\ same_but_status_and_times trip trip'
           /\ trip_events (core run.1) = (trip_events (core st) ++ new_events)%list
           /\ (length new_events <= 1)%nat
           /\ Forall (fun e => event_trip e = pk
                               /\ event_recorded_by e = Some (trip_driver trip)) new_events
           /\ tickets (core run.1) = tickets (core st)
           /\ bookings (core run.1) = bookings (core st)
           /\ discounts (core run.1) = discounts (core st)
           /\ users (core run.1) = users (core st)
           /\ receipts run.1 = receipts st).
Proof.
  destruct a as [| |reason|reason]; simpl.
  - unfold TripViewSetActions.start_trip, on_core, TripViewSet.start_trip.
    destruct (TripViewSet.get_object user pk (core st)) as [trip|resp] eqn:Hget.
    2:{ left. split; [by eapply trip_get_object_error|by destruct st]. }
    case_bool_decide as Hst; [left; split; [done|by destruct st]|].
    right. split; [done|]. eexists trip, _, [_]. split; [done|]. simpl.
    split; [done|]. split; [rewrite Hst; in_list|]. split; [done|].
    split; [done|]. split; [done|]. split; [by repeat constructor|]. done.
  - unfold TripViewSetActions.complete_trip, on_core, TripViewSet.complete_trip.
    destruct (TripViewSet.get_object user pk (core st)) as [trip|resp] eqn:Hget.
    2:{ left. split; [by eapply trip_get_object_error|by destruct st]. }
    case_bool_decide as Hst; [left; split; [done|by destruct st]|].
    right. split; [done|]. eexists trip, _, [_]. split; [done|]. simpl.
    split; [done|]. split; [rewrite Hst; in_list|]. split; [done|].
    split; [done|]. split; [done|]. split; [by repeat constructor|]. done.
  - unfold TripViewSetActions.cancel_trip.
    destruct (TripViewSet.get_object user pk (core st)) as [trip|resp] eqn:Hget.
    2:{ left. split; [by eapply trip_get_object_error|done]. }
    case_bool_decide as Hst; [by left|].
    case_bool_decide; [by left|].
    right. split; [done|]. eexists trip, _, []. split; [done|]. simpl.
    split; [done|]. split.
    { set_unfold in Hst. destruct Hst as [->|[->|[]]]; in_list. }
    split; [done|]. split; [by rewrite app_nil_r|]. split; [lia|]. done.
  - unfold TripViewSetActions.delay_trip.
    destruct (TripViewSet.get_object user pk (core st)) as [trip|resp] eqn:Hget.
    2:{ left. split; [by eapply trip_get_object_error|done]. }
    case_bool_decide as Hst; [by left|].
    case_bool_decide; [by left|].
    right. split; [done|]. eexists trip, _, [_]. split; [done|]. simpl.
    split; [done|]. split.
    { set_unfold in Hst. destruct Hst as [->|[->|[]]]; in_list. }
    split; [done|]. split; [done|]. split; [done|]. split; [by repeat constructor|]. done.
Qed.

(** X1. cancel_trip, for a trip within the caller's reach: it succeeds exactly
    when the status is Scheduled or Delayed and a non-empty reason is given;
    the status is tested first, so a trip in another status is refused with
    the "cannot be cancelled" answer whether or not a reason was sent.  On
    success the trip is stored as Cancelled with the reason, its delay reason
    kept.  In no case is a ticket touched or an event recorded: cancelling a
    trip does not cascade to its tickets. *)
Theorem X1_cancel_trip
    (user : User) (pk : nat) (reason : option string) (st : Store) (trip : Trip) :
  TripViewSet.get_object user pk (core st) = inl trip ->
  let run := TripViewSetActions.cancel_trip user pk reason st in
  (status_code run.2 = HTTP_200_OK <->
   trip_status trip ∈ [TripStatus.SCHEDULED; TripStatus.DELAYED] /\ default "" reason <> "")
  /\ (trip_status trip ∉ [TripStatus.SCHEDULED; TripStatus.DELAYED] ->
      run = (st, TripViewSetActions.cannot_cancel (trip_status trip)))
  /\ (status_code run.2 = HTTP_200_OK ->
      trips (core run.1)
      = <[pk := trip_with_status TripStatus.CANCELLED trip]> (trips (core st))
      /\ trip_cancellation_reason (notes_of pk run.1) = reason
      /\ trip_delay_reason (notes_of pk run.1) = trip_delay_reason (notes_of pk st)
      /\ exists trip',
           trips (core run.1) !! pk = Some trip'
           /\ trip_status trip' = TripStatus.CANCELLED
           /\ same_but_status_and_times trip trip'
           /\ trip_actual_departure trip' = trip_actual_departure trip
           /\ trip_actual_arrival trip' = trip_actual_arrival trip)
  /\ (status_code run.2 <> HTTP_200_OK -> run.1 = st)
  /\ tickets (core run.1) = tickets (core st)
  /\ trip_events (core run.1) = trip_events (core st).
Proof.
  intros Hget run. subst run. unfold TripViewSetActions.cancel_trip. rewrite Hget.
  case_bool_decide as Hst.
  - simpl. repeat split; try done. by intros [? _].
  - case_bool_decide as Hr; simpl.
    + repeat split; try done. by intros [_ ?].
    + split; [done|]. split; [done|]. split; [|done]. intros _.
      split; [done|].
      split; [unfold notes_of; simpl; rewrite lookup_insert_eq; simpl; by destruct reason|].
      split; [unfold notes_of; simpl; by rewrite lookup_insert_eq|].
      eexists. split; [apply lookup_insert_eq|]. split; [done|]. repeat split.
Qed.

Module SampleStore.
Definition st : Store := mkStore Sample.db ∅ ∅.
Definition manager : User := mkUser 2 UserRole.MANAGER (Some 7%nat) None.
Definition customer : User := mkUser 9 UserRole.CUSTOMER (Some 7%nat) None.
Definition outsider : User := mkUser 4 UserRole.STAFF (Some 8%nat) None.
End SampleStore.

Lemma X1_cancel_trip_witness :
  let run := TripViewSetActions.cancel_trip Sample.staff 1 (Some "flood") SampleStore.st in
  tickets (core run.1) = tickets (core SampleStore.st)
  /\ trip_events (core run.1) = trip_events (core SampleStore.st).
Proof.
  intros run.
  pose proof (X1_cancel_trip Sample.staff 1 (Some "flood") SampleStore.st Sample.trip) as H.
  destruct H as (_ & _ & _ & _ & Ht & He).
  - vm_compute. reflexivity.
  - split; [exact Ht | exact He].
Defined.

(** X2. delay_trip, for a trip within the caller's reach: it succeeds exactly
    when the status is Scheduled or Active and a non-empty reason is given.
    On success the trip is stored as Delayed with the reason, and exactly one
    Delay event is appended, stamped now, described by the reason and recorded
    by the trip's driver.  Otherwise nothing changes. *)
Theorem X2_delay_trip
    (now : Z) (user : User) (pk : nat) (reason : option string) (st : Store) (trip : Trip) :
  TripViewSet.get_object user pk (core st) = inl trip ->
  let run := TripViewSetActions.delay_trip now user pk reason st in
  (status_code run.2 = HTTP_200_OK <->
   trip_status trip ∈ [TripStatus.SCHEDULED; TripStatus.ACTIVE] /\ default "" reason <> "")
  /\ (status_code run.2 = HTTP_200_OK ->
      trips (core run.1)
      = <[pk := trip_with_status TripStatus.DELAYED trip]> (trips (core st))
      /\ trip_delay_reason (notes_of pk run.1) = reason
      /\ trip_events (core run.1)
         = (trip_events (core st)
            ++ [mkTripEvent (trip_company trip) pk "Delay" now (default "" reason)
                            (Some (trip_driver trip))])%list
      /\ exists trip',
           trips (core run.1) !! pk = Some trip'
           /\ trip_status trip' = TripStatus.DELAYED
           /\ same_but_status_and_times trip trip'
           /\ trip_actual_departure trip' = trip_actual_departure trip
           /\ trip_actual_arrival trip' = trip_actual_arrival trip)
  /\ (status_code run.2 <> HTTP_200_OK -> run.1 = st)
  /\ tickets (core run.1) = tickets (core st).
Proof.
  intros Hget run. subst run. unfold TripViewSetActions.delay_trip. rewrite Hget.
  case_bool_decide as Hst.
  - simpl. repeat split; try done. by intros [? _].
  - case_bool_decide as Hr; simpl.
    + repeat split; try done. by intros [_ ?].
    + split; [done|]. split; [|done]. intros _.
      split; [done|].
      split; [unfold notes_of; simpl; rewrite lookup_insert_eq; simpl; by destruct reason|].
      split; [done|].
      eexists. split; [apply lookup_insert_eq|]. split; [done|]. repeat split.
Qed.

Lemma X2_delay_trip_witness :
  let run := TripViewSetActions.delay_trip 100 Sample.staff 1 (Some "traffic") SampleStore.st in
  status_code run.2 = HTTP_200_OK /\ length (trip_events (core run.1)) = 1%nat.
Proof.
  intros run.
  pose proof (X2_delay_trip 100 Sample.staff 1 (Some "traffic") SampleStore.st Sample.trip) as H.
  destruct H as (Hiff & Hok & _).
  - vm_compute. reflexivity.
  - assert (Hcode : status_code run.2 = HTTP_200_OK).
    { apply Hiff. split; [constructor|discriminate]. }
    split; [exact Hcode|].
    destruct (Hok Hcode) as (_ & _ & He & _). unfold run. rewrite He. reflexivity.
Defined.

(** A run of requests against the trip actions, in order. *)
Record trip_request := mkTripRequest {
  req_action : trip_action;
  req_now : Z;
  req_user : User;
  req_pk : nat
}.

Definition run_trip_request (r : trip_request) (st : Store) : Store :=
  (run_trip_action (req_action r) (req_now r) (req_user r) (req_pk r) st).1.

Definition run_trip_requests (requests : list trip_request) (st : Store) : Store :=
  foldl (fun st r => run_trip_request r st) st requests.

Lemma trip_request_step r st pk trip :
  trips (core st) !! pk = Some trip ->
  exists trip',
    trips (core (run_trip_request r st)) !! pk = Some trip'
    /\ same_but_status_and_times trip trip'
    /\ (trip_status trip' = trip_status trip
        \/ (trip_status trip, trip_status trip') ∈ trip_arrows).
Proof.
  intros Hpk. unfold run_trip_request.
  destruct (trip_action_effect (req_action r) (req_now r) (req_user r) (req_pk r) st)
    as [[_ ->]|(_ & trip0 & trip1 & evs & Hget & Htrips & Harrow & Hsame & _)].
  - exists trip. split; [done|]. split; [done|]. by left.
  - rewrite Htrips. destruct (decide (req_pk r = pk)) as [<-|Hne].
    + apply trip_get_object_lookup in Hget. rewrite Hpk in Hget. injection Hget as <-.
      exists trip1. rewrite lookup_insert_eq. split; [done|]. split; [done|]. by right.
    + exists trip. rewrite lookup_insert_ne by done. split; [done|]. split; [done|]. by left.
Qed.

(** X3. Whatever requests follow, by whatever users: a Completed trip stays
    Completed, a Cancelled trip stays Cancelled, and a Delayed trip is only
    ever Delayed or Cancelled, so it is never started or completed; and no
    request changes a trip's company, driver, capacity or booked_seats. *)
Theorem X3_trip_dead_ends
    (requests : list trip_request) (st : Store) (pk : nat) (trip : Trip) :
  trips (core st) !! pk = Some trip ->
  exists trip',
    trips (core (run_trip_requests requests st)) !! pk = Some trip'
    /\ same_but_status_and_times trip trip'
    /\ (trip_status trip = TripStatus.COMPLETED -> trip_status trip' = TripStatus.COMPLETED)
    /\ (trip_status trip = TripStatus.CANCELLED -> trip_status trip' = TripStatus.CANCELLED)
    /\ (trip_status trip = TripStatus.DELAYED ->
        trip_status trip' ∈ [TripStatus.DELAYED; TripStatus.CANCELLED]).
Proof.
  revert st trip. induction requests as [|r requests IH]; intros st trip Hpk.
  - exists trip. simpl. repeat split; try done. intros ->. constructor.
  - destruct (trip_request_step r st pk trip Hpk) as (trip1 & Hpk1 & Hsame1 & Hstep).
    destruct (IH _ _ Hpk1) as (trip' & Hpk' & Hsame' & Hc & Hx & Hd).
    exists trip'. split; [done|]. split.
    { destruct Hsame1 as (? & ? & ? & ?), Hsame' as (? & ? & ? & ?).
      repeat split; congruence. }
    assert (Harrows : forall s s', (s, s') ∈ trip_arrows ->
              s <> TripStatus.COMPLETED /\ s <> TripStatus.CANCELLED
              /\ (s = TripStatus.DELAYED -> s' = TripStatus.CANCELLED)).
    { intros s s' Hin. unfold trip_arrows in Hin.
      repeat (apply elem_of_cons in Hin as [[= -> ->]|Hin]; [done|]).
      by apply elem_of_nil in Hin. }
    destruct Hstep as [Heq|Harrow].
    + rewrite <- Heq. done.
    + destruct (Harrows _ _ Harrow) as (Hnc & Hnx & Hdel).
      split; [done|]. split; [done|].
      intros Hst. specialize (Hdel Hst). rewrite (Hx Hdel). do 2 constructor.
Qed.

Lemma X3_trip_dead_ends_witness :
  let delayed := (TripViewSetActions.delay_trip 100 Sample.staff 1 (Some "traffic")
                    SampleStore.st).1 in
  let requests :=
    [mkTripRequest StartTrip 110 Sample.staff 1;
     mkTripRequest CompleteTrip 120 SampleStore.manager 1] in
  exists trip',
    trips (core (run_trip_requests requests delayed)) !! 1%nat = Some trip'
    /\ trip_status trip' ∈ [TripStatus.DELAYED; TripStatus.CANCELLED].
Proof.
  intros delayed requests.
  destruct (X3_trip_dead_ends requests delayed 1
              (trip_with_status TripStatus.DELAYED Sample.trip))
    as (trip' & Hpk & _ & _ & _ & Hd).
  - vm_compute. reflexivity.
  - exists trip'. split; [exact Hpk|]. apply Hd. reflexivity.
Defined.

(** X4. The event log is append-only under the trip actions: after any run
    of requests the old log is a prefix of the new one, which has grown by at
    most one event per request; and tickets, bookings, discounts and receipts
    are what they were. *)
Theorem X4_trip_actions_frame (requests : list trip_request) (st : Store) :
  let st' := run_trip_requests requests st in
  (exists new_events,
     trip_events (core st') = (trip_events (core st) ++ new_events)%list
     /\ (length new_events <= length requests)%nat)
  /\ tickets (core st') = tickets (core st)
  /\ bookings (core st') = bookings (core st)
  /\ discounts (core st') = discounts (core st)
  /\ receipts st' = receipts st.
Proof.
  revert st. induction requests as [|r requests IH]; intros st; simpl.
  - split; [|done]. exists []. by rewrite app_nil_r.
  - destruct (IH (run_trip_request r st)) as ((evs & Hevs & Hlen) & Ht & Hb & Hd & Hr).
    unfold run_trip_requests in *. simpl. rewrite Hevs, Ht, Hb, Hd, Hr.
    unfold run_trip_request.
    destruct (trip_action_effect (req_action r) (req_now r) (req_user r) (req_pk r) st)
      as [[_ ->]|(_ & trip0 & trip1 & evs1 & _ & _ & _ & _ & He1 & Hl1 & _ & Ht1 & Hb1 & Hd1 & _ & Hr1)].
    + split; [|done]. exists evs. split; [done|lia].
    + rewrite He1, Ht1, Hb1, Hd1, Hr1. split; [|done].
      exists (evs1 ++ evs)%list. rewrite app_assoc. split; [done|].
      rewrite length_app. lia.
Qed.

(** X5. Access to the trip actions: a user whose role is not Admin, Manager
    or Staff is answered 403; a permitted user naming a trip that does not
    exist, or a trip of another company, is answered 404, as is a user
    without a company; in each case nothing changes. *)
Theorem X5_trip_actions_access
    (a : trip_action) (now : Z) (user : User) (pk : nat) (st : Store) :
  (user_role user ∉ [UserRole.ADMIN; UserRole.MANAGER; UserRole.STAFF] ->
   run_trip_action a now user pk st = (st, TicketViewSet.permission_denied))
  /\ (user_role user ∈ [UserRole.ADMIN; UserRole.MANAGER; UserRole.STAFF] ->
      (forall trip, trips (core st) !! pk = Some trip ->
                    user_company user <> Some (trip_company trip)) ->
      run_trip_action a now user pk st = (st, TicketViewSet.not_found)).
Proof.
  assert (Hdenied : user_role user ∉ [UserRole.ADMIN; UserRole.MANAGER; UserRole.STAFF] ->
            TripViewSet.get_object user pk (core st) = inr TicketViewSet.permission_denied).
  { intros Hrole. unfold TripViewSet.get_object, TripViewSet.has_permission.
    by rewrite bool_decide_eq_false_2. }
  assert (Hmissing : user_role user ∈ [UserRole.ADMIN; UserRole.MANAGER; UserRole.STAFF] ->
            (forall trip, trips (core st) !! pk = Some trip ->
                          user_company user <> Some (trip_company trip)) ->
            TripViewSet.get_object user pk (core st) = inr TicketViewSet.not_found).
  { intros Hrole Hfar. unfold TripViewSet.get_object, TripViewSet.has_permission.
    rewrite bool_decide_eq_true_2 by done. simpl.
    destruct (trips (core st) !! pk) as [trip|]; [|done].
    specialize (Hfar trip eq_refl). unfold TripViewSet.in_queryset.
    destruct (user_company user) as [c|]; [|done].
    rewrite bool_decide_eq_false_2; [done|]. congruence. }
  split.
  - intros Hrole. specialize (Hdenied Hrole).
    destruct a; simpl;
      unfold TripViewSetActions.start_trip, TripViewSetActions.complete_trip, on_core,
        TripViewSet.start_trip, TripViewSet.complete_trip,
        TripViewSetActions.cancel_trip, TripViewSetActions.delay_trip;
      rewrite Hdenied; by destruct st.
  - intros Hrole Hfar. specialize (Hmissing Hrole Hfar).
    destruct a; simpl;
      unfold TripViewSetActions.start_trip, TripViewSetActions.complete_trip, on_core,
        TripViewSet.start_trip, TripViewSet.complete_trip,
        TripViewSetActions.cancel_trip, TripViewSetActions.delay_trip;
      rewrite Hmissing; by destruct st.
Qed.

(** ** The ticket life cycle *)

(** The status changes the three ticket actions can make. *)
Definition ticket_arrows : list (TicketStatus.t * TicketStatus.t) :=
  [(TicketStatus.RESERVED, TicketStatus.CHECKED_IN);
   (TicketStatus.CONFIRMED, TicketStatus.CHECKED_IN);
   (TicketStatus.RESERVED, TicketStatus.CANCELLED);
   (TicketStatus.CONFIRMED, TicketStatus.CANCELLED);
   (TicketStatus.CANCELLED, TicketStatus.REFUNDED)].

(** What identifies a ticket and is never rewritten by the actions. *)
Definition same_identity (t t' : Ticket) : Prop :=
  ticket_company t' = ticket_company t
  /\ ticket_trip t' = ticket_trip t
  /\ ticket_customer t' = ticket_customer t
  /\ ticket_booking_reference t' = ticket_booking_reference t
  /\ ticket_expires_at t' = ticket_expires_at t.

Lemma ticket_get_object_error user pk db resp :
  TicketViewSet.get_object user pk db = inr resp ->
  status_code resp <> HTTP_200_OK.
Proof.
  unfold TicketViewSet.get_object. repeat case_match; intros [= <-]; done.
Qed.

(** The 403 branch of [get_object] is never taken: what the queryset keeps
    passes the object permission. *)
Lemma ticket_get_object_not_found user pk db resp :
  TicketViewSet.get_object user pk db = inr resp -> resp = TicketViewSet.not_found.
Proof.
  unfold TicketViewSet.get_object, TicketViewSet.in_queryset,
    TicketViewSet.has_object_permission.
  destruct (tickets db !! pk) as [t|]; [|congruence].
  destruct (user_company user) as [c|]; [|congruence].
  case_bool_decide as Hc; simpl; [|congruence].
  rewrite (bool_decide_eq_true_2 (Some (ticket_company t) = Some c)) by congruence.
  repeat case_match; congruence.
Qed.

(** What one ticket action does: nothing together with an error answer, or
    a 200 answer, a new status for the ticket along one of the arrows, and a
    seat released on the ticket's trip exactly when the ticket is cancelled. *)
Lemma ticket_action_effect a now user pk db :
  let run := run_action a now user pk db in
  (status_code run.2 <> HTTP_200_OK /\ run.1 = db)
  \/ (status_code run.2 = HTTP_200_OK
      /\ exists t t',
           TicketViewSet.get_object user pk db = inl t
           /\ tickets run.1 = <[pk := t']> (tickets db)
           /\ (ticket_status t, ticket_status t') ∈ ticket_arrows
           /\ same_identity t t'
           /\ trips run.1
              = (if bool_decide (ticket_status t' = TicketStatus.CANCELLED)
                 then trips (TicketSerializer.release_seat (ticket_trip t) db)
                 else trips db)
           /\ trip_events run.1 = trip_events db
           /\ bookings run.1 = bookings db
           /\ discounts run.1 = discounts db
           /\ users run.1 = users db).
Proof.
  destruct a as [by_|reason|amount reference]; simpl.
  - unfold TicketViewSet.check_in.
    destruct (TicketViewSet.get_object user pk db) as [t|resp] eqn:Hget.
    2:{ left. split; [by eapply ticket_get_object_error|done]. }
    destruct (TicketCheckInSerializer.is_valid user by_ db) as [u|errs]; [|by left].
    case_bool_decide as Hst; [by left|].
    assert ((ticket_status t, TicketStatus.CHECKED_IN) ∈ ticket_arrows) as Harrow.
    { unfold ticket_arrows. set_unfold in Hst. destruct Hst as [->|[->|[]]]; in_list. }
    destruct u as [u|]; [destruct (user_employee u); [|by left]|];
      right; (split; [done|]); eexists t, _; simpl;
      (split; [done|]); (split; [done|]); (split; [exact Harrow|]); done.
  - unfold TicketViewSet.cancel.
    destruct (TicketViewSet.get_object user pk db) as [t|resp] eqn:Hget.
    2:{ left. split; [by eapply ticket_get_object_error|done]. }
    case_bool_decide; [by left|].
    case_bool_decide as Hst; [by left|].
    right. split; [done|]. eexists t, _. simpl. rewrite release_seat_tickets. simpl.
    split; [done|]. split; [done|]. split.
    { unfold ticket_arrows. set_unfold in Hst. destruct Hst as [->|[->|[]]]; in_list. }
    split; [done|]. unfold TicketSerializer.release_seat. simpl.
    destruct (trips db !! ticket_trip t); done.
  - unfold TicketViewSet.refund.
    destruct (TicketViewSet.get_object user pk db) as [t|resp] eqn:Hget.
    2:{ left. split; [by eapply ticket_get_object_error|done]. }
    case_bool_decide as Hst; [by left|].
    case_bool_decide; [by left|].
    right. split; [done|]. eexists t, _. simpl.
    split; [done|]. split; [done|]. split; [rewrite Hst; unfold ticket_arrows; in_list|].
    done.
Qed.

(** X6. Access to the ticket actions: a ticket that does not exist, belongs
    to another company, or, for a customer, is not the customer's own, is
    answered 404 by check_in, cancel and refund alike, and nothing changes.
    No request to these actions is ever answered 403. *)
Theorem X6_ticket_actions_access
    (a : action) (now : Z) (user : User) (pk : nat) (db : DB) :
  ((forall t, tickets db !! pk = Some t ->
      user_company user <> Some (ticket_company t)
      \/ (user_role user = UserRole.CUSTOMER /\ ticket_customer t <> Some (user_id user))) ->
   run_action a now user pk db = (db, TicketViewSet.not_found))
  /\ status_code (run_action a now user pk db).2 <> HTTP_403_FORBIDDEN.
Proof.
  split.
  - intros Hfar.
    assert (Hget : TicketViewSet.get_object user pk db = inr TicketViewSet.not_found).
    { unfold TicketViewSet.get_object, TicketViewSet.in_queryset.
      destruct (tickets db !! pk) as [t|]; [|done].
      destruct (user_company user) as [c|] eqn:Hc; [|done].
      destruct (Hfar t eq_refl) as [Hco|[Hrole Hcust]].
      + rewrite bool_decide_eq_false_2; [done|]. congruence.
      + rewrite Hrole. rewrite (bool_decide_eq_true_2 (_ = UserRole.CUSTOMER)) by done.
        rewrite (bool_decide_eq_false_2 (ticket_customer t = _)) by done.
        by rewrite andb_false_r. }
    destruct a; simpl;
      unfold TicketViewSet.check_in, TicketViewSet.cancel, TicketViewSet.refund;
      by rewrite Hget.
  - destruct a as [by_|reason|amount reference]; simpl;
      unfold TicketViewSet.check_in, TicketViewSet.cancel, TicketViewSet.refund;
      destruct (TicketViewSet.get_object user pk db) as [t|resp] eqn:Hget;
      try (apply ticket_get_object_not_found in Hget as ->; done);
      repeat case_match; done.
Qed.

(** A run of requests against the ticket actions, in order. *)
Record ticket_request := mkTicketRequest {
  treq_action : action;
  treq_now : Z;
  treq_user : User;
  treq_pk : nat
}.

Definition run_ticket_request (r : ticket_request) (db : DB) : DB :=
  (run_action (treq_action r) (treq_now r) (treq_user r) (treq_pk r) db).1.

Definition run_ticket_requests (requests : list ticket_request) (db : DB) : DB :=
  foldl (fun db r => run_ticket_request r db) db requests.

Lemma ticket_request_step r db pk t :
  tickets db !! pk = Some t ->
  exists t',
    tickets (run_ticket_request r db) !! pk = Some t'
    /\ same_identity t t'
    /\ (ticket_status t' = ticket_status t
        \/ (ticket_status t, ticket_status t') ∈ ticket_arrows).
Proof.
  intros Hpk. unfold run_ticket_request.
  destruct (ticket_action_effect (treq_action r) (treq_now r) (treq_user r) (treq_pk r) db)
    as [[_ ->]|(_ & t0 & t1 & Hget & Htickets & Harrow & Hsame & _)].
  - exists t. split; [done|]. split; [done|]. by left.
  - rewrite Htickets. destruct (decide (treq_pk r = pk)) as [<-|Hne].
    + apply get_object_lookup in Hget. rewrite Hpk in Hget. injection Hget as <-.
      exists t1. rewrite lookup_insert_eq. split; [done|]. split; [done|]. by right.
    + exists t. rewrite lookup_insert_ne by done. split; [done|]. split; [done|]. by left.
Qed.

(** X7. Whatever check_in, cancel and refund requests follow, by whatever
    users: a ticket keeps its company, trip, customer, booking reference and
    expires_at; a CheckedIn, Used, Refunded or Expired ticket keeps its
    status; a Cancelled ticket is only ever Cancelled or Refunded; and a
    ticket that ends up Reserved, Confirmed, Used or Expired had that status
    from the start, since the actions never produce these. *)
Theorem X7_ticket_dead_ends
    (requests : list ticket_request) (db : DB) (pk : nat) (t : Ticket) :
  tickets db !! pk = Some t ->
  exists t',
    tickets (run_ticket_requests requests db) !! pk = Some t'
    /\ same_identity t t'
    /\ (ticket_status t ∈ [TicketStatus.CHECKED_IN; TicketStatus.USED;
                           TicketStatus.REFUNDED; TicketStatus.EXPIRED] ->
        ticket_status t' = ticket_status t)
    /\ (ticket_status t = TicketStatus.CANCELLED ->
        ticket_status t' ∈ [TicketStatus.CANCELLED; TicketStatus.REFUNDED])
    /\ (ticket_status t' ∈ [TicketStatus.RESERVED; TicketStatus.CONFIRMED;
                            TicketStatus.USED; TicketStatus.EXPIRED] ->
        ticket_status t' = ticket_status t).
Proof.
  assert (Harrows : forall s s', (s, s') ∈ ticket_arrows ->
            s ∈ [TicketStatus.RESERVED; TicketStatus.CONFIRMED; TicketStatus.CANCELLED]
            /\ s' ∈ [TicketStatus.CHECKED_IN; TicketStatus.CANCELLED; TicketStatus.REFUNDED]
            /\ (s = TicketStatus.CANCELLED -> s' = TicketStatus.REFUNDED)).
  { intros s s' Hin. unfold ticket_arrows in Hin.
    repeat (apply elem_of_cons in Hin as [[= -> ->]|Hin];
            [split; [in_list|split; [in_list|done]]|]).
    by apply elem_of_nil in Hin. }
  revert db t. induction requests as [|r requests IH]; intros db t Hpk.
  - exists t. simpl. repeat split; try done. intros ->. constructor.
  - destruct (ticket_request_step r db pk t Hpk) as (t1 & Hpk1 & Hsame1 & Hstep).
    destruct (IH _ _ Hpk1) as (t' & Hpk' & Hsame' & Hfinal & Hcancelled & Hnever).
    exists t'. split; [done|]. split.
    { destruct Hsame1 as (? & ? & ? & ? & ?), Hsame' as (? & ? & ? & ? & ?).
      repeat split; congruence. }
    destruct Hstep as [Heq|Harrow]; [by rewrite <- Heq|].
    destruct (Harrows _ _ Harrow) as (Hsrc & Htgt & Hc).
    split; [|split].
    + intros Hin. exfalso. set_unfold in Hin. set_unfold in Hsrc.
      destruct Hin as [Hin|[Hin|[Hin|[Hin|[]]]]]; rewrite Hin in Hsrc;
        destruct Hsrc as [?|[?|[?|[]]]]; done.
    + intros Hst. specialize (Hc Hst).
      rewrite Hfinal by (rewrite Hc; in_list). rewrite Hc. in_list.
    + intros Hin. exfalso.
      assert (ticket_status t' ∈ [TicketStatus.CHECKED_IN; TicketStatus.CANCELLED;
                                  TicketStatus.REFUNDED]) as Hreach.
      { set_unfold in Htgt. destruct Htgt as [H1|[H1|[H1|[]]]].
        - rewrite Hfinal by (rewrite H1; in_list). rewrite H1. in_list.
        - by apply list_elem_of_further, Hcancelled.
        - rewrite Hfinal by (rewrite H1; in_list). rewrite H1. in_list. }
      set_unfold in Hin. set_unfold in Hreach.
      destruct Hin as [Hin|[Hin|[Hin|[Hin|[]]]]]; rewrite Hin in Hreach;
        destruct Hreach as [?|[?|[?|[]]]]; done.
Qed.

Lemma X7_ticket_dead_ends_witness :
  let refunded := save_ticket 5 (ticket_with_status TicketStatus.REFUNDED Sample.ticket)
                    Sample.db in
  let requests :=
    [mkTicketRequest (CheckIn None) 110 Sample.staff 5;
     mkTicketRequest (Cancel (Some "again")) 120 SampleStore.manager 5] in
  exists t',
    tickets (run_ticket_requests requests refunded) !! 5%nat = Some t'
    /\ ticket_status t' = TicketStatus.REFUNDED.
Proof.
  intros refunded requests.
  destruct (X7_ticket_dead_ends requests refunded 5
              (ticket_with_status TicketStatus.REFUNDED Sample.ticket))
    as (t' & Hpk & _ & Hfinal & _).
  - vm_compute. reflexivity.
  - exists t'. split; [exact Hpk|]. apply Hfinal. do 2 constructor. constructor.
Defined.

(** X8. The expired listing and the actions: once check_in, cancel or refund
    has succeeded on a ticket, no user's expired listing shows that ticket
    any more, at any later time, whatever its expires_at. *)
Theorem X8_acted_ticket_not_expired
    (a : action) (now : Z) (user : User) (pk : nat) (db : DB) (now' : Z) (user' : User) :
  status_code (run_action a now user pk db).2 = HTTP_200_OK ->
  TicketViewSet.expired now' user' (run_action a now user pk db).1 !! pk = None.
Proof.
  intros Hok.
  destruct (ticket_action_effect a now user pk db)
    as [[Hne _]|(_ & t & t' & _ & Htickets & Harrow & _)]; [done|].
  unfold TicketViewSet.expired. rewrite Htickets.
  apply map_lookup_filter_None_2. right. intros t0. rewrite lookup_insert_eq.
  intros [= <-]. simpl. unfold TicketViewSet.is_expired.
  unfold ticket_arrows in Harrow.
  repeat (apply elem_of_cons in Harrow as [[= _ ->]|Harrow];
          [rewrite andb_false_r || (simpl; rewrite andb_false_r); done|]).
  by apply elem_of_nil in Harrow.
Qed.

Lemma X8_acted_ticket_not_expired_witness :
  TicketViewSet.expired 100 Sample.staff Sample.db !! 5%nat = Some Sample.ticket
  /\ TicketViewSet.expired 200 Sample.staff
       (run_action (CheckIn None) 100 Sample.staff 5 Sample.db).1 !! 5%nat = None.
Proof.
  split; [vm_compute; reflexivity|].
  apply (X8_acted_ticket_not_expired (CheckIn None) 100 Sample.staff 5 Sample.db 200
           Sample.staff).
  vm_compute. reflexivity.
Defined.

(** ** Issuing and cancelling *)

Lemma trip_with_booked_seats_back (trip : Trip) :
  0 <= trip_booked_seats trip ->
  trip_with_booked_seats (Z.max 0 (trip_booked_seats trip + 1 - 1))
    (trip_with_booked_seats (trip_booked_seats trip + 1) trip) = trip.
Proof.
  intros Hb. destruct trip as [c d s cap b dep arr]. unfold trip_with_booked_seats. simpl in *.
  f_equal. lia.
Qed.

(** X9. Issue then cancel is a round trip on the seat count.  For a trip
    read from the store that passes [validate_trip], has a free seat and is
    neither Cancelled nor Completed, and a request naming no status, or
    Reserved or Confirmed: the ticket is issued, the trip then counts one
    more booked seat, and cancelling that ticket with a reason succeeds and
    leaves every trip exactly as before the issue. *)
Theorem X9_issue_then_cancel
    (fuel : nat) (rng : nat -> nat) (now now' : Z) (user : User)
    (vd : TicketSerializer.CreateData) (db : DB) (j : nat) (reason : string) :
  (j < fuel)%nat ->
  TicketSerializer.reference_exists db (candidate rng j) = false ->
  let trip_pk := (TicketSerializer.vd_trip vd).1 in
  let trip := (TicketSerializer.vd_trip vd).2 in
  trips db !! trip_pk = Some trip ->
  TicketSerializerFields.validate_trip user (TicketSerializer.vd_trip vd)
  = Ok (TicketSerializer.vd_trip vd) ->
  0 <= trip_booked_seats trip < trip_capacity trip ->
  trip_status trip ∉ [TripStatus.CANCELLED; TripStatus.COMPLETED] ->
  TicketSerializer.vd_status vd
  ∈ [None; Some TicketStatus.RESERVED; Some TicketStatus.CONFIRMED] ->
  (user_role user = UserRole.CUSTOMER ->
   TicketSerializer.vd_customer vd = Some (user_id user)) ->
  reason <> "" ->
  exists db1 pk ticket,
    TicketSerializer.create fuel rng now user vd db = Some (db1, Ok (pk, ticket))
    /\ (trip_booked_seats <$> trips db1 !! trip_pk) = Some (trip_booked_seats trip + 1)
    /\ status_code (TicketViewSet.cancel now' user pk (Some reason) db1).2 = HTTP_200_OK
    /\ trips (TicketViewSet.cancel now' user pk (Some reason) db1).1 = trips db.
Proof.
  intros Hj Hfree trip_pk trip Hloaded Hvalid Hseats Hstatus Hreq Hcust Hreason.
  destruct (generate_ticket_reference_total fuel db rng j Hj Hfree) as [ref Hgen].
  subst trip_pk trip. unfold TicketSerializer.create. rewrite Hgen.
  unfold TicketSerializerFields.validate_trip in Hvalid.
  destruct (TicketSerializer.vd_trip vd) as [trip_pk trip] eqn:Htrip; simpl in *.
  case_bool_decide as Hco; [done|].
  rewrite bool_decide_eq_false_2 by lia. rewrite bool_decide_eq_false_2 by done.
  rewrite <- Hco. eexists _, _, _. split; [reflexivity|].
  split; [simpl; by rewrite lookup_insert_eq|].
  set (ticket := TicketSerializer.new_ticket _ _ _ _ _).
  set (pk := fresh (dom (tickets db))).
  assert (Hget : TicketViewSet.get_object user pk
                   (save_trip trip_pk
                      (trip_with_booked_seats (trip_booked_seats trip + 1) trip)
                      (save_ticket pk ticket db)) = inl ticket).
  { unfold TicketViewSet.get_object, TicketViewSet.in_queryset,
      TicketViewSet.has_object_permission. simpl. rewrite lookup_insert_eq. simpl.
    rewrite <- Hco. rewrite !bool_decide_eq_true_2 by done. simpl.
    rewrite (bool_decide_eq_true_2 (Some _ = Some _)) by done.
    case_bool_decide as Hrole; [|done]. by rewrite bool_decide_eq_true_2 by auto. }
  assert (Hst : ticket_status ticket ∈ [TicketStatus.RESERVED; TicketStatus.CONFIRMED]).
  { subst ticket. simpl.
    repeat (apply elem_of_cons in Hreq as [->|Hreq]; [simpl; in_list|]).
    by apply elem_of_nil in Hreq. }
  unfold TicketViewSet.cancel. rewrite Hget. simpl.
  rewrite bool_decide_eq_false_2 by done.
  rewrite bool_decide_eq_false_2 by (intros H; by apply H).
  split; [done|].
  unfold TicketSerializer.release_seat. simpl. rewrite Htrip. simpl.
  rewrite lookup_insert_eq. simpl. rewrite insert_insert_eq.
  rewrite trip_with_booked_seats_back by lia. by apply insert_id.
Qed.

Lemma X9_issue_then_cancel_witness :
  exists db1 pk ticket,
    TicketSerializer.create 1 Sample.rng 100 Sample.staff
      (TicketSerializer.mkCreateData (1%nat, Sample.trip) None None None) Sample.db
    = Some (db1, Ok (pk, ticket))
    /\ trips (TicketViewSet.cancel 200 Sample.staff pk (Some "changed plans") db1).1
       = trips Sample.db.
Proof.
  destruct (X9_issue_then_cancel 1 Sample.rng 100 200 Sample.staff
              (TicketSerializer.mkCreateData (1%nat, Sample.trip) None None None)
              Sample.db 0 "changed plans")
    as (db1 & pk & ticket & Hcreate & _ & _ & Htrips).
  - lia.
  - vm_compute. reflexivity.
  - vm_compute. reflexivity.
  - vm_compute. reflexivity.
  - simpl. lia.
  - simpl. intros H. inversion H as [|? ? ? H']. inversion H' as [|? ? ? H'']. inversion H''.
  - simpl. constructor.
  - simpl. discriminate.
  - discriminate.
  - exists db1, pk, ticket. split; [exact Hcreate | exact Htrips].
Defined.

(** ** Booking references of tickets *)

(** The uniqueness constraint on [Ticket.booking_reference]. *)
Definition unique_references (db : DB) : Prop :=
  forall i j t1 t2,
    tickets db !! i = Some t1 -> tickets db !! j = Some t2 ->
    ticket_booking_reference t1 = ticket_booking_reference t2 -> i = j.

Lemma unique_references_rewrite db db' pk t t' :
  unique_references db ->
  tickets db !! pk = Some t ->
  ticket_booking_reference t' = ticket_booking_reference t ->
  tickets db' = <[pk := t']> (tickets db) ->
  unique_references db'.
Proof.
  intros Hu Hpk Href Hdb' i j t1 t2. rewrite Hdb'.
  destruct (decide (i = pk)) as [->|Hi], (decide (j = pk)) as [->|Hj];
    rewrite ?lookup_insert_eq, ?lookup_insert_ne by done; try done.
  - intros [= <-] Hj2 Heq. apply (Hu pk j t t2); congruence.
  - intros Hi1 [= <-] Heq. apply (Hu i pk t1 t); congruence.
  - apply Hu.
Qed.

Lemma unique_references_insert_new db db' pk t :
  unique_references db ->
  tickets db !! pk = None ->
  (forall i t0, tickets db !! i = Some t0 ->
                ticket_booking_reference t0 <> ticket_booking_reference t) ->
  tickets db' = <[pk := t]> (tickets db) ->
  unique_references db'.
Proof.
  intros Hu Hpk Hnew Hdb' i j t1 t2. rewrite Hdb'.
  destruct (decide (i = pk)) as [->|Hi], (decide (j = pk)) as [->|Hj];
    rewrite ?lookup_insert_eq, ?lookup_insert_ne by done; try done.
  - intros [= <-] Hj2 Heq. by destruct (Hnew j t2 Hj2).
  - intros Hi1 [= <-] Heq. by destruct (Hnew i t1 Hi1).
  - apply Hu.
Qed.

Lemma set_if_present_keeps {A R B : Type} (f : R -> B) (set : A -> R -> R) v r :
  (forall x r0, f (set x r0) = f r0) -> f (set_if_present set v r) = f r.
Proof. intros Hset. destruct v; simpl; [apply Hset|done]. Qed.

(** [update] never rewrites the read-only fields. *)
Lemma assign_all_read_only vd t :
  ticket_booking_reference (TicketSerializer.assign_all vd t) = ticket_booking_reference t
  /\ ticket_company (TicketSerializer.assign_all vd t) = ticket_company t.
Proof.
  unfold TicketSerializer.assign_all.
  split; repeat (rewrite set_if_present_keeps by done); done.
Qed.

(** X10. No two tickets share a booking reference, and it stays so: the
    uniqueness of the references is kept by issuing a ticket, by an update of
    a ticket read from the store, and by any run of check_in, cancel and
    refund requests. *)
Theorem X10_references_stay_unique
    (fuel : nat) (rng : nat -> nat) (now : Z) (user : User)
    (vd : TicketSerializer.CreateData) (pk : nat) (row : Ticket)
    (upd : TicketSerializer.UpdateData) (requests : list ticket_request) (db : DB) :
  unique_references db ->
  match TicketSerializer.create fuel rng now user vd db with
  | Some (db', _) => unique_references db'
  | None => True
  end
  /\ (tickets db !! pk = Some row ->
      unique_references (TicketSerializer.update now (pk, row) upd db).1)
  /\ unique_references (run_ticket_requests requests db).
Proof.
  intros Hu. split; [|split].
  - unfold TicketSerializer.create.
    destruct (TicketSerializer._generate_booking_reference fuel db rng) as [ref|] eqn:Hgen;
      [|done].
    destruct (generate_ticket_reference_sound _ _ _ _ Hgen) as [_ Hnew].
    destruct (TicketSerializer.vd_trip vd) as [trip_pk trip].
    repeat (case_bool_decide; [done|]).
    destruct (user_company user) as [c|]; [|done].
    set (ticket := TicketSerializer.new_ticket _ _ _ _ _).
    apply (unique_references_insert_new db _ (fresh (dom (tickets db))) ticket);
      [done|apply not_elem_of_dom, is_fresh|exact Hnew|done].
  - intros Hpk. unfold TicketSerializer.update.
    destruct (_ && bool_decide (TicketSerializer.upd_cancellation_reason upd = None)); [done|].
    destruct (bool_decide (TicketSerializer.upd_status upd = Some TicketStatus.CANCELLED) && _);
      simpl.
    + eapply (unique_references_rewrite db _ pk row); [done|done|apply assign_all_read_only|].
      simpl. by rewrite release_seat_tickets.
    + eapply (unique_references_rewrite db _ pk row); [done|done|apply assign_all_read_only|].
      done.
  - revert db Hu. induction requests as [|r requests IH]; intros db Hu; [done|].
    simpl. apply IH. unfold run_ticket_request.
    destruct (ticket_action_effect (treq_action r) (treq_now r) (treq_user r) (treq_pk r) db)
      as [[_ ->]|(_ & t & t' & Hget & Htickets & _ & Hsame & _)]; [done|].
    apply get_object_lookup in Hget. destruct Hsame as (_ & _ & _ & Href & _).
    by eapply (unique_references_rewrite db _ (treq_pk r) t t').
Qed.

Lemma X10_references_stay_unique_witness :
  unique_references Sample.db
  /\ unique_references
       (run_ticket_requests [mkTicketRequest (CheckIn None) 110 Sample.staff 5] Sample.db).
Proof.
  assert (Hu : unique_references Sample.db).
  { intros i j t1 t2 Hi Hj _. simpl in *.
    apply lookup_singleton_Some in Hi as [<- _].
    by apply lookup_singleton_Some in Hj as [<- _]. }
  split; [exact Hu|].
  exact (proj2 (proj2 (X10_references_stay_unique 1 Sample.rng 100 Sample.staff
                         (TicketSerializer.mkCreateData (1%nat, Sample.trip) None None None)
                         5 Sample.ticket
                         (TicketSerializer.mkUpdateData None None None None None None None
                            None None None None)
                         [mkTicketRequest (CheckIn None) 110 Sample.staff 5]
                         Sample.db Hu))).
Defined.

(** ** Updating a ticket *)

(** How the entries of the request reach the stored row. *)
Lemma assign_all_status vd t :
  ticket_status (TicketSerializer.assign_all vd t)
  = default (ticket_status t) (TicketSerializer.upd_status vd).
Proof.
  unfold TicketSerializer.assign_all.
  repeat (rewrite (set_if_present_keeps ticket_status) by done).
  destruct (TicketSerializer.upd_status vd); cbn [set_if_present default]; [done|].
  by repeat (rewrite (set_if_present_keeps ticket_status) by done).
Qed.

Lemma assign_all_cancellation_date vd t :
  ticket_cancellation_date (TicketSerializer.assign_all vd t)
  = default (ticket_cancellation_date t) (TicketSerializer.upd_cancellation_date vd).
Proof.
  unfold TicketSerializer.assign_all.
  repeat (rewrite (set_if_present_keeps ticket_cancellation_date) by done).
  destruct (TicketSerializer.upd_cancellation_date vd); cbn [set_if_present default]; [done|].
  by repeat (rewrite (set_if_present_keeps ticket_cancellation_date) by done).
Qed.

Lemma assign_all_checked_in_at vd t :
  ticket_checked_in_at (TicketSerializer.assign_all vd t)
  = default (ticket_checked_in_at t) (TicketSerializer.upd_checked_in_at vd).
Proof.
  unfold TicketSerializer.assign_all.
  repeat (rewrite (set_if_present_keeps ticket_checked_in_at) by done).
  destruct (TicketSerializer.upd_checked_in_at vd); cbn [set_if_present default]; [done|].
  by repeat (rewrite (set_if_present_keeps ticket_checked_in_at) by done).
Qed.

(** [update] with its two stamps written out on the request as received. *)
Lemma update_unfold now pk row upd db :
  TicketSerializer.update now (pk, row) upd db
  = let to_cancelled :=
      bool_decide (TicketSerializer.upd_status upd = Some TicketStatus.CANCELLED)
      && bool_decide (ticket_status row <> TicketStatus.CANCELLED) in
    if to_cancelled && bool_decide (TicketSerializer.upd_cancellation_reason upd = None) then
      (db, Raise (ValidationError (Some "cancellation_reason")
                    "Cancellation reason is required"))
    else
      let vd1 := if to_cancelled
                 then TicketSerializer.with_cancellation_date (Some (Some now)) upd
                 else upd in
      let vd2 :=
        if bool_decide (TicketSerializer.upd_status upd = Some TicketStatus.CHECKED_IN)
           && bool_decide (ticket_status row <> TicketStatus.CHECKED_IN)
        then TicketSerializer.with_checked_in_at (Some (Some now)) vd1
        else vd1 in
      let row' := TicketSerializer.assign_all vd2 row in
      (save_ticket pk row'
         (if to_cancelled then TicketSerializer.release_seat (ticket_trip row) db else db),
       Ok (pk, row')).
Proof.
  unfold TicketSerializer.update. cbv zeta.
  destruct (bool_decide (TicketSerializer.upd_status upd = Some TicketStatus.CANCELLED)
            && bool_decide (ticket_status row <> TicketStatus.CANCELLED));
    destruct (bool_decide (TicketSerializer.upd_cancellation_reason upd = None)); done.
Qed.

(** What [release_seat] stores for the trip it is given. *)
Lemma release_seat_reads trip_pk db trip :
  trips db !! trip_pk = Some trip ->
  exists trip',
    trips (TicketSerializer.release_seat trip_pk db) !! trip_pk = Some trip'
    /\ trip_booked_seats trip' = Z.max 0 (trip_booked_seats trip - 1)
    /\ same_trip_but_booked_seats trip trip'.
Proof.
  intros Htrip. unfold TicketSerializer.release_seat. rewrite Htrip.
  eexists. split; [apply lookup_insert_eq|]. split; [done|]. repeat split.
Qed.

(** X11. [TicketSerializer.update] on a ticket: a move into Cancelled from
    another status is refused, with nothing changed, when the request has no
    cancellation_reason key.  Otherwise the ticket is stored under its key
    with the status the request names (or its old one); its company and
    booking reference are never changed.  A move into Cancelled stamps
    cancellation_date = now, overriding a date sent in the request, and
    releases one seat on the ticket's previous trip, which then reads
    booked_seats = max(0, booked_seats - 1); a move into Checked In stamps
    checked_in_at = now; any other update leaves all trips alone. *)
Theorem X11_update_effects
    (now : Z) (pk : nat) (row : Ticket) (upd : TicketSerializer.UpdateData) (db : DB) :
  let run := TicketSerializer.update now (pk, row) upd db in
  let into_cancelled :=
    TicketSerializer.upd_status upd = Some TicketStatus.CANCELLED
    /\ ticket_status row <> TicketStatus.CANCELLED in
  (into_cancelled /\ TicketSerializer.upd_cancellation_reason upd = None ->
   run = (db, Raise (ValidationError (Some "cancellation_reason")
                       "Cancellation reason is required")))
  /\ (~ (into_cancelled /\ TicketSerializer.upd_cancellation_reason upd = None) ->
      exists row',
        run.2 = Ok (pk, row')
        /\ tickets run.1 = <[pk := row']> (tickets db)
        /\ ticket_company row' = ticket_company row
        /\ ticket_booking_reference row' = ticket_booking_reference row
        /\ ticket_status row' = default (ticket_status row) (TicketSerializer.upd_status upd)
        /\ (into_cancelled ->
            ticket_cancellation_date row' = Some now
            /\ trips run.1 = trips (TicketSerializer.release_seat (ticket_trip row) db)
            /\ forall trip,
                 trips db !! ticket_trip row = Some trip ->
                 exists trip',
                   trips run.1 !! ticket_trip row = Some trip'
                   /\ trip_booked_seats trip' = Z.max 0 (trip_booked_seats trip - 1)
                   /\ same_trip_but_booked_seats trip trip')
        /\ (~ into_cancelled -> trips run.1 = trips db)
        /\ (TicketSerializer.upd_status upd = Some TicketStatus.CHECKED_IN ->
            ticket_status row <> TicketStatus.CHECKED_IN ->
            ticket_checked_in_at row' = Some now)).
Proof.
  intros run into_cancelled. subst run into_cancelled. rewrite update_unfold.
  destruct (bool_decide (TicketSerializer.upd_status upd = Some TicketStatus.CANCELLED)
            && bool_decide (ticket_status row <> TicketStatus.CANCELLED)) eqn:Hto.
  - apply andb_prop in Hto as [Hst%bool_decide_eq_true_1 Hrow%bool_decide_eq_true_1].
    split.
    { intros [_ Hreason]. by rewrite (bool_decide_eq_true_2 (_ = None)) by done. }
    intros Hok. rewrite bool_decide_eq_false_2 by (intros Hr; by apply Hok).
    cbn [andb]. eexists. split; [reflexivity|]. cbn [fst snd].
    unfold save_ticket, set_tickets. cbn [tickets trips]. rewrite release_seat_tickets.
    rewrite (bool_decide_eq_false_2 (_ = Some TicketStatus.CHECKED_IN)) by congruence.
    cbn [andb]. split; [done|].
    split; [apply assign_all_read_only|]. split; [apply assign_all_read_only|].
    rewrite assign_all_status, assign_all_cancellation_date. cbn.
    split; [done|]. split; [|split; [by intros []|congruence]].
    intros _. split; [done|]. split; [done|].
    intros trip Htrip. by apply release_seat_reads.
  - assert (Hnot : ~ (TicketSerializer.upd_status upd = Some TicketStatus.CANCELLED
                      /\ ticket_status row <> TicketStatus.CANCELLED)).
    { intros [Hst Hrow]. by rewrite !bool_decide_eq_true_2 in Hto by done. }
    split; [by intros [? _]|]. intros _. cbn [andb].
    eexists. split; [reflexivity|]. cbn [fst snd].
    unfold save_ticket, set_tickets. cbn [tickets trips]. split; [done|].
    split; [apply assign_all_read_only|]. split; [apply assign_all_read_only|].
    rewrite assign_all_status, assign_all_checked_in_at.
    destruct (bool_decide (TicketSerializer.upd_status upd = Some TicketStatus.CHECKED_IN)
              && bool_decide (ticket_status row <> TicketStatus.CHECKED_IN)) eqn:Hci; cbn.
    + repeat split; done.
    + split; [done|]. split; [done|]. split; [done|].
      intros Hst Hrow. by rewrite !bool_decide_eq_true_2 in Hci by done.
Qed.

(** ** Activating and deactivating discounts *)

Lemma discount_get_object_lookup user pk db d :
  DiscountViewSetActions.get_object user pk db = inl d -> discounts db !! pk = Some d.
Proof.
  unfold DiscountViewSetActions.get_object. repeat case_match; try done. congruence.
Qed.

(** [get_object] reads the company of the row only. *)
Lemma discount_get_object_save user pk db d d' :
  DiscountViewSetActions.get_object user pk db = inl d ->
  discount_company d' = discount_company d ->
  DiscountViewSetActions.get_object user pk (DiscountSerializer.save_discount pk d' db)
  = inl d'.
Proof.
  unfold DiscountViewSetActions.get_object, DiscountViewSetActions.in_queryset. simpl.
  rewrite lookup_insert_eq. intros Hget Hco.
  destruct (negb (permissions.IsCompanyManagerOrAdmin user)); [done|].
  destruct (discounts db !! pk) as [d0|]; [|done]. rewrite Hco.
  destruct (user_company user) as [c|]; [|done].
  destruct (bool_decide (discount_company d0 = c)) eqn:Hq; [|done].
  destruct (TicketViewSet.has_object_permission user (discount_company d0)) eqn:Hp; [|done].
  injection Hget as ->. by rewrite Hq, Hp.
Qed.

Definition already_active : Response :=
  mkResponse HTTP_400_BAD_REQUEST (Detail "Discount is already active").
Definition already_inactive : Response :=
  mkResponse HTTP_400_BAD_REQUEST (Detail "Discount is already inactive").

(** X12. Deactivate then activate is a round trip.  For an active discount
    within the caller's reach: deactivate succeeds and stores it inactive,
    changing nothing else about it; activate then succeeds and gives back
    exactly the store before the deactivation.  Activating a discount that is
    active, or deactivating one that is inactive, is refused with 400 and
    changes nothing. *)
Theorem X12_deactivate_activate (user : User) (pk : nat) (db : DB) (d : Discount) :
  DiscountViewSetActions.get_object user pk db = inl d ->
  discount_is_active d = true ->
  let off := DiscountViewSetActions.deactivate user pk db in
  let on := DiscountViewSetActions.activate user pk off.1 in
  status_code off.2 = HTTP_200_OK
  /\ discounts off.1 = <[pk := DiscountViewSetActions.with_is_active false d]> (discounts db)
  /\ status_code on.2 = HTTP_200_OK
  /\ on.1 = db
  /\ DiscountViewSetActions.activate user pk db = (db, already_active)
  /\ DiscountViewSetActions.deactivate user pk off.1 = (off.1, already_inactive).
Proof.
  intros Hget Hactive off on.
  assert (Hoff : off = (DiscountSerializer.save_discount pk
                          (DiscountViewSetActions.with_is_active false d) db,
                        mkResponse HTTP_200_OK (Detail "Discount deactivated successfully"))).
  { subst off. unfold DiscountViewSetActions.deactivate. by rewrite Hget, Hactive. }
  assert (Hget' : DiscountViewSetActions.get_object user pk off.1
                  = inl (DiscountViewSetActions.with_is_active false d)).
  { rewrite Hoff. by apply (discount_get_object_save _ _ _ d). }
  split; [by rewrite Hoff|]. split; [by rewrite Hoff|].
  subst on. unfold DiscountViewSetActions.activate, DiscountViewSetActions.deactivate.
  rewrite Hget', Hget, Hactive. simpl. split; [done|]. split; [|done].
  rewrite Hoff. unfold DiscountSerializer.save_discount. simpl.
  rewrite insert_insert_eq.
  assert (DiscountViewSetActions.with_is_active true
            (DiscountViewSetActions.with_is_active false d) = d) as ->.
  { destruct d. simpl in Hactive. by subst. }
  rewrite insert_id by by apply discount_get_object_lookup in Hget.
  by destruct db.
Qed.

Lemma X12_deactivate_activate_witness :
  (DiscountViewSetActions.activate SampleStore.manager 3
     (DiscountViewSetActions.deactivate SampleStore.manager 3 (SampleDiscount.db 0)).1).1
  = SampleDiscount.db 0.
Proof.
  pose proof (X12_deactivate_activate SampleStore.manager 3 (SampleDiscount.db 0)
                (SampleDiscount.save10 0)) as H.
  destruct H as (_ & _ & _ & Hback & _).
  - vm_compute. reflexivity.
  - reflexivity.
  - exact Hback.
Defined.

Lemma unique_codes_save db pk d d' :
  unique_codes db ->
  discounts db !! pk = Some d ->
  discount_code d' = discount_code d ->
  unique_codes (DiscountSerializer.save_discount pk d' db).
Proof.
  intros Hu Hpk Hcode i j d1 d2. simpl.
  destruct (decide (i = pk)) as [->|Hi], (decide (j = pk)) as [->|Hj];
    rewrite ?lookup_insert_eq, ?lookup_insert_ne by done; try done.
  - intros [= <-] Hj2 Heq. apply (Hu pk j d d2); congruence.
  - intros Hi1 [= <-] Heq. apply (Hu i pk d1 d); congruence.
  - apply Hu.
Qed.

(** X13. A deactivated code no longer validates.  With distinct codes, once
    deactivate has succeeded on a discount, validate_code for its code is
    answered 404 in the resulting store, for every user and at every time. *)
Theorem X13_deactivated_code_not_found
    (user : User) (pk : nat) (db : DB) (d : Discount) (now : Z) (user' : User) :
  unique_codes db ->
  DiscountViewSetActions.get_object user pk db = inl d ->
  discount_is_active d = true ->
  discount_code d <> "" ->
  let off := (DiscountViewSetActions.deactivate user pk db).1 in
  DiscountViewSet.validate_code now user' (Some (discount_code d)) off
  = (off, mkResponse HTTP_404_NOT_FOUND (Detail "Invalid or expired discount code")).
Proof.
  intros Huniq Hget Hactive Hcode off.
  pose proof (discount_get_object_lookup _ _ _ _ Hget) as Hpk.
  assert (Hoff : off = DiscountSerializer.save_discount pk
                         (DiscountViewSetActions.with_is_active false d) db).
  { subst off. unfold DiscountViewSetActions.deactivate. by rewrite Hget, Hactive. }
  assert (Huniq' : unique_codes off).
  { rewrite Hoff. by apply (unique_codes_save db pk d). }
  unfold DiscountViewSet.validate_code.
  destruct (discount_code d) as [|a code] eqn:Hc; [done|]. rewrite <- Hc.
  destruct (query_cases now user' (discount_code d) off Huniq')
    as [[Hnil _]|(pk' & d' & _ & Hpk' & Hsel)].
  - unfold query in Hnil. by rewrite Hnil.
  - exfalso. apply selected_spec in Hsel as (_ & Hcode' & Hact & _).
    rewrite Hoff in Hpk'. simpl in Hpk'.
    destruct (decide (pk' = pk)) as [->|Hne].
    + rewrite lookup_insert_eq in Hpk'. injection Hpk' as <-. done.
    + rewrite lookup_insert_ne in Hpk' by done.
      apply Hne. by apply (Huniq pk' pk d' d).
Qed.

Lemma X13_deactivated_code_not_found_witness :
  status_code
    (DiscountViewSet.validate_code 1500 Sample.staff (Some "SAVE10")
       (DiscountViewSetActions.deactivate SampleStore.manager 3 (SampleDiscount.db 0)).1).2
  = HTTP_404_NOT_FOUND.
Proof.
  pose proof (X13_deactivated_code_not_found SampleStore.manager 3 (SampleDiscount.db 0)
                (SampleDiscount.save10 0) 1500 Sample.staff (SampleDiscount.unique 0)) as H.
  cbv zeta in H.
  change (discount_code (SampleDiscount.save10 0)) with "SAVE10" in H.
  rewrite H.
  - reflexivity.
  - vm_compute. reflexivity.
  - reflexivity.
  - discriminate.
Defined.

Lemma listed_selected now user d :
  DiscountViewSetActions.listed now user d
  = DiscountViewSet.selected now user (discount_code d) d.
Proof.
  unfold DiscountViewSetActions.listed, DiscountViewSet.selected,
    DiscountViewSetActions.in_queryset.
  rewrite (bool_decide_eq_true_2 (discount_code d = discount_code d)) by done.
  rewrite andb_true_r. f_equal. f_equal. f_equal.
  destruct (user_company user) as [c|].
  - apply bool_decide_ext. split; [by intros ->|by intros [= ->]].
  - by rewrite bool_decide_eq_false_2.
Qed.

(** X14. validate_code and the active listing agree.  With distinct codes
    and a non-empty code, validate_code returns a discount exactly when the
    caller's active listing at that time shows a discount with that code
    which is not over its usage limit; the listing itself does not look at
    the limit. *)
Theorem X14_validate_code_matches_active
    (now : Z) (user : User) (code : string) (db : DB) (d : Discount) :
  unique_codes db ->
  code <> "" ->
  (DiscountViewSet.validate_code now user (Some code) db).2
  = mkResponse HTTP_200_OK (DiscountData d)
  <-> (exists pk, DiscountViewSetActions.active now user db !! pk = Some d)
      /\ discount_code d = code
      /\ DiscountViewSet.limit_reached d = false.
Proof.
  intros Huniq Hcode.
  assert (Hactive : forall pk d0,
            DiscountViewSetActions.active now user db !! pk = Some d0
            <-> discounts db !! pk = Some d0
                /\ DiscountViewSet.selected now user (discount_code d0) d0 = true).
  { intros pk d0. unfold DiscountViewSetActions.active.
    rewrite map_lookup_filter_Some. simpl. by rewrite listed_selected. }
  unfold DiscountViewSet.validate_code.
  destruct code as [|a rest] eqn:Hc; [done|]. rewrite <- Hc in *. clear Hc Hcode.
  destruct (query_cases now user code db Huniq)
    as [[Hnil Hnone]|(pk & d0 & Hlist & Hpk & Hsel)]; unfold query in *.
  - rewrite Hnil. split; [done|]. intros ([pk Hpk] & Hco & _).
    apply Hactive in Hpk as [Hpk Hsel]. rewrite Hco in Hsel.
    by rewrite (Hnone pk d Hpk) in Hsel.
  - rewrite Hlist.
    pose proof Hsel as (_ & Hco0 & _)%selected_spec.
    destruct (DiscountViewSet.limit_reached d0) eqn:Hlim; simpl.
    + split; [done|]. intros ([pk' Hpk'] & Hco & Hno).
      apply Hactive in Hpk' as [Hpk' _].
      assert (pk' = pk) as -> by (apply (Huniq pk' pk d d0); congruence).
      congruence.
    + split.
      * intros [= <-]. split; [|done]. exists pk. apply Hactive. by rewrite Hco0.
      * intros ([pk' Hpk'] & Hco & _). apply Hactive in Hpk' as [Hpk' _].
        assert (pk' = pk) as -> by (apply (Huniq pk' pk d d0); congruence).
        congruence.
Qed.

Lemma X14_validate_code_matches_active_witness :
  exists pk,
    DiscountViewSetActions.active 1500 Sample.staff (SampleDiscount.db 0) !! pk
    = Some (SampleDiscount.save10 0).
Proof.
  pose proof (X14_validate_code_matches_active 1500 Sample.staff "SAVE10" (SampleDiscount.db 0)
                (SampleDiscount.save10 0) (SampleDiscount.unique 0)) as H.
  destruct H as [Hto _].
  - discriminate.
  - destruct Hto as [Hlisted _]; [vm_compute; reflexivity|exact Hlisted].
Defined.

(** ** Creating and updating discounts *)

Definition same_but_discounts (db db' : DB) : Prop :=
  users db' = users db /\ trips db' = trips db /\ trip_events db' = trip_events db
  /\ tickets db' = tickets db /\ bookings db' = bookings db.

(** X15. What a created discount looks like.  When the create action
    succeeds, the row is stored under a key that was free, belongs to the
    caller's company, has a usage count of 0, carries the code, value and
    start date of the request (all three were supplied), ends after it
    starts when an end date is stored, and is at most 100% when the request
    names the Percentage type; no other table changes. *)
Theorem X15_created_discount
    (user : User) (data : DiscountSerializer.Data) (db db' : DB) (pk : nat) (d : Discount) :
  DiscountSerializer.save_new user data db = (db', Ok (pk, d)) ->
  discounts db !! pk = None
  /\ discounts db' = <[pk := d]> (discounts db)
  /\ same_but_discounts db db'
  /\ user_company user = Some (discount_company d)
  /\ discount_usage_count d = 0
  /\ DiscountSerializer.d_code data = Some (discount_code d)
  /\ DiscountSerializer.d_value data = Some (discount_value d)
  /\ DiscountSerializer.d_start_date data = Some (discount_start_date d)
  /\ (forall e, discount_end_date d = Some e -> discount_start_date d < e)
  /\ (DiscountSerializer.d_type data = Some DiscountType.PERCENTAGE ->
      discount_value d <= 100 * 100).
Proof.
  unfold DiscountSerializer.save_new, DiscountSerializer.is_valid,
    DiscountSerializer.validate, DiscountSerializer.create. simpl.
  destruct data as [code type value start_date end_date usage_limit is_active]. simpl.
  destruct code as [code|]; [|done]. destruct value as [value|]; [|done].
  destruct start_date as [start_date|]; [|done]. simpl.
  destruct (match DiscountSerializer.get end_date with
            | Some e => bool_decide (e <= start_date) | None => false end) eqn:Hend; [done|].
  destruct (bool_decide (type = Some DiscountType.PERCENTAGE) && _) eqn:Hpct; [done|].
  destruct (user_company user) as [c|]; [|done].
  intros [= <- <- <-]. simpl.
  split; [apply not_elem_of_dom, is_fresh|].
  repeat split; try done.
  - intros e He. rewrite He in Hend. apply bool_decide_eq_false in Hend. lia.
  - intros ->. rewrite bool_decide_eq_true_2 in Hpct by done. simpl in Hpct.
    apply bool_decide_eq_false in Hpct. lia.
Qed.

Lemma X15_created_discount_witness :
  discount_usage_count (SampleDiscount.save10 0) = 0
  /\ user_company SampleStore.manager = Some (discount_company (SampleDiscount.save10 0)).
Proof.
  pose proof (X15_created_discount SampleStore.manager
                (DiscountSerializer.mkData (Some "SAVE10") (Some DiscountType.PERCENTAGE)
                   (Some 1000) (Some 1000) (Some (Some 2000)) (Some (Some 5)) None)
                Sample.db
                (DiscountSerializer.save_discount (fresh (dom (discounts Sample.db)))
                   (SampleDiscount.save10 0) Sample.db)
                (fresh (dom (discounts Sample.db))) (SampleDiscount.save10 0)) as H.
  destruct H as (_ & _ & _ & Hco & Hcount & _).
  - vm_compute. reflexivity.
  - split; [exact Hcount|exact Hco].
Defined.

(** X16. What an update of a discount keeps.  When an update (full or
    partial) succeeds, the row is stored under its own key, its company and
    usage count are those it had, each of the seven writable columns (code,
    type, value, usage limit, start date, end date, is_active) holds the
    value of the request, or its old value when the request leaves it out,
    and no other table changes.  The dates are ordered when the request
    supplies both of them. *)
Theorem X16_updated_discount
    (partial : bool) (pk : nat) (row : Discount) (data : DiscountSerializer.Data)
    (db db' : DB) (pk' : nat) (d : Discount) :
  DiscountSerializer.save_existing partial (pk, row) data db = (db', Ok (pk', d)) ->
  pk' = pk
  /\ discounts db' = <[pk := d]> (discounts db)
  /\ same_but_discounts db db'
  /\ discount_company d = discount_company row
  /\ discount_usage_count d = discount_usage_count row
  /\ discount_code d = default (discount_code row) (DiscountSerializer.d_code data)
  /\ discount_type d = default (discount_type row) (DiscountSerializer.d_type data)
  /\ discount_value d = default (discount_value row) (DiscountSerializer.d_value data)
  /\ discount_usage_limit d
     = default (discount_usage_limit row) (DiscountSerializer.d_usage_limit data)
  /\ discount_start_date d
     = default (discount_start_date row) (DiscountSerializer.d_start_date data)
  /\ discount_end_date d = default (discount_end_date row) (DiscountSerializer.d_end_date data)
  /\ discount_is_active d = default (discount_is_active row) (DiscountSerializer.d_is_active data)
  /\ (forall s e, DiscountSerializer.d_start_date data = Some s ->
                  DiscountSerializer.d_end_date data = Some (Some e) -> s < e).
Proof.
  unfold DiscountSerializer.save_existing, DiscountSerializer.update.
  destruct (DiscountSerializer.is_valid partial data) as [vd|e] eqn:Hvalid; [|done].
  assert (vd = data /\ DiscountSerializer.validate data = Ok data) as [-> Hv].
  { unfold DiscountSerializer.is_valid in Hvalid.
    repeat (destruct (negb partial && _); [done|]).
    unfold DiscountSerializer.validate in *.
    repeat (match type of Hvalid with (if ?c then _ else _) = _ => destruct c end; [done|]).
    by injection Hvalid as <-. }
  intros [= <- <- <-]. simpl. repeat split; try done.
  intros s e Hs He. unfold DiscountSerializer.validate in Hv. rewrite Hs, He in Hv. simpl in Hv.
  case_bool_decide as Hle; [done|lia].
Qed.

Lemma X16_updated_discount_witness :
  discount_usage_count
    (DiscountSerializer.assign_all
       (DiscountSerializer.mkData None None None None None None (Some false))
       (SampleDiscount.save10 4)) = 4.
Proof.
  pose proof (X16_updated_discount true 3 (SampleDiscount.save10 4)
                (DiscountSerializer.mkData None None None None None None (Some false))
                (SampleDiscount.db 4)
                (DiscountSerializer.save_discount 3
                   (DiscountSerializer.assign_all
                      (DiscountSerializer.mkData None None None None None None (Some false))
                      (SampleDiscount.save10 4)) (SampleDiscount.db 4))
                3 _ eq_refl) as H.
  destruct H as (_ & _ & _ & _ & Hcount & _). exact Hcount.
Defined.

(** X17. The date check of a discount sees the request only.  A partial
    update that supplies the end date alone is accepted whatever it is: the
    stored discount then ends at that date, also when that is not after its
    start date. *)
Theorem X17_end_date_alone_unchecked (pk : nat) (row : Discount) (e : Z) (db : DB) :
  e <= discount_start_date row ->
  let data := DiscountSerializer.mkData None None None None (Some (Some e)) None None in
  exists d,
    DiscountSerializer.save_existing true (pk, row) data db
    = (DiscountSerializer.save_discount pk d db, Ok (pk, d))
    /\ discount_end_date d = Some e
    /\ discount_start_date d = discount_start_date row
    /\ ~ discount_start_date d < e.
Proof.
  intros Hle data. eexists. split; [reflexivity|]. simpl. repeat split. lia.
Qed.

Lemma X17_end_date_alone_unchecked_witness :
  exists d,
    (DiscountSerializer.save_existing true (3%nat, SampleDiscount.save10 0)
       (DiscountSerializer.mkData None None None None (Some (Some 500)) None None)
       (SampleDiscount.db 0)).2 = Ok (3%nat, d)
    /\ discount_end_date d = Some 500.
Proof.
  destruct (X17_end_date_alone_unchecked 3 (SampleDiscount.save10 0) 500 (SampleDiscount.db 0))
    as (d & Hrun & Hend & _).
  - simpl. lia.
  - exists d. split; [by rewrite Hrun|exact Hend].
Defined.

(** ** Receipt numbers *)

(** The letter R followed by nine decimal digits. *)
Definition receipt_number_format (s : string) : bool :=
  match s with
  | String "R" rest =>
      bool_decide (length (list_ascii_of_string rest) = 9%nat)
      && forallb (fun c => bool_decide (c ∈ digits)) (list_ascii_of_string rest)
  | _ => false
  end.

Lemma digit_char_digit d : 0 <= d < 10 -> digit_char d ∈ digits.
Proof.
  intros Hd. unfold digit_char. apply list_elem_of_In, nth_In.
  change (length digits) with 10%nat. lia.
Qed.

Lemma decimal_go_digits k : forall fuel n acc,
  (k < fuel)%nat -> 10 ^ Z.of_nat k <= n < 10 ^ Z.of_nat (S k) ->
  exists ds, decimal_go fuel n acc = (ds ++ acc)%list
             /\ length ds = S k /\ Forall (fun c => c ∈ digits) ds.
Proof.
  induction k as [|k IH]; intros [|fuel] n acc Hfuel Hn; try lia; cbn [decimal_go].
  - change (10 ^ Z.of_nat 0) with 1 in Hn. change (10 ^ Z.of_nat 1) with 10 in Hn.
    rewrite bool_decide_eq_true_2 by lia.
    exists [digit_char n]. split; [done|]. split; [done|].
    constructor; [apply digit_char_digit; lia|constructor].
  - assert (Hk : 10 ^ Z.of_nat (S k) = 10 * 10 ^ Z.of_nat k).
    { rewrite Nat2Z.inj_succ, Z.pow_succ_r by lia. done. }
    assert (Hk' : 10 ^ Z.of_nat (S (S k)) = 10 * 10 ^ Z.of_nat (S k)).
    { rewrite (Nat2Z.inj_succ (S k)), Z.pow_succ_r by lia. done. }
    assert (0 < 10 ^ Z.of_nat k) by (apply Z.pow_pos_nonneg; lia).
    rewrite bool_decide_eq_false_2 by lia.
    destruct (IH fuel (n / 10) (digit_char (n mod 10) :: acc)) as (ds & -> & Hlen & Hall).
    + lia.
    + split.
      * apply Z.div_le_lower_bound; lia.
      * apply Z.div_lt_upper_bound; lia.
    + exists (ds ++ [digit_char (n mod 10)])%list. split; [by rewrite <- app_assoc|].
      split; [rewrite length_app; simpl; lia|].
      apply Forall_app. split; [done|].
      constructor; [apply digit_char_digit, Z.mod_pos_bound; lia|constructor].
Qed.

Lemma draw_receipt_number_format rng cursor :
  receipt_number_format (ReceiptSerializer.draw_receipt_number rng cursor) = true.
Proof.
  unfold ReceiptSerializer.draw_receipt_number, receipt_number_format, decimal, randint.
  set (n := 100000000 + Z.of_nat (rng cursor) mod (999999999 - 100000000 + 1)).
  assert (Hn : 100000000 <= n < 1000000000).
  { subst n. pose proof (Z.mod_pos_bound (Z.of_nat (rng cursor)) (999999999 - 100000000 + 1)).
    lia. }
  destruct (decimal_go_digits 8 (S (Z.to_nat (Z.log2 n))) n []) as (ds & -> & Hlen & Hall).
  - assert (Z.log2 100000000 <= Z.log2 n) by (apply Z.log2_le_mono; lia).
    change (Z.log2 100000000) with 26 in *. lia.
  - change (10 ^ Z.of_nat 8) with 100000000. change (10 ^ Z.of_nat 9) with 1000000000. lia.
  - rewrite app_nil_r, list_ascii_of_string_of_list_ascii.
    rewrite bool_decide_eq_true_2 by done. simpl.
    apply forallb_forall. intros c Hc. apply bool_decide_eq_true_2.
    rewrite Forall_forall in Hall. by apply Hall, list_elem_of_In.
Qed.

Lemma receipt_number_exists_false st number :
  ReceiptSerializer.number_exists st number = false <->
  forall pk r, receipts st !! pk = Some r -> receipt_receipt_number r <> number.
Proof.
  unfold ReceiptSerializer.number_exists. rewrite bool_decide_eq_false. split.
  - intros Hno pk r Hpk Heq. apply Hno. by exists pk, r.
  - intros Hall (pk & r & Hpk & Heq). by apply (Hall pk r).
Qed.

Lemma receipt_loop_sound fuel exists_ rng cursor number r :
  receipt_number_format number = true ->
  ReceiptSerializer.regenerate_while_exists fuel exists_ rng cursor number = Some r ->
  exists_ r = false /\ receipt_number_format r = true.
Proof.
  revert cursor number.
  induction fuel as [|fuel IH]; intros cursor number Hfmt;
    cbn [ReceiptSerializer.regenerate_while_exists]; [done|].
  destruct (exists_ number) eqn:Hex.
  - apply IH, draw_receipt_number_format.
  - by intros [= <-].
Qed.

(** The [j]-th number tested by the loop entered with [number] and the draws
    from [cursor] on. *)
Definition tested_number (rng : nat -> nat) (cursor : nat) (number : string) (j : nat)
  : string :=
  match j with
  | O => number
  | S j' => ReceiptSerializer.draw_receipt_number rng (cursor + j')
  end.

Lemma receipt_loop_total fuel exists_ rng cursor number j :
  (j < fuel)%nat ->
  exists_ (tested_number rng cursor number j) = false ->
  is_Some (ReceiptSerializer.regenerate_while_exists fuel exists_ rng cursor number).
Proof.
  revert cursor number j.
  induction fuel as [|fuel IH]; intros cursor number j Hj Hfree;
    cbn [ReceiptSerializer.regenerate_while_exists]; [lia|].
  destruct (exists_ number) eqn:Hex; [|by eexists].
  destruct j as [|j]; [simpl in Hfree; congruence|].
  apply (IH _ _ j); [lia|].
  destruct j as [|j]; cbn [tested_number] in *.
  - by replace (cursor + 0)%nat with cursor in Hfree by lia.
  - by replace (S cursor + j)%nat with (cursor + S j)%nat by lia.
Qed.

(** X18. Issuing a receipt.  Provided one of the numbers drawn within the
    fuel is free, creating a receipt for a user of a company returns: the
    receipt is stored under a key that was free, its number is the letter R
    followed by nine digits and is the number of no receipt stored before,
    it belongs to the user's company and is for the booking of the request;
    the tables of the core store are untouched. *)
Theorem X18_issue_receipt
    (fuel : nat) (rng : nat -> nat) (user : User) (c : nat)
    (vd : ReceiptSerializer.CreateData) (st : Store) (j : nat) :
  user_company user = Some c ->
  (j < fuel)%nat ->
  ReceiptSerializer.number_exists st (ReceiptSerializer.draw_receipt_number rng j) = false ->
  exists st' pk r,
    ReceiptSerializer.create fuel rng user vd st = Some (st', Ok (pk, r))
    /\ receipts st !! pk = None
    /\ receipts st' = <[pk := r]> (receipts st)
    /\ core st' = core st /\ trip_notes st' = trip_notes st
    /\ receipt_number_format (receipt_receipt_number r) = true
    /\ (forall pk' r', receipts st !! pk' = Some r' ->
                       receipt_receipt_number r' <> receipt_receipt_number r)
    /\ receipt_company r = c
    /\ receipt_booking r = (ReceiptSerializer.vd_booking vd).1
    /\ receipt_amount r = ReceiptSerializer.vd_amount vd.
Proof.
  intros Hco Hj Hfree. unfold ReceiptSerializer.create.
  destruct (ReceiptSerializer._generate_receipt_number fuel st rng) as [number|] eqn:Hgen.
  - rewrite Hco. do 3 eexists. split; [reflexivity|]. simpl.
    unfold ReceiptSerializer._generate_receipt_number in Hgen.
    apply receipt_loop_sound in Hgen as [Hno Hfmt]; [|apply draw_receipt_number_format].
    split; [apply not_elem_of_dom, is_fresh|].
    repeat split; try done. by apply receipt_number_exists_false.
  - exfalso. unfold ReceiptSerializer._generate_receipt_number in Hgen.
    destruct (receipt_loop_total fuel (ReceiptSerializer.number_exists st) rng 1
                (ReceiptSerializer.draw_receipt_number rng 0) j Hj) as [? Hsome].
    + destruct j as [|j]; [done|]. cbn [tested_number].
      by replace (1 + j)%nat with (S j) by lia.
    + congruence.
Qed.

Lemma X18_issue_receipt_witness :
  exists st' pk r,
    ReceiptSerializer.create 1 Sample.rng SampleStore.manager
      (ReceiptSerializer.mkCreateData (5%nat, mkBooking 7 None "AB123456") 2500 None)
      SampleStore.st = Some (st', Ok (pk, r))
    /\ receipt_number_format (receipt_receipt_number r) = true.
Proof.
  destruct (X18_issue_receipt 1 Sample.rng SampleStore.manager 7
              (ReceiptSerializer.mkCreateData (5%nat, mkBooking 7 None "AB123456") 2500 None)
              SampleStore.st 0)
    as (st' & pk & r & Hrun & _ & _ & _ & _ & Hfmt & _).
  - reflexivity.
  - lia.
  - vm_compute. reflexivity.
  - exists st', pk, r. split; [exact Hrun|exact Hfmt].
Defined.

(** ** Tickets and their company *)

(** Every ticket is on a trip of the store, and of its own company. *)
Definition tenant_inv (db : DB) : Prop :=
  forall pk t, tickets db !! pk = Some t ->
    exists trip, trips db !! ticket_trip t = Some trip
                 /\ trip_company trip = ticket_company t.

Definition trips_keep_company (m m' : gmap nat Trip) : Prop :=
  forall k trip, m !! k = Some trip ->
    exists trip', m' !! k = Some trip' /\ trip_company trip' = trip_company trip.

Lemma trips_keep_company_refl m : trips_keep_company m m.
Proof. intros k trip Hk. by exists trip. Qed.

Lemma trips_keep_company_insert m k trip trip' :
  m !! k = Some trip -> trip_company trip' = trip_company trip ->
  trips_keep_company m (<[k := trip']> m).
Proof.
  intros Hk Hco i t Hi. destruct (decide (i = k)) as [->|Hne].
  - exists trip'. rewrite lookup_insert_eq. split; [done|congruence].
  - exists t. by rewrite lookup_insert_ne.
Qed.

Lemma release_seat_keeps_company trip_pk db :
  trips_keep_company (trips db) (trips (TicketSerializer.release_seat trip_pk db)).
Proof.
  unfold TicketSerializer.release_seat.
  destruct (trips db !! trip_pk) as [trip|] eqn:Hpk; [|apply trips_keep_company_refl].
  by apply (trips_keep_company_insert _ _ trip).
Qed.

Lemma tenant_inv_step db db' :
  tenant_inv db ->
  trips_keep_company (trips db) (trips db') ->
  (forall pk t', tickets db' !! pk = Some t' ->
     (exists t, tickets db !! pk = Some t
                /\ ticket_company t' = ticket_company t /\ ticket_trip t' = ticket_trip t)
     \/ (exists trip, trips db' !! ticket_trip t' = Some trip
                      /\ trip_company trip = ticket_company t')) ->
  tenant_inv db'.
Proof.
  intros Hinv Htrips Htickets pk t' Hpk.
  destruct (Htickets pk t' Hpk) as [(t & Ht & Hco & Htr)|Hnew]; [|done].
  destruct (Hinv pk t Ht) as (trip & Htrip & Hc).
  destruct (Htrips _ _ Htrip) as (trip' & Htrip' & Hc').
  exists trip'. rewrite Htr, Hco. split; [done|congruence].
Qed.

(** X19. Tickets stay on trips of their own company.  In a store where
    every ticket is on a trip of the ticket's company, this is still so
    after issuing a ticket on a trip read from the store that has passed
    [validate_trip], after any run of check_in, cancel and refund requests,
    and after any run of start, complete, cancel and delay requests on
    trips. *)
Theorem X19_tickets_stay_with_their_company
    (fuel : nat) (rng : nat -> nat) (now : Z) (user : User)
    (vd : TicketSerializer.CreateData) (ticket_requests : list ticket_request)
    (trip_requests : list trip_request) (st : Store) :
  tenant_inv (core st) ->
  (trips (core st) !! (TicketSerializer.vd_trip vd).1 = Some (TicketSerializer.vd_trip vd).2 ->
   TicketSerializerFields.validate_trip user (TicketSerializer.vd_trip vd)
   = Ok (TicketSerializer.vd_trip vd) ->
   match TicketSerializer.create fuel rng now user vd (core st) with
   | Some (db', _) => tenant_inv db'
   | None => True
   end)
  /\ tenant_inv (run_ticket_requests ticket_requests (core st))
  /\ tenant_inv (core (run_trip_requests trip_requests st)).
Proof.
  intros Hinv. split; [|split].
  - intros Hread Hvalid. unfold TicketSerializer.create.
    destruct (TicketSerializer._generate_booking_reference fuel (core st) rng); [|done].
    unfold TicketSerializerFields.validate_trip in Hvalid.
    destruct (TicketSerializer.vd_trip vd) as [trip_pk trip] eqn:Hvd. simpl in *.
    case_bool_decide as Hco; [done|].
    repeat (case_bool_decide; [done|]).
    destruct (user_company user) as [c|]; [|done]. injection Hco as Hco.
    eapply (tenant_inv_step (core st)); [done| |].
    + simpl. by apply (trips_keep_company_insert _ _ trip).
    + intros pk t'. simpl.
      destruct (decide (pk = fresh (dom (tickets (core st))))) as [->|Hne].
      * rewrite lookup_insert_eq. intros [= <-]. right. simpl. rewrite Hvd. simpl.
        rewrite lookup_insert_eq. by eexists.
      * rewrite lookup_insert_ne by done. intros Ht. left. by exists t'.
  - generalize (core st) Hinv. clear.
    induction ticket_requests as [|r requests IH]; intros db Hinv; [done|].
    simpl. apply IH. unfold run_ticket_request.
    destruct (ticket_action_effect (treq_action r) (treq_now r) (treq_user r) (treq_pk r) db)
      as [[_ ->]|(_ & t & t' & Hget & Htickets & _ & Hsame & Htrips & _)]; [done|].
    apply get_object_lookup in Hget. destruct Hsame as (Hco & Htr & _).
    apply (tenant_inv_step db); [done| |].
    + rewrite Htrips. case_bool_decide;
        [apply release_seat_keeps_company|apply trips_keep_company_refl].
    + intros pk t1. rewrite Htickets. intros Hpk. left.
      destruct (decide (pk = treq_pk r)) as [->|Hne].
      * rewrite lookup_insert_eq in Hpk. injection Hpk as <-. by exists t.
      * rewrite lookup_insert_ne in Hpk by done. by exists t1.
  - revert st Hinv. induction trip_requests as [|r requests IH]; intros st Hinv; [done|].
    simpl. apply IH. unfold run_trip_request.
    destruct (trip_action_effect (req_action r) (req_now r) (req_user r) (req_pk r) st)
      as [[_ ->]|(_ & trip & trip' & evs & Hget & Htrips & _ & Hsame & _ & _ & _ & Htickets & _)];
      [done|].
    apply trip_get_object_lookup in Hget. destruct Hsame as (Hco & _).
    apply (tenant_inv_step (core st)); [done| |].
    + rewrite Htrips. by apply (trips_keep_company_insert _ _ trip).
    + intros pk t1. rewrite Htickets. intros Hpk. left. by exists t1.
Qed.

Lemma X19_tickets_stay_with_their_company_witness :
  tenant_inv Sample.db
  /\ tenant_inv
       (run_ticket_requests [mkTicketRequest (Cancel (Some "rain")) 110 Sample.staff 5]
          Sample.db).
Proof.
  assert (Hinv : tenant_inv (core SampleStore.st)).
  { intros pk t Hpk. simpl in *. apply lookup_singleton_Some in Hpk as [_ <-].
    by exists Sample.trip. }
  split; [exact Hinv|].
  exact (proj1 (proj2 (X19_tickets_stay_with_their_company 1 Sample.rng 100 Sample.staff
                         (TicketSerializer.mkCreateData (1%nat, Sample.trip) None None None)
                         [mkTicketRequest (Cancel (Some "rain")) 110 Sample.staff 5] []
                         SampleStore.st Hinv))).
Defined.

(** ** Permission classes *)

(** X20. The role-based permission classes are nested: whoever passes
    IsCompanyAdmin passes IsCompanyManagerOrAdmin, whoever passes that passes
    IsStaffOrHigher, and whoever passes that passes both IsDriverOrHigher
    and IsConductorOrHigher; the two of them together let through exactly
    the users IsStaffOrHigher lets through; a user passing IsCustomer passes
    none of the others; and the permission check of the trip actions is
    IsStaffOrHigher. *)
Theorem X20_permission_classes_nested (user : User) :
  (permissions.IsCompanyAdmin user = true -> permissions.IsCompanyManagerOrAdmin user = true)
  /\ (permissions.IsCompanyManagerOrAdmin user = true -> permissions.IsStaffOrHigher user = true)
  /\ (permissions.IsStaffOrHigher user = true ->
      permissions.IsDriverOrHigher user = true /\ permissions.IsConductorOrHigher user = true)
  /\ permissions.IsDriverOrHigher user && permissions.IsConductorOrHigher user
     = permissions.IsStaffOrHigher user
  /\ (permissions.IsCustomer user = true ->
      permissions.IsCompanyAdmin user = false
      /\ permissions.IsDriverOrHigher user = false
      /\ permissions.IsConductorOrHigher user = false)
  /\ TripViewSet.has_permission user = permissions.IsStaffOrHigher user.
Proof.
  unfold permissions.IsCompanyAdmin, permissions.IsCompanyManagerOrAdmin,
    permissions.IsStaffOrHigher, permissions.IsDriverOrHigher,
    permissions.IsConductorOrHigher, permissions.IsCustomer, TripViewSet.has_permission.
  destruct (user_role user); vm_compute; repeat split; congruence.
Qed.

(** ** The exception handler *)

(** X21. What the exception handler makes of a rejected trip.  Applied to
    the exception [TripSerializer.validate] raises, which it does for every
    request, [custom_exception_handler] gives a 500 answer with the message
    "An unexpected error occurred." when all the checks before the time
    comparison pass, and a 400 answer carrying the error of a field
    otherwise.  In general it passes on the answer of the REST framework's
    handler wherever that gives one (404 for Http404, 403 for
    PermissionDenied, an APIException's own status), and answers every
    exception the framework leaves unhandled itself: a database integrity
    error with 400, anything else with 500. *)
Theorem X21_handler_on_trip_validation (user : User) (data : TripSerializer.Data) :
  (exists e,
     TripSerializer.validate user data = Raise e
     /\ if earlier_checks_pass user data
        then utils.custom_exception_handler (utils.Raised e)
             = (HTTP_500_INTERNAL_SERVER_ERROR, utils.Message "An unexpected error occurred.")
        else exists field msg,
               utils.custom_exception_handler (utils.Raised e)
               = (HTTP_400_BAD_REQUEST, utils.Errors (Some field) msg))
  /\ (forall exc response,
        utils.exception_handler exc = Some response ->
        utils.custom_exception_handler exc = response)
  /\ (forall detail,
        (utils.custom_exception_handler (utils.Http404 detail)).1 = HTTP_404_NOT_FOUND
        /\ (utils.custom_exception_handler (utils.PermissionDenied detail)).1
           = HTTP_403_FORBIDDEN)
  /\ (forall column,
        (utils.custom_exception_handler (utils.Raised (IntegrityError column))).1
        = HTTP_400_BAD_REQUEST)
  /\ (forall exc,
        utils.exception_handler exc = None ->
        (forall column, exc <> utils.Raised (IntegrityError column)) ->
        utils.custom_exception_handler exc
        = (HTTP_500_INTERNAL_SERVER_ERROR, utils.Message "An unexpected error occurred.")).
Proof.
  split; [|split; [|split; [|split]]].
  - destruct (earlier_checks_pass user data) eqn:Hp.
    + eexists. split; [by apply validate_name_error|done].
    + destruct (validate_field_error _ _ Hp) as (field & msg & ->).
      eexists. split; [done|]. by exists field, msg.
  - intros exc response Hhandled. unfold utils.custom_exception_handler. by rewrite Hhandled.
  - done.
  - done.
  - intros exc Hnone Hother. unfold utils.custom_exception_handler. rewrite Hnone.
    destruct exc as [[field msg|name|column]|detail|detail|code detail|name]; try done.
    by destruct (Hother column).
Qed.

(** ** Report data *)

Lemma collect_lookup {V : Type} (obj : gmap string V) field_names : forall item k,
  utils.collect obj field_names item !! k
  = match (if bool_decide (k ∈ field_names) then obj !! k else None) with
    | Some v => Some v
    | None => item !! k
    end.
Proof.
  induction field_names as [|f rest IH]; intros item k; cbn [utils.collect].
  - by rewrite bool_decide_eq_false_2 by apply not_elem_of_nil.
  - destruct (decide (k = f)) as [->|Hne].
    + rewrite (bool_decide_eq_true_2 (f ∈ f :: rest)) by constructor.
      destruct (obj !! f) as [v|] eqn:Hf; rewrite IH, ?Hf.
      * case_bool_decide; [done|]. by rewrite lookup_insert_eq.
      * by case_bool_decide.
    + assert (bool_decide (k ∈ f :: rest) = bool_decide (k ∈ rest)) as ->.
      { apply bool_decide_ext. rewrite elem_of_cons. split; [by intros [?|?]|by right]. }
      destruct (obj !! f) as [v|] eqn:Hf; rewrite IH; [|done].
      by rewrite lookup_insert_ne.
Qed.

Lemma collect_restrict {V : Type} (obj : gmap string V) field_names :
  utils.collect obj field_names ∅
  = filter (fun kv : string * V => kv.1 ∈ field_names) obj.
Proof.
  apply map_eq. intros k. rewrite collect_lookup, lookup_empty.
  case_bool_decide as Hk.
  - destruct (obj !! k) as [v|] eqn:Hv; symmetry.
    + by apply map_lookup_filter_Some.
    + apply map_lookup_filter_None. by left.
  - symmetry. apply map_lookup_filter_None. right. intros v _. done.
Qed.

Lemma append_items_map {V : Type} (model_objects : list (gmap string V)) field_names :
  forall acc,
    utils.append_items model_objects field_names acc
    = (acc ++ ((fun obj => utils.collect obj field_names ∅) <$> model_objects))%list.
Proof.
  induction model_objects as [|obj rest IH]; intros acc; cbn [utils.append_items].
  - by rewrite app_nil_r.
  - by rewrite IH, <- app_assoc.
Qed.

(** X22. What a report holds.  [generate_report_data] returns one item per
    object, in the order of the objects; the item of an object is the object
    restricted to the attributes named in [field_names], so a name the
    object lacks is left out and the order and repetitions of the names make
    no difference; and [count] is the number of items. *)
Theorem X22_report_items {V : Type} (model_objects : list (gmap string V))
    (field_names : list string) (additional_data : option (gmap string V)) :
  let report := utils.generate_report_data model_objects field_names additional_data in
  utils.results report
  = (fun obj => filter (fun kv : string * V => kv.1 ∈ field_names) obj) <$> model_objects
  /\ utils.count report = length (utils.results report)
  /\ forall i item k,
       utils.results report !! i = Some item ->
       item !! k = (if bool_decide (k ∈ field_names)
                    then model_objects !! i ≫= (fun obj => obj !! k)
                    else None).
Proof.
  simpl. rewrite append_items_map. simpl.
  assert (Hres : ((fun obj => utils.collect obj field_names ∅) <$> model_objects)
                 = (fun obj => filter (fun kv : string * V => kv.1 ∈ field_names) obj)
                     <$> model_objects).
  { apply list_fmap_ext. intros _ obj _. apply collect_restrict. }
  split; [done|]. split; [by rewrite length_fmap|].
  intros i item k Hi. rewrite list_lookup_fmap in Hi.
  destruct (model_objects !! i) as [obj|]; [|done]. injection Hi as <-. simpl.
  rewrite collect_lookup, lookup_empty. case_bool_decide; [|done]. by destruct (obj !! k).
Qed.

(** ** The listing of active trips *)

Lemma trip_get_object_inl user pk db trip :
  TripViewSet.get_object user pk db = inl trip ->
  TripViewSet.has_permission user = true
  /\ trips db !! pk = Some trip
  /\ TripViewSet.in_queryset user trip = true.
Proof.
  unfold TripViewSet.get_object.
  destruct (TripViewSet.has_permission user); [|done]. simpl.
  destruct (trips db !! pk) as [t|]; [|done].
  destruct (TripViewSet.in_queryset user t) eqn:Hq; [|done].
  destruct (TicketViewSet.has_object_permission user _); [|done]. by intros [= <-].
Qed.

(** [get_object] reads the company of the row only. *)
Lemma trip_get_object_save user pk db trip db' trip' :
  TripViewSet.get_object user pk db = inl trip ->
  trips db' !! pk = Some trip' ->
  trip_company trip' = trip_company trip ->
  TripViewSet.get_object user pk db' = inl trip'.
Proof.
  unfold TripViewSet.get_object, TripViewSet.in_queryset. intros Hget Hpk' Hco.
  rewrite Hpk', Hco.
  destruct (negb (TripViewSet.has_permission user)); [done|].
  destruct (trips db !! pk) as [t0|]; [|done].
  destruct (user_company user) as [c|]; [|done].
  destruct (bool_decide (trip_company t0 = c)) eqn:Hq; [|done].
  destruct (TicketViewSet.has_object_permission user (trip_company t0)) eqn:Hp; [|done].
  injection Hget as ->. by rewrite Hq, Hp.
Qed.

Lemma active_lookup user db listing pk trip :
  TripViewSetActions.active user db = inl listing ->
  listing !! pk = Some trip
  <-> trips db !! pk = Some trip
      /\ TripViewSet.in_queryset user trip = true
      /\ trip_status trip = TripStatus.ACTIVE.
Proof.
  unfold TripViewSetActions.active.
  destruct (negb (TripViewSet.has_permission user)); [done|]. intros [= <-].
  by rewrite map_lookup_filter_Some.
Qed.

(** X23. A trip enters the active listing when it is started and leaves it
    when it is completed.  For a Scheduled trip within the caller's reach:
    the caller's active listing does not show it; after start_trip it shows
    it, Active and with the departure time of the request; after
    complete_trip it no longer does; and the entries of the listing for the
    other trips are the same throughout. *)
Theorem X23_active_listing
    (now now' : Z) (user : User) (pk : nat) (st : Store) (trip : Trip) :
  TripViewSet.get_object user pk (core st) = inl trip ->
  trip_status trip = TripStatus.SCHEDULED ->
  let started := (TripViewSetActions.start_trip now user pk st).1 in
  let completed := (TripViewSetActions.complete_trip now' user pk started).1 in
  exists before during after,
    TripViewSetActions.active user (core st) = inl before
    /\ TripViewSetActions.active user (core started) = inl during
    /\ TripViewSetActions.active user (core completed) = inl after
    /\ before !! pk = None
    /\ during !! pk
       = Some (trip_with_actual_departure (Some now)
                 (trip_with_status TripStatus.ACTIVE trip))
    /\ after !! pk = None
    /\ (forall k, k <> pk -> during !! k = before !! k /\ after !! k = before !! k)
    /\ exists trip',
         during !! pk = Some trip'
         /\ trip_status trip' = TripStatus.ACTIVE
         /\ trip_actual_departure trip' = Some now.
Proof.
  intros Hget Hst started completed.
  destruct (trip_get_object_inl _ _ _ _ Hget) as (Hperm & Hpk & Hq).
  set (trip1 := trip_with_actual_departure (Some now)
                  (trip_with_status TripStatus.ACTIVE trip)).
  set (trip2 := trip_with_actual_arrival (Some now')
                  (trip_with_status TripStatus.COMPLETED trip1)).
  assert (Hstarted : trips (core started) = <[pk := trip1]> (trips (core st))).
  { subst started. unfold TripViewSetActions.start_trip, on_core, TripViewSet.start_trip.
    rewrite Hget, Hst. by rewrite bool_decide_eq_false_2 by (intros H; by apply H). }
  assert (Hget1 : TripViewSet.get_object user pk (core started) = inl trip1).
  { apply (trip_get_object_save user pk (core st) trip); [done| |done].
    by rewrite Hstarted, lookup_insert_eq. }
  assert (Hcompleted : trips (core completed) = <[pk := trip2]> (trips (core started))).
  { subst completed. unfold TripViewSetActions.complete_trip, on_core, TripViewSet.complete_trip.
    rewrite Hget1. by rewrite bool_decide_eq_false_2 by (intros H; by apply H). }
  unfold TripViewSetActions.active. rewrite Hperm. simpl.
  do 3 eexists. split; [done|]. split; [done|]. split; [done|].
  rewrite Hcompleted, Hstarted.
  assert (Hduring : filter (fun kt : nat * Trip =>
                              TripViewSet.in_queryset user kt.2 = true
                              /\ trip_status kt.2 = TripStatus.ACTIVE)
                           (<[pk := trip1]> (trips (core st))) !! pk = Some trip1).
  { apply map_lookup_filter_Some. rewrite lookup_insert_eq.
    split; [done|]. split; [exact Hq|done]. }
  split; [|split; [|split; [|split]]].
  - apply map_lookup_filter_None. right. intros t Ht [_ Hs]. simpl in Hs. congruence.
  - exact Hduring.
  - apply map_lookup_filter_None. right. intros t Ht [_ Hs].
    rewrite lookup_insert_eq in Ht. injection Ht as <-. done.
  - intros k Hk.
    assert (Hlookup : forall m : gmap nat Trip,
              filter (fun kt : nat * Trip => TripViewSet.in_queryset user kt.2 = true
                                             /\ trip_status kt.2 = TripStatus.ACTIVE) m !! k
              = m !! k ≫= fun t => if bool_decide (TripViewSet.in_queryset user t = true
                                                    /\ trip_status t = TripStatus.ACTIVE)
                                   then Some t else None).
    { intros m. destruct (m !! k) as [t|] eqn:Hm; simpl.
      - case_bool_decide as Hp.
        + by apply map_lookup_filter_Some.
        + apply map_lookup_filter_None. right. intros t' Ht'. simpl. congruence.
      - apply map_lookup_filter_None. by left. }
    rewrite !Hlookup, !lookup_insert_ne by done. done.
  - exists trip1. split; [exact Hduring|done].
Qed.

Lemma X23_active_listing_witness :
  exists during,
    TripViewSetActions.active Sample.staff
      (core (TripViewSetActions.start_trip 100 Sample.staff 1 SampleStore.st).1) = inl during
    /\ is_Some (during !! 1%nat).
Proof.
  destruct (X23_active_listing 100 200 Sample.staff 1 SampleStore.st Sample.trip)
    as (before & during & after & _ & Hduring & _ & _ & Hpk & _).
  - vm_compute. reflexivity.
  - reflexivity.
  - exists during. split; [exact Hduring|]. rewrite Hpk. by eexists.
Defined.

(** ** Booking references *)

Definition unique_booking_references (db : DB) : Prop :=
  forall i j b1 b2,
    bookings db !! i = Some b1 -> bookings db !! j = Some b2 ->
    booking_booking_reference b1 = booking_booking_reference b2 -> i = j.

Lemma booking_reference_exists_false db ref :
  BookingSerializer.reference_exists db ref = false <->
  forall pk b, bookings db !! pk = Some b -> booking_booking_reference b <> ref.
Proof.
  unfold BookingSerializer.reference_exists. rewrite bool_decide_eq_false.
  rewrite map_not_Exists. done.
Qed.

(** X24. Creating a booking.  Provided one of the candidate references
    within the fuel is carried by no booking, [create] returns.  When it
    returns a booking, the booking is stored under a key that was free, for
    the caller's company and the customer of the request, with a reference
    of two capital letters and six digits that no earlier booking carries,
    and every ticket listed in the request is of that company.  When it
    raises, the store is the one before the request.  Either way no two
    bookings share a reference afterwards if none did before. *)
Theorem X24_booking_created
    (fuel : nat) (rng : nat -> nat) (user : User) (vd : BookingSerializer.CreateData)
    (db : DB) (j : nat) :
  unique_booking_references db ->
  (j < fuel)%nat ->
  BookingSerializer.reference_exists db (candidate rng j) = false ->
  exists db' insts res,
    BookingSerializer.create fuel rng user vd db = Some (db', insts, res)
    /\ unique_booking_references db'
    /\ match res with
       | Ok (pk, b) =>
           bookings db !! pk = None
           /\ bookings db' = <[pk := b]> (bookings db)
           /\ user_company user = Some (booking_company b)
           /\ booking_customer b = BookingSerializer.vd_customer vd
           /\ reference_format (booking_booking_reference b) = true
           /\ (forall pk' b', bookings db !! pk' = Some b' ->
                 booking_booking_reference b' <> booking_booking_reference b)
           /\ Forall (fun i => ticket_company (BookingSerializer.inst_row i)
                               = booking_company b)
                     (default [] (BookingSerializer.vd_tickets vd))
       | Raise _ => db' = db
       end.
Proof.
  intros Hu Hj Hfree.
  unfold BookingSerializer.create, BookingSerializer.atomic, BookingSerializer.create_body.
  destruct (BookingSerializer._generate_booking_reference fuel db rng) as [ref|] eqn:Hgen.
  2:{ exfalso. unfold BookingSerializer._generate_booking_reference in Hgen.
      destruct (regenerate_while_exists_total fuel (BookingSerializer.reference_exists db)
                  rng 8 (draw_reference rng 0) j Hj) as [? Hsome]; [|congruence].
      by rewrite tested_candidate. }
  unfold BookingSerializer._generate_booking_reference in Hgen.
  apply regenerate_while_exists_sound in Hgen as [Hnew Hfmt]; [|apply draw_reference_format].
  rewrite booking_reference_exists_false in Hnew.
  destruct (user_company user) as [c|]; [|by eexists _, _, _].
  set (b := mkBooking c (BookingSerializer.vd_customer vd) ref).
  set (bpk := fresh (dom (bookings db))).
  set (db1 := set_bookings (insert bpk b) db).
  pose proof (associate_bookings bpk b (default [] (BookingSerializer.vd_tickets vd)) db1) as Hb.
  destruct (decide (Forall (fun i => ticket_company (BookingSerializer.inst_row i)
                                     = booking_company b)
                           (default [] (BookingSerializer.vd_tickets vd)))) as [Hall|Hnot].
  - pose proof (associate_completes bpk b _ db1 Hall) as [He _].
    destruct (BookingSerializer.associate bpk b _ db1) as [[db2 rest'] e]. simpl in *.
    subst e. eexists _, _, _. split; [done|].
    assert (Hfree' : bookings db !! bpk = None) by apply not_elem_of_dom, is_fresh.
    split; [|done].
    intros i k b1 b2. rewrite Hb.
    destruct (decide (i = bpk)) as [->|Hi], (decide (k = bpk)) as [->|Hk];
      rewrite ?lookup_insert_eq, ?lookup_insert_ne by done; try done.
    + intros [= <-] Hk2 Heq. by destruct (Hnew k b2 Hk2).
    + intros Hi1 [= <-] Heq. by destruct (Hnew i b1 Hi1).
    + apply Hu.
  - apply not_Forall_Exists in Hnot; [|apply _].
    pose proof (associate_raises bpk b _ db1 Hnot) as [e He].
    destruct (BookingSerializer.associate bpk b _ db1) as [[db2 rest'] e']. simpl in *.
    subst e'. by eexists _, _, _.
Qed.

Lemma X24_booking_created_witness :
  exists db' insts res,
    BookingSerializer.create 1 Sample.rng Sample.staff
      (BookingSerializer.mkCreateData (BookingSerializer.load_tickets [5%nat] Sample.db) None)
      Sample.db = Some (db', insts, res)
    /\ unique_booking_references db'.
Proof.
  destruct (X24_booking_created 1 Sample.rng Sample.staff
              (BookingSerializer.mkCreateData (BookingSerializer.load_tickets [5%nat] Sample.db)
                 None) Sample.db 0)
    as (db' & insts & res & Hrun & Hu & _).
  - intros i k b1 b2 Hi. simpl in Hi. by rewrite lookup_empty in Hi.
  - lia.
  - vm_compute. reflexivity.
  - exists db', insts, res. split; [exact Hrun|exact Hu].
Defined.

(** ** What the field validators guarantee *)

(** X25. A receipt made from validated fields.  When the booking of the
    request has passed [validate_booking] and its issuer [validate_issued_by],
    a [create] that returns does not raise: it stores a receipt of the
    booking's own company, which is the caller's, and an issuer, when
    given, is an employee of that company and is recorded on the receipt. *)
Theorem X25_validated_receipt
    (fuel : nat) (rng : nat -> nat) (user : User) (vd : ReceiptSerializer.CreateData)
    (st st' : Store) (res : result (nat * Receipt)) :
  ReceiptSerializer.validate_booking user (ReceiptSerializer.vd_booking vd)
  = Ok (ReceiptSerializer.vd_booking vd) ->
  ReceiptSerializer.validate_issued_by user (ReceiptSerializer.vd_issued_by vd)
  = Ok (ReceiptSerializer.vd_issued_by vd) ->
  ReceiptSerializer.create fuel rng user vd st = Some (st', res) ->
  exists pk r,
    res = Ok (pk, r)
    /\ receipts st' !! pk = Some r
    /\ receipt_company r = booking_company (ReceiptSerializer.vd_booking vd).2
    /\ user_company user = Some (receipt_company r)
    /\ forall employee,
         ReceiptSerializer.vd_issued_by vd = Some employee ->
         TicketSerializerFields.employee_company employee = receipt_company r
         /\ receipt_issued_by r = Some (TicketSerializerFields.employee_id employee).
Proof.
  unfold ReceiptSerializer.validate_booking, ReceiptSerializer.validate_issued_by,
    ReceiptSerializer.create.
  intros Hbooking Hissuer.
  case_bool_decide as Hco; [done|]. clear Hbooking.
  destruct (ReceiptSerializer._generate_receipt_number fuel st rng) as [number|]; [|done].
  destruct (user_company user) as [c|]; [|done]. injection Hco as Hco.
  intros [= <- <-]. do 2 eexists. split; [done|]. simpl.
  rewrite lookup_insert_eq. split; [done|]. split; [congruence|]. split; [done|].
  intros employee Hemp. rewrite Hemp in Hissuer |- *.
  case_bool_decide as He; [done|]. split; [congruence|done].
Qed.

Lemma X25_validated_receipt_witness :
  exists pk r,
    ReceiptSerializer.create 1 Sample.rng SampleStore.manager
      (ReceiptSerializer.mkCreateData (5%nat, mkBooking 7 None "AB123456") 2500
         (Some (TicketSerializerFields.mkEmployee 4 7)))
      SampleStore.st
    = Some (mkStore Sample.db ∅ {[pk := r]}, Ok (pk, r))
    /\ receipt_issued_by r = Some 4%nat.
Proof.
  destruct (X25_validated_receipt 1 Sample.rng SampleStore.manager
              (ReceiptSerializer.mkCreateData (5%nat, mkBooking 7 None "AB123456") 2500
                 (Some (TicketSerializerFields.mkEmployee 4 7)))
              SampleStore.st _ _ eq_refl eq_refl eq_refl)
    as (pk & r & Hres & _ & _ & _ & Hissuer).
  injection Hres as <- <-. do 2 eexists. split; [reflexivity|].
  exact (proj2 (Hissuer _ eq_refl)).
Defined.

(** X26. A ticket made from validated fields.  When the trip of the request
    has passed [validate_trip] and its customer [validate_customer], a
    [create] that returns either stores a ticket of the caller's company, on
    a trip of that company and for a customer of that company (or for none),
    or rejects the request with an error on the trip field and changes
    nothing; it never fails for want of a company. *)
Theorem X26_validated_ticket
    (fuel : nat) (rng : nat -> nat) (now : Z) (user : User)
    (vd : TicketSerializer.CreateData) (customer : option User)
    (db db' : DB) (res : result (nat * Ticket)) :
  TicketSerializerFields.validate_trip user (TicketSerializer.vd_trip vd)
  = Ok (TicketSerializer.vd_trip vd) ->
  TicketSerializerFields.validate_customer user customer = Ok customer ->
  TicketSerializer.vd_customer vd = user_id <$> customer ->
  TicketSerializer.create fuel rng now user vd db = Some (db', res) ->
  (exists pk t,
     res = Ok (pk, t)
     /\ tickets db' !! pk = Some t
     /\ ticket_trip t = (TicketSerializer.vd_trip vd).1
     /\ ticket_company t = trip_company (TicketSerializer.vd_trip vd).2
     /\ user_company user = Some (ticket_company t)
     /\ ticket_customer t = user_id <$> customer
     /\ forall c, customer = Some c -> user_company c = Some (ticket_company t))
  \/ (exists msg, res = Raise (ValidationError (Some "trip") msg) /\ db' = db).
Proof.
  unfold TicketSerializerFields.validate_trip, TicketSerializerFields.validate_customer,
    TicketSerializer.create.
  intros Htrip Hcustomer Hvd.
  case_bool_decide as Hco; [done|]. clear Htrip.
  destruct (TicketSerializer._generate_booking_reference fuel db rng) as [ref|]; [|done].
  destruct (TicketSerializer.vd_trip vd) as [trip_pk trip] eqn:Htr. simpl in Hco.
  case_bool_decide; [intros [= <- <-]; right; by eexists|].
  case_bool_decide; [intros [= <- <-]; right; by eexists|].
  destruct (user_company user) as [c|] eqn:Hc; [|done]. injection Hco as Hco.
  intros [= <- <-]. left. do 2 eexists. split; [done|]. simpl.
  rewrite lookup_insert_eq, Htr. simpl.
  split; [done|]. split; [done|]. split; [congruence|]. split; [done|]. split; [done|].
  intros cu ->. case_bool_decide as Hcu; [done|]. congruence.
Qed.

Lemma X26_validated_ticket_witness :
  exists pk t,
    (TicketSerializer.create 1 Sample.rng 100 Sample.staff
       (TicketSerializer.mkCreateData (1%nat, Sample.trip) (Some 9%nat) None None)
       Sample.db) = Some (save_trip 1 (trip_with_booked_seats 2 Sample.trip)
                            (save_ticket pk t Sample.db), Ok (pk, t))
    /\ ticket_company t = 7%nat.
Proof.
  destruct (X26_validated_ticket 1 Sample.rng 100 Sample.staff
              (TicketSerializer.mkCreateData (1%nat, Sample.trip) (Some 9%nat) None None)
              (Some SampleStore.customer) Sample.db _ _ eq_refl eq_refl eq_refl eq_refl)
    as [(pk & t & Hres & _ & _ & Hco & _)|(msg & Hres & _)].
  - injection Hres as <- <-. do 2 eexists. split; [reflexivity|exact Hco].
  - discriminate Hres.
Defined.

Lemma assign_all_checked_in_by vd t :
  ticket_checked_in_by (TicketSerializer.assign_all vd t)
  = default (ticket_checked_in_by t) (TicketSerializer.upd_checked_in_by vd).
Proof.
  unfold TicketSerializer.assign_all.
  repeat (rewrite (set_if_present_keeps ticket_checked_in_by) by done).
  destruct (TicketSerializer.upd_checked_in_by vd); cbn [set_if_present default]; [done|].
  by repeat (rewrite (set_if_present_keeps ticket_checked_in_by) by done).
Qed.

(** X27. Who checked a ticket in.  When a ticket within the caller's reach
    is updated with a [checked_in_by] employee that has passed
    [validate_checked_in_by], the stored ticket names that employee, and the
    employee is of the ticket's own company. *)
Theorem X27_validated_check_in_employee
    (now : Z) (user : User) (pk : nat) (row : Ticket)
    (employee : option TicketSerializerFields.Employee)
    (upd : TicketSerializer.UpdateData) (db db' : DB) (pk' : nat) (t : Ticket) :
  TicketViewSet.get_object user pk db = inl row ->
  TicketSerializerFields.validate_checked_in_by user employee = Ok employee ->
  TicketSerializer.upd_checked_in_by upd
  = Some (TicketSerializerFields.employee_id <$> employee) ->
  TicketSerializer.update now (pk, row) upd db = (db', Ok (pk', t)) ->
  pk' = pk
  /\ tickets db' !! pk = Some t
  /\ ticket_checked_in_by t = TicketSerializerFields.employee_id <$> employee
  /\ forall e, employee = Some e ->
               TicketSerializerFields.employee_company e = ticket_company t.
Proof.
  intros Hget Hvalid Hupd. rewrite update_unfold. cbv zeta.
  destruct (_ && bool_decide (TicketSerializer.upd_cancellation_reason upd = None)); [done|].
  match goal with
  | |- (save_ticket _ (TicketSerializer.assign_all ?v _) _, _) = _ -> _ => set (vd2 := v)
  end.
  assert (Hvd2 : TicketSerializer.upd_checked_in_by vd2
                 = Some (TicketSerializerFields.employee_id <$> employee)).
  { subst vd2. by repeat match goal with |- context [if ?c then _ else _] => destruct c end. }
  intros [= <- <- <-].
  split; [done|]. split.
  { unfold save_ticket, set_tickets. cbn [tickets]. by rewrite lookup_insert_eq. }
  rewrite assign_all_checked_in_by, Hvd2.
  split; [done|].
  intros e ->. destruct (assign_all_read_only vd2 row) as [_ ->].
  unfold TicketSerializerFields.validate_checked_in_by in Hvalid.
  case_bool_decide as He; [done|].
  unfold TicketViewSet.get_object, TicketViewSet.in_queryset in Hget.
  destruct (tickets db !! pk) as [t0|]; [|done].
  destruct (user_company user) as [c|]; [|done].
  destruct (bool_decide (ticket_company t0 = c)) eqn:Hq; [|done].
  apply bool_decide_eq_true in Hq.
  repeat case_match; try done; injection Hget as <-; congruence.
Qed.

Lemma X27_validated_check_in_employee_witness :
  ticket_checked_in_by
    (TicketSerializer.assign_all
       (TicketSerializer.mkUpdateData None None None None (Some (Some 4%nat)) None None
          None None None None) Sample.ticket) = Some 4%nat.
Proof.
  destruct (X27_validated_check_in_employee 100 Sample.staff 5 Sample.ticket
              (Some (TicketSerializerFields.mkEmployee 4 7))
              (TicketSerializer.mkUpdateData None None None None (Some (Some 4%nat)) None None
                 None None None None)
              Sample.db _ _ _ eq_refl eq_refl eq_refl eq_refl)
    as (_ & _ & Hby & _).
  exact Hby.
Defined.

(** ** The receipts of a booking *)

(** Every receipt is for a booking of the store, and of its own company. *)
Definition receipt_inv (st : Store) : Prop :=
  forall pk r, receipts st !! pk = Some r ->
    exists b, bookings (core st) !! receipt_booking r = Some b
              /\ booking_company b = receipt_company r.

Lemma booking_get_object_inl user pk db b :
  BookingViewSet.get_object user pk db = inl b ->
  bookings db !! pk = Some b /\ BookingViewSet.in_queryset user b = true.
Proof.
  unfold BookingViewSet.get_object.
  destruct (bookings db !! pk) as [b0|]; [|done].
  destruct (BookingViewSet.in_queryset user b0) eqn:Hq; [|done].
  destruct (TicketViewSet.has_object_permission user _); [|done]. by intros [= <-].
Qed.

(** X28. The receipts of a booking and the receipt listing agree.  In a
    store where every receipt is for a booking of its own company, which a
    creation from a validated booking read from the store keeps so, the
    [receipts] action on a booking within the caller's reach returns exactly
    the receipts of the caller's own receipt queryset that are for this
    booking: a customer is shown no receipt there that the receipt listing
    would hide. *)
Theorem X28_booking_receipts
    (user : User) (pk : nat) (st : Store) (listing : gmap nat Receipt) :
  receipt_inv st ->
  BookingViewSet.receipts user pk st = inl listing ->
  (forall k r,
     listing !! k = Some r
     <-> ReceiptViewSet.get_queryset user st !! k = Some r /\ receipt_booking r = pk)
  /\ forall fuel rng vd st' res,
       bookings (core st) !! (ReceiptSerializer.vd_booking vd).1
       = Some (ReceiptSerializer.vd_booking vd).2 ->
       ReceiptSerializer.validate_booking user (ReceiptSerializer.vd_booking vd)
       = Ok (ReceiptSerializer.vd_booking vd) ->
       ReceiptSerializer.create fuel rng user vd st = Some (st', res) ->
       receipt_inv st'.
Proof.
  intros Hinv Hrun. split.
  - unfold BookingViewSet.receipts in Hrun.
    destruct (BookingViewSet.get_object user pk (core st)) as [b|resp] eqn:Hget; [|done].
    injection Hrun as <-.
    apply booking_get_object_inl in Hget as [Hpk Hq].
    intros k r. unfold ReceiptViewSet.get_queryset.
    rewrite !map_lookup_filter_Some. simpl. split.
    + intros [Hk <-]. split; [|done]. split; [done|].
      destruct (Hinv k r Hk) as (b' & Hb' & Hco).
      rewrite Hpk in Hb'. injection Hb' as <-.
      unfold ReceiptViewSet.in_queryset, BookingViewSet.in_queryset in *.
      destruct (user_company user) as [c|]; [|done]. rewrite Hpk, <- Hco. done.
    + by intros [[Hk _] Hb].
  - intros fuel rng vd st' res Hread Hvalid.
    unfold ReceiptSerializer.validate_booking in Hvalid.
    case_bool_decide as Hco; [done|]. clear Hvalid.
    unfold ReceiptSerializer.create.
    destruct (ReceiptSerializer._generate_receipt_number fuel st rng) as [number|]; [|done].
    destruct (user_company user) as [c|]; [|by intros [= <- <-]].
    injection Hco as Hco. intros [= <- <-] k r. simpl.
    destruct (decide (k = fresh (dom (receipts st)))) as [->|Hne].
    + rewrite lookup_insert_eq. intros [= <-]. simpl. eexists. split; [exact Hread|done].
    + rewrite lookup_insert_ne by done. apply Hinv.
Qed.

Module SampleReceipts.
Definition booking : Booking := mkBooking 7 (Some 9%nat) "AB123456".
Definition receipt : Receipt := mkReceipt 7 5 "R123456789" 2500 None.
Definition st : Store :=
  mkStore (mkDB ∅ ∅ [] ∅ {[5%nat := booking]} ∅) ∅ {[0%nat := receipt]}.
End SampleReceipts.

Lemma X28_booking_receipts_witness :
  ReceiptViewSet.get_queryset SampleStore.customer SampleReceipts.st !! 0%nat
  = Some SampleReceipts.receipt.
Proof.
  assert (Hinv : receipt_inv SampleReceipts.st).
  { intros pk r Hpk. simpl in *. apply lookup_singleton_Some in Hpk as [_ <-].
    by exists SampleReceipts.booking. }
  destruct (X28_booking_receipts SampleStore.customer 5 SampleReceipts.st
              {[0%nat := SampleReceipts.receipt]} Hinv) as [Hlist _].
  - vm_compute. reflexivity.
  - destruct (proj1 (Hlist 0%nat SampleReceipts.receipt)) as [Hq _];
      [reflexivity|exact Hq].
Defined.

(** ** Trip stops *)

(** X29. What [TripStopSerializer.validate] accepts, and what it does with
    keys left out.  It returns the data, unchanged, exactly when the trip
    and the route stop are of the caller's company, the route stop is on the
    trip's route, and the scheduled departure is after the scheduled
    arrival.  When the request leaves out the trip, as a partial update
    may, it raises AttributeError whatever else the request holds; and when
    the tenant and route checks pass but one of the two times is missing it
    raises TypeError.  Neither is a validation error. *)
Theorem X29_trip_stop_validate (user : User) (data : TripStopSerializer.Data) :
  (forall data',
     TripStopSerializer.validate user data = inr data'
     <-> data' = data
         /\ exists trip route_stop arrival departure,
              TripStopSerializer.d_trip data = Some trip
              /\ TripStopSerializer.d_route_stop data = Some route_stop
              /\ TripStopSerializer.d_scheduled_arrival data = Some arrival
              /\ TripStopSerializer.d_scheduled_departure data = Some departure
              /\ user_company user = Some (TripStopSerializer.trip_company trip)
              /\ user_company user
                 = Some (TripStopSerializer.route_stop_company route_stop)
              /\ TripStopSerializer.route_stop_route route_stop
                 = TripStopSerializer.trip_route trip
              /\ arrival < departure)
  /\ (TripStopSerializer.d_trip data = None ->
      TripStopSerializer.validate user data
      = inl (TripStopSerializer.AttributeError "company"))
  /\ (forall trip route_stop,
        TripStopSerializer.d_trip data = Some trip ->
        TripStopSerializer.d_route_stop data = Some route_stop ->
        user_company user = Some (TripStopSerializer.trip_company trip) ->
        user_company user = Some (TripStopSerializer.route_stop_company route_stop) ->
        TripStopSerializer.route_stop_route route_stop = TripStopSerializer.trip_route trip ->
        TripStopSerializer.d_scheduled_arrival data = None
        \/ TripStopSerializer.d_scheduled_departure data = None ->
        TripStopSerializer.validate user data = inl (TripStopSerializer.TypeError "<=")).
Proof.
  split; [|split].
  - intros data'. split.
    + unfold TripStopSerializer.validate.
      destruct (TripStopSerializer.d_trip data) as [trip|] eqn:Ht; [|done].
      case_bool_decide as H1; [done|].
      destruct (TripStopSerializer.d_route_stop data) as [route_stop|] eqn:Hr; [|done].
      case_bool_decide as H2; [done|]. case_bool_decide as H3; [done|].
      destruct (TripStopSerializer.d_scheduled_departure data) as [departure|] eqn:Hd; [|done].
      destruct (TripStopSerializer.d_scheduled_arrival data) as [arrival|] eqn:Ha; [|done].
      case_bool_decide as H4; [done|]. intros [= <-]. split; [done|].
      exists trip, route_stop, arrival, departure.
      repeat split; try done; try congruence. lia.
    + intros [-> (trip & route_stop & arrival & departure
                  & Ht & Hr & Ha & Hd & Hc1 & Hc2 & Hroute & Hlt)].
      unfold TripStopSerializer.validate. rewrite Ht, Hr, Ha, Hd.
      rewrite (bool_decide_eq_false_2 (departure <= arrival)) by lia.
      by rewrite !bool_decide_eq_false_2 by (intros Hne; apply Hne; congruence).
  - intros Ht. unfold TripStopSerializer.validate. by rewrite Ht.
  - intros trip route_stop Ht Hr Hc1 Hc2 Hroute Hmissing.
    unfold TripStopSerializer.validate. rewrite Ht, Hr.
    rewrite !bool_decide_eq_false_2 by (intros Hne; apply Hne; congruence).
    destruct Hmissing as [-> | ->];
      [by destruct (TripStopSerializer.d_scheduled_departure data)|done].
Qed.

(** ** The expiry stamp of a new ticket *)

(** X30. The 24-hour expiry is stamped from the status the request names,
    not from the status the ticket is stored with.  When [create] succeeds:
    a request that names the status Reserved and gives no expires_at is
    stored with expires_at = now + 24h; a request that names no status and
    gives no expires_at is stored Reserved, by the model default, with
    expires_at NULL; and an expires_at given in the request is stored as
    given. *)
Theorem X30_expiry_stamp_reads_request
    (fuel : nat) (rng : nat -> nat) (now : Z) (user : User)
    (vd : TicketSerializer.CreateData) (db db' : DB) (pk : nat) (t : Ticket) :
  TicketSerializer.create fuel rng now user vd db = Some (db', Ok (pk, t)) ->
  tickets db' !! pk = Some t
  /\ (TicketSerializer.vd_status vd = Some TicketStatus.RESERVED ->
      TicketSerializer.vd_expires_at vd = None ->
      ticket_status t = TicketStatus.RESERVED
      /\ ticket_expires_at t = Some (now + 24 * 3600))
  /\ (TicketSerializer.vd_status vd = None ->
      TicketSerializer.vd_expires_at vd = None ->
      ticket_status t = TicketStatus.RESERVED /\ ticket_expires_at t = None)
  /\ (forall e, TicketSerializer.vd_expires_at vd = Some e -> ticket_expires_at t = e).
Proof.
  unfold TicketSerializer.create.
  destruct (TicketSerializer._generate_booking_reference fuel db rng) as [ref|]; [|done].
  destruct (TicketSerializer.vd_trip vd) as [trip_pk trip].
  repeat (case_bool_decide; [done|]).
  destruct (user_company user) as [c|]; [|done].
  intros [= <- <- <-]. split.
  { unfold save_trip, set_trips, save_ticket, set_tickets. cbn [tickets].
    apply lookup_insert_eq. }
  split; [|split].
  - intros Hst Hexp. simpl. rewrite Hst, Hexp. by rewrite !bool_decide_eq_true_2.
  - intros Hst Hexp. simpl. rewrite Hst, Hexp. done.
  - intros e He. simpl. rewrite He.
    rewrite (bool_decide_eq_false_2 (Some e = None)) by done.
    by rewrite andb_false_r.
Qed.

Lemma X30_expiry_stamp_reads_request_witness :
  exists db' pk t,
    TicketSerializer.create 1 Sample.rng 100 Sample.staff
      (TicketSerializer.mkCreateData (1%nat, Sample.trip) None None None) Sample.db
    = Some (db', Ok (pk, t))
    /\ ticket_status t = TicketStatus.RESERVED
    /\ ticket_expires_at t = None.
Proof.
  eexists _, _, _. split; [vm_compute; reflexivity|].
  refine (proj1 (proj2 (proj2 (X30_expiry_stamp_reads_request 1 Sample.rng 100 Sample.staff
                                 (TicketSerializer.mkCreateData (1%nat, Sample.trip)
                                    None None None)
                                 Sample.db _ _ _ _))) eq_refl eq_refl).
  vm_compute. reflexivity.
Defined.
